(** * kTLS receive offload of the mlx5 Ethernet driver: resynchronisation engine

    Shallow embedding of
    [drivers/net/ethernet/mellanox/mlx5/core/en_accel/ktls_rx.c].

    The driver state of one TLS receive connection is a [world]: the heap of
    [kzalloc]'ed offload contexts and response buffers, the driver-context
    slot of the socket's [tls_context], the channel's asynchronous ICOSQ, the
    receive-queue statistics, the clock and the log of the calls made to the
    collaborators (firmware commands, workqueue, TLS core).  Every C
    function is a computation of the monad [M]; pointers are heap addresses,
    so a dereference of [NULL] or of freed memory is a [Fault]. *)

From Stdlib Require Import ZArith List Bool Lia.
From stdpp Require Import base option gmap list.

Local Open Scope Z_scope.

(** ** Constants and helpers of the headers *)

(** [include/uapi/asm-generic/errno-base.h] *)
Definition ENOMEM : Z := 12.
Definition ENOSPC : Z := 28.

(** What [ktls_rx.c] takes from the driver's headers ([en/txrx.h],
    [en_accel/ktls_utils.h], [linux/jiffies.h]); their definitions are not
    part of the file, so they are the parameters of the development. *)
Class ktls_hw := {
  MLX5E_TLS_SET_STATIC_PARAMS_WQEBBS : Z;
  MLX5E_TLS_SET_PROGRESS_PARAMS_WQEBBS : Z;
  mlx5e_stop_room_for_wqe : Z → Z;
  (* mlx5e_wqc_has_room_for(wq, cc, pc, n) *)
  mlx5e_wqc_has_room_for : Z → Z → Z → Z → bool;
  (* the producer index of mlx5e_icosq_get_next_pi(sq, size), from wq and pc *)
  mlx5e_icosq_get_next_pi : Z → Z → Z → Z;
  MLX5E_TLS_PROGRESS_PARAMS_RECORD_TRACKER_STATE_TRACKING : Z;
  MLX5E_TLS_PROGRESS_PARAMS_AUTH_STATE_NO_OFFLOAD : Z;
  cpu_to_be32 : Z → Z;
  msecs_to_jiffies : Z → Z
}.

(** [u16] and [u64] arithmetic of the producer counter and of the
    statistics counters. *)
Definition u16_add (a b : Z) : Z := (a + b) mod 2 ^ 16.
Definition u64_inc (a : Z) : Z := (a + 1) mod 2 ^ 64.

(** ** Data model *)

(** Addresses returned by [kzalloc]. *)
Abbreviation ptr := positive (only parsing).

(** [enum { MLX5E_PRIV_RX_FLAG_DELETING, MLX5E_NUM_PRIV_RX_FLAGS }] *)
Definition MLX5E_PRIV_RX_FLAG_DELETING : Z := 0.

Definition test_bit (nr flags : Z) : bool := Z.testbit flags nr.
Definition set_bit (nr flags : Z) : Z := Z.lor flags (Z.shiftl 1 nr).

(** [struct tls12_crypto_info_aes_gcm_128]: the record sequence number is
    the field the driver rewrites, the rest (version, key, salt, iv) is
    carried along. *)
Record tls12_crypto_info_aes_gcm_128 := {
  rec_seq : Z;
  key_material : Z
}.

(** [struct accel_rule]; [rule_work_pending] is the pending bit of
    [rule.work]. *)
Record accel_rule := {
  rule_work_pending : bool;
  rule_handle : option Z
}.

(** [struct mlx5e_ktls_rx_resync_ctx]; [work_pending] is the pending bit of
    [resync.work]. *)
Record mlx5e_ktls_rx_resync_ctx := {
  work_pending : bool;
  refcnt : Z;
  sw_rcd_sn_be : Z;
  seq : Z
}.

(** [struct mlx5e_ktls_offload_context_rx]; [add_ctx] is the [done] count
    of the completion. *)
Record mlx5e_ktls_offload_context_rx := {
  crypto_info : tls12_crypto_info_aes_gcm_128;
  rule : accel_rule;
  sk : Z;
  add_ctx : nat;
  tirn : Z;
  key_id : Z;
  rxq : Z;
  flags : Z;
  resync : mlx5e_ktls_rx_resync_ctx
}.

(** The progress parameters the device writes into a response buffer. *)
Record tls_progress_params := {
  record_tracker_state : Z;
  auth_state : Z;
  hw_resync_tcp_sn : Z
}.

(** [struct mlx5e_ktls_rx_resync_buf] *)
Record mlx5e_ktls_rx_resync_buf := {
  progress : tls_progress_params;
  dma_addr : Z;
  buf_priv_rx : option ptr
}.

(** The receive-queue counters the file updates ([struct mlx5e_rq_stats]). *)
Record mlx5e_rq_stats := {
  tls_resync_req_skip : Z;
  tls_resync_req_end : Z;
  tls_resync_res_ok : Z;
  tls_resync_res_skip : Z;
  tls_ctx : Z;
  tls_del : Z
}.

Inductive icosq_wqe_type :=
| MLX5E_ICOSQ_WQE_UMR_TLS
| MLX5E_ICOSQ_WQE_SET_PSV_TLS
| MLX5E_ICOSQ_WQE_GET_PSV_TLS.

(** The union of [struct mlx5e_icosq_wqe_info]. *)
Inductive wqe_info_payload :=
| tls_set_params (priv_rx : ptr)
| tls_get_params (buf : ptr).

Record mlx5e_icosq_wqe_info := {
  wqe_type : icosq_wqe_type;
  num_wqebbs : Z;
  wi_payload : wqe_info_payload
}.

(** The work-queue entries, each with the arguments its builder received:
    [mlx5e_ktls_build_static_params(wqe, pc, sqn, info, tirn, key_id,
    resync_tcp_sn, fence, direction)],
    [mlx5e_ktls_build_progress_params(wqe, pc, sqn, tirn, fence,
    next_record_tcp_sn, direction)] and the GET_PSV entry written in place
    (producer counter, queue number, [psv_index[0]], [va]). *)
Inductive tls_wqe :=
| set_tls_static_params_wqe
    (pc sqn : Z) (info : tls12_crypto_info_aes_gcm_128)
    (wqe_tirn wqe_key_id resync_tcp_sn : Z) (fence : bool)
| set_tls_progress_params_wqe
    (pc sqn wqe_tirn : Z) (fence : bool) (next_record_tcp_sn : Z)
| get_tls_progress_params_wqe (pc sqn psv_index va : Z).

(** [struct mlx5e_icosq]: consumer and producer counters, queue number, the
    cyclic work queue, and the entries posted so far in posting order, each
    with its producer index, its [wqe_info] and its contents. *)
Record mlx5e_icosq := {
  sq_cc : Z;
  sq_pc : Z;
  sq_sqn : Z;
  sq_wq : Z;
  sq_posted : list (Z * mlx5e_icosq_wqe_info * tls_wqe)
}.

(** Calls to the collaborators, in program order. *)
Inductive event :=
| Ev_create_key (err id : Z)
| Ev_create_tir (rqtn err tir : Z)
| Ev_destroy_tir (tir : Z)
| Ev_destroy_key (id : Z)
| Ev_kfree_priv_rx (p : ptr)
| Ev_kfree_buf (b : ptr)
| Ev_dma_map_single (b : ptr) (addr : Z)
| Ev_dma_sync_single_for_cpu (addr : Z)
| Ev_init_completion (p : ptr)
| Ev_complete (p : ptr)
| Ev_wait_for_completion (p : ptr)
| Ev_notify_hw (pc : Z)
| Ev_fs_add_sk (s tir : Z)
| Ev_fs_del_sk (h : Z)
| Ev_resync_async_request_end (s seq_be : Z)
| Ev_resync_set_type (s : Z)
| Ev_refcount_inc (p : ptr)
| Ev_refcount_dec (p : ptr)
| Ev_refcount_read (p : ptr) (v : Z)
| Ev_queue_work_resync (p : ptr) (queued : bool)
| Ev_queue_work_rule (p : ptr) (queued : bool)
| Ev_cancel_work_sync_rule (p : ptr) (was_pending : bool)
| Ev_cancel_work_sync_resync (p : ptr) (was_pending : bool)
| Ev_napi_synchronize
| Ev_msleep (msecs : Z)
| Ev_netdev_warn (v : Z).

Record world := {
  priv_rxs : gmap positive mlx5e_ktls_offload_context_rx;
  resync_bufs : gmap positive mlx5e_ktls_rx_resync_buf;
  (* *__tls_driver_ctx(tls_ctx, TLS_OFFLOAD_CTX_DIR_RX) *)
  driver_ctx : option ptr;
  (* tls_offload_ctx_rx(tls_ctx)->resync_async *)
  resync_async : option ptr;
  (* c->async_icosq of the connection's channel *)
  async_icosq : mlx5e_icosq;
  (* priv->channel_stats[rxq].rq *)
  stats : mlx5e_rq_stats;
  jiffies : Z;
  trace : list event
}.

(** ** Field updates *)

Definition set_rec_seq (v : Z) (i : tls12_crypto_info_aes_gcm_128) :=
  {| rec_seq := v; key_material := key_material i |}.

Definition set_rule_work_pending (b : bool) (r : accel_rule) :=
  {| rule_work_pending := b; rule_handle := rule_handle r |}.
Definition set_rule_handle (h : option Z) (r : accel_rule) :=
  {| rule_work_pending := rule_work_pending r; rule_handle := h |}.

Definition set_work_pending (b : bool) (r : mlx5e_ktls_rx_resync_ctx) :=
  {| work_pending := b; refcnt := refcnt r;
     sw_rcd_sn_be := sw_rcd_sn_be r; seq := seq r |}.
Definition set_refcnt (v : Z) (r : mlx5e_ktls_rx_resync_ctx) :=
  {| work_pending := work_pending r; refcnt := v;
     sw_rcd_sn_be := sw_rcd_sn_be r; seq := seq r |}.
Definition set_sw_rcd_sn_be (v : Z) (r : mlx5e_ktls_rx_resync_ctx) :=
  {| work_pending := work_pending r; refcnt := refcnt r;
     sw_rcd_sn_be := v; seq := seq r |}.
Definition set_seq (v : Z) (r : mlx5e_ktls_rx_resync_ctx) :=
  {| work_pending := work_pending r; refcnt := refcnt r;
     sw_rcd_sn_be := sw_rcd_sn_be r; seq := v |}.

Definition with_crypto_info
    (f : tls12_crypto_info_aes_gcm_128 → tls12_crypto_info_aes_gcm_128)
    (c : mlx5e_ktls_offload_context_rx) :=
  {| crypto_info := f (crypto_info c); rule := rule c; sk := sk c;
     add_ctx := add_ctx c; tirn := tirn c; key_id := key_id c; rxq := rxq c;
     flags := flags c; resync := resync c |}.
Definition with_rule (f : accel_rule → accel_rule)
    (c : mlx5e_ktls_offload_context_rx) :=
  {| crypto_info := crypto_info c; rule := f (rule c); sk := sk c;
     add_ctx := add_ctx c; tirn := tirn c; key_id := key_id c; rxq := rxq c;
     flags := flags c; resync := resync c |}.
Definition with_add_ctx (f : nat → nat) (c : mlx5e_ktls_offload_context_rx) :=
  {| crypto_info := crypto_info c; rule := rule c; sk := sk c;
     add_ctx := f (add_ctx c); tirn := tirn c; key_id := key_id c;
     rxq := rxq c; flags := flags c; resync := resync c |}.
Definition set_sk (v : Z) (c : mlx5e_ktls_offload_context_rx) :=
  {| crypto_info := crypto_info c; rule := rule c; sk := v;
     add_ctx := add_ctx c; tirn := tirn c; key_id := key_id c; rxq := rxq c;
     flags := flags c; resync := resync c |}.
Definition set_tirn (v : Z) (c : mlx5e_ktls_offload_context_rx) :=
  {| crypto_info := crypto_info c; rule := rule c; sk := sk c;
     add_ctx := add_ctx c; tirn := v; key_id := key_id c; rxq := rxq c;
     flags := flags c; resync := resync c |}.
Definition set_key_id (v : Z) (c : mlx5e_ktls_offload_context_rx) :=
  {| crypto_info := crypto_info c; rule := rule c; sk := sk c;
     add_ctx := add_ctx c; tirn := tirn c; key_id := v; rxq := rxq c;
     flags := flags c; resync := resync c |}.
Definition set_rxq (v : Z) (c : mlx5e_ktls_offload_context_rx) :=
  {| crypto_info := crypto_info c; rule := rule c; sk := sk c;
     add_ctx := add_ctx c; tirn := tirn c; key_id := key_id c; rxq := v;
     flags := flags c; resync := resync c |}.
Definition with_flags (f : Z → Z) (c : mlx5e_ktls_offload_context_rx) :=
  {| crypto_info := crypto_info c; rule := rule c; sk := sk c;
     add_ctx := add_ctx c; tirn := tirn c; key_id := key_id c; rxq := rxq c;
     flags := f (flags c); resync := resync c |}.
Definition with_resync
    (f : mlx5e_ktls_rx_resync_ctx → mlx5e_ktls_rx_resync_ctx)
    (c : mlx5e_ktls_offload_context_rx) :=
  {| crypto_info := crypto_info c; rule := rule c; sk := sk c;
     add_ctx := add_ctx c; tirn := tirn c; key_id := key_id c; rxq := rxq c;
     flags := flags c; resync := f (resync c) |}.

Definition with_priv_rxs
    (f : gmap positive mlx5e_ktls_offload_context_rx →
         gmap positive mlx5e_ktls_offload_context_rx) (w : world) :=
  {| priv_rxs := f (priv_rxs w); resync_bufs := resync_bufs w;
     driver_ctx := driver_ctx w; resync_async := resync_async w;
     async_icosq := async_icosq w; stats := stats w; jiffies := jiffies w;
     trace := trace w |}.
Definition with_resync_bufs
    (f : gmap positive mlx5e_ktls_rx_resync_buf →
         gmap positive mlx5e_ktls_rx_resync_buf) (w : world) :=
  {| priv_rxs := priv_rxs w; resync_bufs := f (resync_bufs w);
     driver_ctx := driver_ctx w; resync_async := resync_async w;
     async_icosq := async_icosq w; stats := stats w; jiffies := jiffies w;
     trace := trace w |}.
Definition with_driver_ctx (p : option ptr) (w : world) :=
  {| priv_rxs := priv_rxs w; resync_bufs := resync_bufs w;
     driver_ctx := p; resync_async := resync_async w;
     async_icosq := async_icosq w; stats := stats w; jiffies := jiffies w;
     trace := trace w |}.
Definition with_resync_async (p : option ptr) (w : world) :=
  {| priv_rxs := priv_rxs w; resync_bufs := resync_bufs w;
     driver_ctx := driver_ctx w; resync_async := p;
     async_icosq := async_icosq w; stats := stats w; jiffies := jiffies w;
     trace := trace w |}.
Definition with_async_icosq (f : mlx5e_icosq → mlx5e_icosq) (w : world) :=
  {| priv_rxs := priv_rxs w; resync_bufs := resync_bufs w;
     driver_ctx := driver_ctx w; resync_async := resync_async w;
     async_icosq := f (async_icosq w); stats := stats w;
     jiffies := jiffies w; trace := trace w |}.
Definition with_stats (f : mlx5e_rq_stats → mlx5e_rq_stats) (w : world) :=
  {| priv_rxs := priv_rxs w; resync_bufs := resync_bufs w;
     driver_ctx := driver_ctx w; resync_async := resync_async w;
     async_icosq := async_icosq w; stats := f (stats w);
     jiffies := jiffies w; trace := trace w |}.
Definition with_jiffies (f : Z → Z) (w : world) :=
  {| priv_rxs := priv_rxs w; resync_bufs := resync_bufs w;
     driver_ctx := driver_ctx w; resync_async := resync_async w;
     async_icosq := async_icosq w; stats := stats w;
     jiffies := f (jiffies w); trace := trace w |}.
Definition with_trace (f : list event → list event) (w : world) :=
  {| priv_rxs := priv_rxs w; resync_bufs := resync_bufs w;
     driver_ctx := driver_ctx w; resync_async := resync_async w;
     async_icosq := async_icosq w; stats := stats w; jiffies := jiffies w;
     trace := f (trace w) |}.

Definition inc_tls_resync_req_skip (s : mlx5e_rq_stats) :=
  {| tls_resync_req_skip := u64_inc (tls_resync_req_skip s);
     tls_resync_req_end := tls_resync_req_end s;
     tls_resync_res_ok := tls_resync_res_ok s;
     tls_resync_res_skip := tls_resync_res_skip s;
     tls_ctx := tls_ctx s; tls_del := tls_del s |}.
Definition inc_tls_resync_req_end (s : mlx5e_rq_stats) :=
  {| tls_resync_req_skip := tls_resync_req_skip s;
     tls_resync_req_end := u64_inc (tls_resync_req_end s);
     tls_resync_res_ok := tls_resync_res_ok s;
     tls_resync_res_skip := tls_resync_res_skip s;
     tls_ctx := tls_ctx s; tls_del := tls_del s |}.
Definition inc_tls_resync_res_ok (s : mlx5e_rq_stats) :=
  {| tls_resync_req_skip := tls_resync_req_skip s;
     tls_resync_req_end := tls_resync_req_end s;
     tls_resync_res_ok := u64_inc (tls_resync_res_ok s);
     tls_resync_res_skip := tls_resync_res_skip s;
     tls_ctx := tls_ctx s; tls_del := tls_del s |}.
Definition inc_tls_resync_res_skip (s : mlx5e_rq_stats) :=
  {| tls_resync_req_skip := tls_resync_req_skip s;
     tls_resync_req_end := tls_resync_req_end s;
     tls_resync_res_ok := tls_resync_res_ok s;
     tls_resync_res_skip := u64_inc (tls_resync_res_skip s);
     tls_ctx := tls_ctx s; tls_del := tls_del s |}.
Definition inc_tls_ctx (s : mlx5e_rq_stats) :=
  {| tls_resync_req_skip := tls_resync_req_skip s;
     tls_resync_req_end := tls_resync_req_end s;
     tls_resync_res_ok := tls_resync_res_ok s;
     tls_resync_res_skip := tls_resync_res_skip s;
     tls_ctx := u64_inc (tls_ctx s); tls_del := tls_del s |}.
Definition inc_tls_del (s : mlx5e_rq_stats) :=
  {| tls_resync_req_skip := tls_resync_req_skip s;
     tls_resync_req_end := tls_resync_req_end s;
     tls_resync_res_ok := tls_resync_res_ok s;
     tls_resync_res_skip := tls_resync_res_skip s;
     tls_ctx := tls_ctx s; tls_del := u64_inc (tls_del s) |}.

(** ** The monad of driver code *)

Inductive fault := NULL_DEREF | USE_AFTER_FREE.

(** A call returns ([Ok]), dereferences an invalid pointer ([Fault]) or
    sleeps on an event no other thread is left to signal ([Blocked]). *)
Inductive outcome (A : Type) :=
| Ok (a : A) (w : world)
| Fault (f : fault)
| Blocked.
Arguments Ok {A} a w.
Arguments Fault {A} f.
Arguments Blocked {A}.

Definition M (A : Type) : Type := world → outcome A.

Definition ret {A} (a : A) : M A := λ w, Ok a w.

Definition bind {A B} (m : M A) (f : A → M B) : M B := λ w,
  match m w with
  | Ok a w' => f a w'
  | Fault e => Fault e
  | Blocked => Blocked
  end.

Declare Scope ktls_scope.
Notation "x ← y ; z" := (bind y (λ x, z))
  (at level 20, y at level 100, z at level 200, only parsing) : ktls_scope.
Notation "x ;; z" := (bind x (λ _, z))
  (at level 100, z at level 200, only parsing, right associativity)
  : ktls_scope.
Local Open Scope ktls_scope.

Definition get : M world := λ w, Ok w w.
Definition modify (f : world → world) : M unit := λ w, Ok tt (f w).
Definition raise {A} (e : fault) : M A := λ _, Fault e.
Definition block {A} : M A := λ _, Blocked.
Definition emit (e : event) : M unit := modify (with_trace (λ t, t ++ [e])).
Definition skip : M unit := ret tt.

(** [*p] for a context pointer that is not [NULL]. *)
Definition load_priv_rx (p : ptr) : M mlx5e_ktls_offload_context_rx :=
  w ← get;
  match priv_rxs w !! p with
  | Some c => ret c
  | None => raise USE_AFTER_FREE
  end.

(** A store into [*p]. *)
Definition update_priv_rx (p : ptr)
    (f : mlx5e_ktls_offload_context_rx → mlx5e_ktls_offload_context_rx)
    : M unit :=
  c ← load_priv_rx p;
  modify (with_priv_rxs (insert p (f c))).

Definition load_buf (b : ptr) : M mlx5e_ktls_rx_resync_buf :=
  w ← get;
  match resync_bufs w !! b with
  | Some x => ret x
  | None => raise USE_AFTER_FREE
  end.

Definition update_buf (b : ptr)
    (f : mlx5e_ktls_rx_resync_buf → mlx5e_ktls_rx_resync_buf) : M unit :=
  x ← load_buf b;
  modify (with_resync_bufs (insert b (f x))).

(** ** Kernel primitives used by the file *)

(** [refcount_inc], [refcount_dec] and [refcount_read] on
    [priv_rx->resync.refcnt]. *)
Definition refcount_inc (p : ptr) : M unit :=
  update_priv_rx p (with_resync (λ r, set_refcnt (refcnt r + 1) r));;
  emit (Ev_refcount_inc p).

Definition refcount_dec (p : ptr) : M unit :=
  update_priv_rx p (with_resync (λ r, set_refcnt (refcnt r - 1) r));;
  emit (Ev_refcount_dec p).

Definition refcount_read (p : ptr) : M Z :=
  c ← load_priv_rx p;
  emit (Ev_refcount_read p (refcnt (resync c)));;
  ret (refcnt (resync c)).

(** [test_bit(MLX5E_PRIV_RX_FLAG_DELETING, priv_rx->flags)] *)
Definition test_deleting (p : ptr) : M bool :=
  c ← load_priv_rx p;
  ret (test_bit MLX5E_PRIV_RX_FLAG_DELETING (flags c)).

(** [priv_rx->stats-><counter>++] *)
Definition stats_inc (p : ptr) (f : mlx5e_rq_stats → mlx5e_rq_stats)
    : M unit :=
  _ ← load_priv_rx p;
  modify (with_stats f).

(** [init_completion], [complete] and [wait_for_completion] on
    [priv_rx->add_ctx]. *)
Definition init_completion (p : ptr) : M unit :=
  update_priv_rx p (with_add_ctx (λ _, O));;
  emit (Ev_init_completion p).

Definition complete (p : ptr) : M unit :=
  update_priv_rx p (with_add_ctx S);;
  emit (Ev_complete p).

Definition wait_for_completion (p : ptr) : M unit :=
  c ← load_priv_rx p;
  match add_ctx c with
  | O => block
  | S n =>
      update_priv_rx p (with_add_ctx (λ _, n));;
      emit (Ev_wait_for_completion p)
  end.

(** [queue_work(rx_wq, &work)] returns false when the work is already
    pending; [cancel_work_sync(&work)] returns whether it was. *)
Definition queue_work_resync (p : ptr) : M bool :=
  c ← load_priv_rx p;
  if work_pending (resync c) then
    emit (Ev_queue_work_resync p false);; ret false
  else
    update_priv_rx p (with_resync (set_work_pending true));;
    emit (Ev_queue_work_resync p true);; ret true.

Definition queue_work_rule (p : ptr) : M bool :=
  c ← load_priv_rx p;
  if rule_work_pending (rule c) then
    emit (Ev_queue_work_rule p false);; ret false
  else
    update_priv_rx p (with_rule (set_rule_work_pending true));;
    emit (Ev_queue_work_rule p true);; ret true.

Definition cancel_work_sync_resync (p : ptr) : M bool :=
  c ← load_priv_rx p;
  update_priv_rx p (with_resync (set_work_pending false));;
  emit (Ev_cancel_work_sync_resync p (work_pending (resync c)));;
  ret (work_pending (resync c)).

Definition cancel_work_sync_rule (p : ptr) : M bool :=
  c ← load_priv_rx p;
  update_priv_rx p (with_rule (set_rule_work_pending false));;
  emit (Ev_cancel_work_sync_rule p (rule_work_pending (rule c)));;
  ret (rule_work_pending (rule c)).

Definition kfree_priv_rx (p : ptr) : M unit :=
  modify (with_priv_rxs (delete p));;
  emit (Ev_kfree_priv_rx p).

Definition kfree_buf (b : ptr) : M unit :=
  modify (with_resync_bufs (delete b));;
  emit (Ev_kfree_buf b).

(** [mlx5e_notify_hw(&sq->wq, sq->pc, sq->uar_map, cseg)] *)
Definition mlx5e_notify_hw : M unit :=
  w ← get;
  emit (Ev_notify_hw (sq_pc (async_icosq w))).

(** Pointers to a control segment, or [ERR_PTR(err)]. *)
Inductive cseg_ptr :=
| CSEG (pi : Z)
| ERR_PTR (err : Z).

(** What [mlx5e_accel_fs_add_sk] returns. *)
Inductive flow_handle_ptr :=
| FLOW_HANDLE (h : Z)
| FLOW_ERR_PTR (err : Z)
| FLOW_NULL.

Definition IS_ERR_OR_NULL (r : flow_handle_ptr) : bool :=
  match r with
  | FLOW_HANDLE _ => false
  | _ => true
  end.

(** The memory a successful [kzalloc] returns. *)
Definition zeroed_priv_rx : mlx5e_ktls_offload_context_rx :=
  {| crypto_info := {| rec_seq := 0; key_material := 0 |};
     rule := {| rule_work_pending := false; rule_handle := None |};
     sk := 0; add_ctx := O; tirn := 0; key_id := 0; rxq := 0; flags := 0;
     resync := {| work_pending := false; refcnt := 0;
                  sw_rcd_sn_be := 0; seq := 0 |} |}.

Definition zeroed_buf : mlx5e_ktls_rx_resync_buf :=
  {| progress := {| record_tracker_state := 0; auth_state := 0;
                    hw_resync_tcp_sn := 0 |};
     dma_addr := 0; buf_priv_rx := None |}.

(** ** The functions of [ktls_rx.c] *)

(** Results of the calls whose outcome the environment decides. *)

(** For [mlx5e_ktls_add_rx]: [kzalloc] of the context, [mlx5_ktls_create_key],
    [mlx5e_accel_sk_get_rxq], [priv->direct_tir[rxq].rqt.rqtn], and inside
    [mlx5e_ktls_create_tir] the [kvzalloc] of the command and
    [mlx5_core_create_tir]. *)
Record add_rx_env := {
  kzalloc_priv_rx : option ptr;
  create_key_err : Z;
  create_key_id : Z;
  accel_sk_get_rxq : Z;
  direct_tir_rqtn : Z;
  kvzalloc_in : bool;
  core_create_tir_err : Z;
  core_create_tir_tirn : Z
}.

(** For [resync_post_get_progress_params]: [kzalloc] of the response
    buffer, [dma_map_single] and [dma_mapping_error]. *)
Record get_psv_env := {
  kzalloc_buf : option ptr;
  dma_map_single : Z;
  dma_mapping_error : bool
}.

(** For one [msleep(20)] of [wait_for_resync]: the jiffies that passed, and
    the references that completions on other CPUs dropped meanwhile. *)
Record sleep_outcome := {
  slept : Z;
  released : Z
}.

Definition MLX5E_KTLS_RX_RESYNC_TIMEOUT : Z := 20000.

(** [time_before(a, b)] *)
Definition time_before (a b : Z) : bool := a <? b.

Section ktls_rx.
Context `{ktls_hw}.

Definition mlx5e_ktls_create_tir (env : add_rx_env) (p : ptr) (rqtn : Z)
    : M Z :=
  if negb (kvzalloc_in env) then ret (- ENOMEM)
  else
    let err := core_create_tir_err env in
    emit (Ev_create_tir rqtn err (core_create_tir_tirn env));;
    (if err =? 0
     then update_priv_rx p (set_tirn (core_create_tir_tirn env))
     else skip);;
    ret err.

Definition accel_rule_handle_work (fs_add_sk : flow_handle_ptr) (p : ptr)
    : M unit :=
  deleting ← test_deleting p;
  (if deleting then skip
   else
     c ← load_priv_rx p;
     emit (Ev_fs_add_sk (sk c) (tirn c));;
     match fs_add_sk with
     | FLOW_HANDLE h => update_priv_rx p (with_rule (set_rule_handle (Some h)))
     | _ => skip
     end);;
  complete p.

Definition accel_rule_init (p : ptr) : M unit :=
  update_priv_rx p (with_rule (set_rule_work_pending false)).

(** [sq->db.wqe_info[pi] = *wi], next to the entry built at [pi]. *)
Definition icosq_fill_wi (pi : Z) (wi : mlx5e_icosq_wqe_info) (wqe : tls_wqe)
    (sq : mlx5e_icosq) : mlx5e_icosq :=
  {| sq_cc := sq_cc sq; sq_pc := sq_pc sq; sq_sqn := sq_sqn sq;
     sq_wq := sq_wq sq; sq_posted := sq_posted sq ++ [(pi, wi, wqe)] |}.

(** [sq->pc += n] *)
Definition icosq_advance (n : Z) (sq : mlx5e_icosq) : mlx5e_icosq :=
  {| sq_cc := sq_cc sq; sq_pc := u16_add (sq_pc sq) n; sq_sqn := sq_sqn sq;
     sq_wq := sq_wq sq; sq_posted := sq_posted sq |}.

Definition post_static_params (p : ptr) : M cseg_ptr :=
  w ← get;
  let sq := async_icosq w in
  let num_wqebbs := MLX5E_TLS_SET_STATIC_PARAMS_WQEBBS in
  let room := mlx5e_stop_room_for_wqe num_wqebbs in
  if negb (mlx5e_wqc_has_room_for (sq_wq sq) (sq_cc sq) (sq_pc sq) room)
  then ret (ERR_PTR (- ENOSPC))
  else
    let pi := mlx5e_icosq_get_next_pi (sq_wq sq) (sq_pc sq) num_wqebbs in
    c ← load_priv_rx p;
    let wqe :=
      set_tls_static_params_wqe (sq_pc sq) (sq_sqn sq) (crypto_info c)
        (tirn c) (key_id c) (seq (resync c)) false in
    let wi := {| wqe_type := MLX5E_ICOSQ_WQE_UMR_TLS;
                 num_wqebbs := num_wqebbs;
                 wi_payload := tls_set_params p |} in
    modify (with_async_icosq (icosq_fill_wi pi wi wqe));;
    modify (with_async_icosq (icosq_advance num_wqebbs));;
    ret (CSEG pi).

Definition post_progress_params (p : ptr) (next_record_tcp_sn : Z)
    : M cseg_ptr :=
  w ← get;
  let sq := async_icosq w in
  let num_wqebbs := MLX5E_TLS_SET_PROGRESS_PARAMS_WQEBBS in
  let room := mlx5e_stop_room_for_wqe num_wqebbs in
  if negb (mlx5e_wqc_has_room_for (sq_wq sq) (sq_cc sq) (sq_pc sq) room)
  then ret (ERR_PTR (- ENOSPC))
  else
    let pi := mlx5e_icosq_get_next_pi (sq_wq sq) (sq_pc sq) num_wqebbs in
    c ← load_priv_rx p;
    let wqe :=
      set_tls_progress_params_wqe (sq_pc sq) (sq_sqn sq) (tirn c) false
        next_record_tcp_sn in
    let wi := {| wqe_type := MLX5E_ICOSQ_WQE_SET_PSV_TLS;
                 num_wqebbs := num_wqebbs;
                 wi_payload := tls_set_params p |} in
    modify (with_async_icosq (icosq_fill_wi pi wi wqe));;
    modify (with_async_icosq (icosq_advance num_wqebbs));;
    ret (CSEG pi).

Definition post_rx_param_wqes (p : ptr) (next_record_tcp_sn : Z) : M Z :=
  let err_out (e : Z) : M Z :=
    stats_inc p inc_tls_resync_req_skip;;
    complete p;;
    ret e in
  cseg ← post_static_params p;
  match cseg with
  | ERR_PTR e => err_out e
  | CSEG _ =>
      cseg ← post_progress_params p next_record_tcp_sn;
      match cseg with
      | ERR_PTR e => err_out e
      | CSEG _ => mlx5e_notify_hw;; ret 0
      end
  end.

Definition mlx5e_set_ktls_rx_priv_ctx (priv_rx : option ptr) : M unit :=
  modify (with_driver_ctx priv_rx).

Definition mlx5e_get_ktls_rx_priv_ctx : M (option ptr) :=
  w ← get;
  ret (driver_ctx w).

(** Runs in work context. *)
Definition resync_post_get_progress_params (env : get_psv_env) (p : ptr)
    : M cseg_ptr :=
  let err_out (e : Z) : M cseg_ptr :=
    stats_inc p inc_tls_resync_req_skip;;
    ret (ERR_PTR e) in
  match kzalloc_buf env with
  | None => err_out (- ENOMEM)
  | Some buf =>
      modify (with_resync_bufs (insert buf zeroed_buf));;
      update_buf buf (λ b, {| progress := progress b;
                              dma_addr := dma_map_single env;
                              buf_priv_rx := buf_priv_rx b |});;
      emit (Ev_dma_map_single buf (dma_map_single env));;
      if dma_mapping_error env then err_out (- ENOMEM)
      else
        update_buf buf (λ b, {| progress := progress b;
                                dma_addr := dma_addr b;
                                buf_priv_rx := Some p |});;
        w ← get;
        let sq := async_icosq w in
        if negb (mlx5e_wqc_has_room_for (sq_wq sq) (sq_cc sq) (sq_pc sq) 1)
        then err_out (- ENOSPC)
        else
          let pi := mlx5e_icosq_get_next_pi (sq_wq sq) (sq_pc sq) 1 in
          c ← load_priv_rx p;
          let wqe :=
            get_tls_progress_params_wqe (sq_pc sq) (sq_sqn sq) (tirn c)
              (dma_map_single env) in
          let wi := {| wqe_type := MLX5E_ICOSQ_WQE_GET_PSV_TLS;
                       num_wqebbs := 1;
                       wi_payload := tls_get_params buf |} in
          modify (with_async_icosq (icosq_fill_wi pi wi wqe));;
          modify (with_async_icosq (icosq_advance 1));;
          ret (CSEG pi)
  end.

(** Function is called with elevated refcount.  It decreases it only if no
    WQE is posted. *)
Definition resync_handle_work (env : get_psv_env) (p : ptr) : M unit :=
  deleting ← test_deleting p;
  if deleting then refcount_dec p
  else
    cseg ← resync_post_get_progress_params env p;
    match cseg with
    | ERR_PTR _ => refcount_dec p
    | CSEG _ => mlx5e_notify_hw
    end.

Definition resync_init (p : ptr) : M unit :=
  update_priv_rx p (with_resync (set_work_pending false));;
  update_priv_rx p (with_resync (set_refcnt 1)).

(** Function can be called with the refcount being either elevated or not.
    It does not affect the refcount. *)
Definition resync_handle_seq_match (p : ptr) : M Z :=
  update_priv_rx p (λ c,
    with_crypto_info (set_rec_seq (sw_rcd_sn_be (resync c))) c);;
  cseg ← post_static_params p;
  match cseg with
  | ERR_PTR e =>
      stats_inc p inc_tls_resync_res_skip;;
      ret e
  | CSEG _ =>
      mlx5e_notify_hw;;
      stats_inc p inc_tls_resync_res_ok;;
      ret 0
  end.

(** Function is called with elevated refcount, it decreases it.  [buf] is
    [wi->tls_get_params.buf]. *)
Definition mlx5e_ktls_handle_get_psv_completion (buf : ptr) : M unit :=
  b ← load_buf buf;
  match buf_priv_rx b with
  | None => raise NULL_DEREF
  | Some p =>
      deleting ← test_deleting p;
      (if deleting then skip
       else
         emit (Ev_dma_sync_single_for_cpu (dma_addr b));;
         let tracker_state := record_tracker_state (progress b) in
         let auth_state := auth_state (progress b) in
         if negb (tracker_state =?
                  MLX5E_TLS_PROGRESS_PARAMS_RECORD_TRACKER_STATE_TRACKING)
            || negb (auth_state =?
                     MLX5E_TLS_PROGRESS_PARAMS_AUTH_STATE_NO_OFFLOAD)
         then stats_inc p inc_tls_resync_req_skip
         else
           let hw_seq := hw_resync_tcp_sn (progress b) in
           c ← load_priv_rx p;
           emit (Ev_resync_async_request_end (sk c) (cpu_to_be32 hw_seq));;
           stats_inc p inc_tls_resync_req_end);;
      refcount_dec p;;
      kfree_buf buf
  end.

(** Runs in NAPI.  Function elevates the refcount, unless no work is
    queued. *)
Definition resync_queue_get_psv : M bool :=
  priv_rx ← mlx5e_get_ktls_rx_priv_ctx;
  match priv_rx with
  | None => ret false
  | Some p =>
      deleting ← test_deleting p;
      if deleting then ret false
      else
        refcount_inc p;;
        queued ← queue_work_resync p;
        (if negb queued then refcount_dec p else skip);;
        ret true
  end.

Definition mlx5e_ktls_rx_resync (seq rcd_sn : Z) : M unit :=
  priv_rx ← mlx5e_get_ktls_rx_priv_ctx;
  match priv_rx with
  | None => skip
  | Some p =>
      update_priv_rx p (with_resync (set_sw_rcd_sn_be rcd_sn));;
      update_priv_rx p (with_resync (set_seq seq));;
      _ ← resync_handle_seq_match p;
      ret tt
  end.

Definition mlx5e_ktls_handle_ctx_completion (p : ptr) : M unit :=
  deleting ← test_deleting p;
  if deleting then complete p
  else _ ← queue_work_rule p; ret tt.

Definition mlx5e_ktls_add_rx (env : add_rx_env) (s : Z)
    (info : tls12_crypto_info_aes_gcm_128) (start_offload_tcp_sn : Z)
    : M Z :=
  let err_create_key (p : ptr) (err : Z) : M Z :=
    kfree_priv_rx p;;
    ret err in
  let err_create_tir (p : ptr) (err : Z) : M Z :=
    c ← load_priv_rx p;
    emit (Ev_destroy_key (key_id c));;
    err_create_key p err in
  let err_post_wqes (p : ptr) (err : Z) : M Z :=
    c ← load_priv_rx p;
    emit (Ev_destroy_tir (tirn c));;
    err_create_tir p err in
  match kzalloc_priv_rx env with
  | None => ret (- ENOMEM)
  | Some p =>
      modify (with_priv_rxs (insert p zeroed_priv_rx));;
      emit (Ev_create_key (create_key_err env) (create_key_id env));;
      if negb (create_key_err env =? 0) then
        err_create_key p (create_key_err env)
      else
        update_priv_rx p (set_key_id (create_key_id env));;
        update_priv_rx p (with_crypto_info (λ _, info));;
        update_priv_rx p (set_rxq (accel_sk_get_rxq env));;
        update_priv_rx p (set_sk s);;
        mlx5e_set_ktls_rx_priv_ctx (Some p);;
        err ← mlx5e_ktls_create_tir env p (direct_tir_rqtn env);
        if negb (err =? 0) then err_create_tir p err
        else
          init_completion p;;
          accel_rule_init p;;
          resync_init p;;
          modify (with_resync_async (Some p));;
          emit (Ev_resync_set_type s);;
          err ← post_rx_param_wqes p start_offload_tcp_sn;
          if negb (err =? 0) then err_post_wqes p err
          else
            stats_inc p inc_tls_ctx;;
            ret 0
  end.

(** [msleep(msecs)]: the clock moves on and other CPUs run. *)
Definition msleep (msecs : Z) (o : sleep_outcome) (p : ptr) : M unit :=
  modify (with_jiffies (λ j, j + slept o));;
  update_priv_rx p
    (with_resync (λ r, set_refcnt (refcnt r - released o) r));;
  emit (Ev_msleep msecs).

(** The [do ... while (time_before(jiffies, exp_time))] loop of
    [wait_for_resync]; [sched] gives what happens during each sleep. *)
Fixpoint wait_for_resync_loop (exp_time : Z) (p : ptr)
    (sched : list sleep_outcome) : M unit :=
  v ← refcount_read p;
  if v =? 1 then skip
  else
    match sched with
    | [] => block
    | o :: sched' =>
        msleep 20 o p;;
        w ← get;
        if time_before (jiffies w) exp_time
        then wait_for_resync_loop exp_time p sched'
        else emit (Ev_netdev_warn v)
    end.

(** Elevated refcount on the resync object means there are outstanding
    operations (uncompleted GET_PSV WQEs) that will read the resync /
    priv_rx objects once completed.  Wait for them to avoid
    use-after-free. *)
Definition wait_for_resync (sched : list sleep_outcome) (p : ptr) : M unit :=
  w ← get;
  let exp_time :=
    jiffies w + msecs_to_jiffies MLX5E_KTLS_RX_RESYNC_TIMEOUT in
  wait_for_resync_loop exp_time p sched.

Definition mlx5e_ktls_del_rx (sched : list sleep_outcome) : M unit :=
  priv_rx ← mlx5e_get_ktls_rx_priv_ctx;
  match priv_rx with
  | None => raise NULL_DEREF
  | Some p =>
      update_priv_rx p (with_flags (set_bit MLX5E_PRIV_RX_FLAG_DELETING));;
      mlx5e_set_ktls_rx_priv_ctx None;;
      _ ← load_priv_rx p;
      emit Ev_napi_synchronize;;
      cancelled ← cancel_work_sync_rule p;
      (if negb cancelled then wait_for_completion p else skip);;
      cancelled ← cancel_work_sync_resync p;
      (if cancelled then refcount_dec p else skip);;
      wait_for_resync sched p;;
      stats_inc p inc_tls_del;;
      c ← load_priv_rx p;
      match rule_handle (rule c) with
      | Some h => emit (Ev_fs_del_sk h)
      | None => skip
      end;;
      emit (Ev_destroy_tir (tirn c));;
      emit (Ev_destroy_key (key_id c));;
      kfree_priv_rx p
  end.

End ktls_rx.

(** ** A concrete configuration for the examples

    A little-endian build with [HZ = 1000] and a 64-entry ICOSQ.  The
    entry sizes and state codes are sample values: the headers that define
    them are outside this file's sources, and no theorem outside the
    examples depends on them. *)

Definition swab32 (x : Z) : Z :=
  Z.lor (Z.shiftl (Z.land x 255) 24)
    (Z.lor (Z.shiftl (Z.land (Z.shiftr x 8) 255) 16)
       (Z.lor (Z.shiftl (Z.land (Z.shiftr x 16) 255) 8)
          (Z.land (Z.shiftr x 24) 255))).

Definition example_hw : ktls_hw :=
  {| MLX5E_TLS_SET_STATIC_PARAMS_WQEBBS := 3;
     MLX5E_TLS_SET_PROGRESS_PARAMS_WQEBBS := 1;
     mlx5e_stop_room_for_wqe := λ n, 2 * n - 1;
     mlx5e_wqc_has_room_for := λ sz_m1 cc pc n,
       (n <=? Z.land (cc - pc) sz_m1) || (cc =? pc);
     mlx5e_icosq_get_next_pi := λ sz_m1 pc _, Z.land pc sz_m1;
     MLX5E_TLS_PROGRESS_PARAMS_RECORD_TRACKER_STATE_TRACKING := 1;
     MLX5E_TLS_PROGRESS_PARAMS_AUTH_STATE_NO_OFFLOAD := 0;
     cpu_to_be32 := swab32;
     msecs_to_jiffies := λ m, m |}.

Definition zero_stats : mlx5e_rq_stats :=
  {| tls_resync_req_skip := 0; tls_resync_req_end := 0;
     tls_resync_res_ok := 0; tls_resync_res_skip := 0;
     tls_ctx := 0; tls_del := 0 |}.

(** No offload context yet; the ICOSQ is empty. *)
Definition fresh_world : world :=
  {| priv_rxs := ∅; resync_bufs := ∅; driver_ctx := None;
     resync_async := None;
     async_icosq := {| sq_cc := 0; sq_pc := 0; sq_sqn := 7; sq_wq := 63;
                       sq_posted := [] |};
     stats := zero_stats; jiffies := 4294937296; trace := [] |}.

(** All calls of the environment succeed. *)
Definition good_add_env : add_rx_env :=
  {| kzalloc_priv_rx := Some 1%positive; create_key_err := 0;
     create_key_id := 33; accel_sk_get_rxq := 0; direct_tir_rqtn := 5;
     kvzalloc_in := true; core_create_tir_err := 0;
     core_create_tir_tirn := 44 |}.

Definition example_info : tls12_crypto_info_aes_gcm_128 :=
  {| rec_seq := 0; key_material := 99 |}.

Definition world_of {A} (o : outcome A) : world :=
  match o with
  | Ok _ w => w
  | _ => fresh_world
  end.

(** The connection after [create(conn1, key, start_seq = 1000)]. *)
Definition offloaded_world : world :=
  Eval vm_compute in
  world_of (mlx5e_ktls_add_rx (H := example_hw) good_add_env 10 example_info
              1000 fresh_world).

(** The same with the ICOSQ full: the producer is a whole ring ahead of the
    consumer. *)
Definition full_queue (sq : mlx5e_icosq) : mlx5e_icosq :=
  {| sq_cc := sq_cc sq; sq_pc := u16_add (sq_cc sq) 64; sq_sqn := sq_sqn sq;
     sq_wq := sq_wq sq; sq_posted := sq_posted sq |}.


(** ** Reading the log *)

(** The sequence numbers handed to the record-framing layer
    ([tls_offload_rx_resync_async_request_end(sk, seq)]), in order. *)
Definition forwarded (t : list event) : list (Z * Z) :=
  omap (λ e, match e with
             | Ev_resync_async_request_end s q => Some (s, q)
             | _ => None
             end) t.

(** The hardware resources a log creates (calls that returned 0) and
    destroys, in order. *)
Inductive hw_resource :=
| HW_KEY (id : Z)
| HW_TIR (tir : Z).

Definition acquired (t : list event) : list hw_resource :=
  omap (λ e, match e with
             | Ev_create_key err id =>
                 if err =? 0 then Some (HW_KEY id) else None
             | Ev_create_tir _ err tir =>
                 if err =? 0 then Some (HW_TIR tir) else None
             | _ => None
             end) t.

Definition released_resources (t : list event) : list hw_resource :=
  omap (λ e, match e with
             | Ev_destroy_key id => Some (HW_KEY id)
             | Ev_destroy_tir tir => Some (HW_TIR tir)
             | _ => None
             end) t.

#[export] Instance event_eq_dec : EqDecision event.
Proof. solve_decision. Defined.

(** The signals of [priv_rx->add_ctx] in a log. *)
Definition completions (p : ptr) (t : list event) : nat :=
  length (filter (λ e, e = Ev_complete p) t).

(** ** Example runs *)

(** The device writes its progress parameters into a response buffer. *)
Definition device_writes (buf : ptr) (r : tls_progress_params) (w : world)
    : world :=
  with_resync_bufs
    (alter (λ b, {| progress := r; dma_addr := dma_addr b;
                    buf_priv_rx := buf_priv_rx b |}) buf) w.

Definition ctx_at (w : world) (p : ptr) : mlx5e_ktls_offload_context_rx :=
  default zeroed_priv_rx (priv_rxs w !! p).

Definition buf_at (w : world) (b : ptr) : mlx5e_ktls_rx_resync_buf :=
  default zeroed_buf (resync_bufs w !! b).

Definition good_psv_env : get_psv_env :=
  {| kzalloc_buf := Some 2%positive; dma_map_single := 4096;
     dma_mapping_error := false |}.

(** A decode failure was signalled on the offloaded connection. *)
Definition stimulated_world : world :=
  Eval vm_compute in
  world_of (resync_queue_get_psv offloaded_world).

(** The workqueue has started [resync.work]: its pending bit is clear. *)
Definition started_world : world :=
  Eval vm_compute in
  world_of (update_priv_rx 1 (with_resync (set_work_pending false))
              stimulated_world).

(** The worker has posted the fetch of the progress parameters into
    buffer 2. *)
Definition fetching_world : world :=
  Eval vm_compute in
  world_of (resync_handle_work (H := example_hw) good_psv_env 1
              started_world).

(** The device answered: tracking, no offload, sequence number 1050. *)
Definition answered_world : world :=
  Eval vm_compute in
  device_writes 2 {| record_tracker_state := 1; auth_state := 0;
                     hw_resync_tcp_sn := 1050 |} fetching_world.

(** The fetch is outstanding when [mlx5e_ktls_del_rx] starts: the deletion
    flag is set and the slot cleared; the device then answers with the
    tracker still searching (state 2). *)
Definition deleting_world : world :=
  Eval vm_compute in
  device_writes 2 {| record_tracker_state := 2; auth_state := 0;
                     hw_resync_tcp_sn := 1050 |}
    (with_driver_ctx None
       (with_priv_rxs
          (alter (with_flags (set_bit MLX5E_PRIV_RX_FLAG_DELETING))
             1%positive)
          fetching_world)).

(** [dma_map_single] fails for the response buffer. *)
Definition dma_error_env : get_psv_env :=
  {| kzalloc_buf := Some 2%positive; dma_map_single := 0;
     dma_mapping_error := true |}.

(** The ICOSQ is full when the worker runs. *)
Definition started_world_full : world :=
  Eval vm_compute in
  with_async_icosq full_queue started_world.

(** [mlx5_core_create_tir] fails with [-EIO]. *)
Definition tir_error_env : add_rx_env :=
  {| kzalloc_priv_rx := Some 1%positive; create_key_err := 0;
     create_key_id := 33; accel_sk_get_rxq := 0; direct_tir_rqtn := 5;
     kvzalloc_in := true; core_create_tir_err := -5;
     core_create_tir_tirn := 0 |}.

(** No room for the initial pair of entries. *)
Definition fresh_world_full : world :=
  Eval vm_compute in
  with_async_icosq full_queue fresh_world.

(** The initial entries completed and the flow-install task is queued. *)
Definition installing_world : world :=
  Eval vm_compute in
  world_of (mlx5e_ktls_handle_ctx_completion 1 offloaded_world).

(** The same with a fetch of the progress parameters outstanding. *)
Definition busy_world : world :=
  Eval vm_compute in
  world_of (mlx5e_ktls_handle_ctx_completion 1 fetching_world).

(** Sleeps of 20 jiffies; the fetch completes during the hundredth. *)
Definition completes_after_2s : list sleep_outcome :=
  repeat {| slept := 20; released := 0 |} 99 ++
  [{| slept := 20; released := 1 |}] ++
  repeat {| slept := 20; released := 0 |} 900.

(** ** What [wait_for_resync] sees and does *)

(** Jiffies that pass, and references dropped by others, over the given
    sleeps. *)
Definition elapsed (sched : list sleep_outcome) : Z :=
  foldr (λ o a, slept o + a) 0 sched.
Definition dropped (sched : list sleep_outcome) : Z :=
  foldr (λ o a, released o + a) 0 sched.

(** A poll that read [v] followed by its [msleep(20)], for each [v]. *)
Definition poll_trace (p : ptr) (vs : list Z) : list event :=
  concat (map (λ v, [Ev_refcount_read p v; Ev_msleep 20]) vs).

(** The statements of [mlx5e_ktls_del_rx] after [wait_for_resync]. *)
Definition del_rx_teardown (p : ptr) : M unit :=
  stats_inc p inc_tls_del;;
  c ← load_priv_rx p;
  match rule_handle (rule c) with
  | Some h => emit (Ev_fs_del_sk h)
  | None => skip
  end;;
  emit (Ev_destroy_tir (tirn c));;
  emit (Ev_destroy_key (key_id c));;
  kfree_priv_rx p.

(** The reference count and the clock after the first [i] sleeps of a
    schedule, and the counts read by the first [k] polls. *)
Definition refcnt_after (r0 : Z) (sched : list sleep_outcome) (i : nat) : Z :=
  r0 - dropped (take i sched).
Definition jiffies_after (j0 : Z) (sched : list sleep_outcome) (i : nat) : Z :=
  j0 + elapsed (take i sched).
Definition polled (r0 : Z) (sched : list sleep_outcome) (k : nat) : list Z :=
  map (refcnt_after r0 sched) (List.seq 0 k).

(** The world [wait_for_resync] leaves after [k] sleeps and a last action
    logged as [fin]. *)
Definition after_wait (p : ptr) (c : mlx5e_ktls_offload_context_rx)
    (sched : list sleep_outcome) (k : nat) (fin : list event) (w : world)
    : world :=
  with_trace
    (λ tr, tr ++ poll_trace p (polled (refcnt (resync c)) sched k) ++ fin)
    (with_jiffies (λ j, jiffies_after j sched k)
       (with_priv_rxs
          (insert p (with_resync
                       (set_refcnt (refcnt_after (refcnt (resync c)) sched k))
                       c))
          w)).

(** The context and the world when [mlx5e_ktls_del_rx] reaches
    [wait_for_resync]: flag set, slot cleared, both works cancelled, the
    completion consumed unless the flow-install task was cancelled, and the
    reference of a cancelled resync task dropped. *)
Definition quiesced_ctx (c : mlx5e_ktls_offload_context_rx)
    : mlx5e_ktls_offload_context_rx :=
  with_resync
    (λ r, set_refcnt
            (refcnt r - (if work_pending (resync c) then 1 else 0))
            (set_work_pending false r))
    (with_add_ctx (λ n, if rule_work_pending (rule c) then n else Nat.pred n)
       (with_rule (set_rule_work_pending false)
          (with_flags (set_bit MLX5E_PRIV_RX_FLAG_DELETING) c))).

Definition quiesce_trace (p : ptr) (c : mlx5e_ktls_offload_context_rx)
    : list event :=
  [Ev_napi_synchronize;
   Ev_cancel_work_sync_rule p (rule_work_pending (rule c))] ++
  (if rule_work_pending (rule c) then [] else [Ev_wait_for_completion p]) ++
  [Ev_cancel_work_sync_resync p (work_pending (resync c))] ++
  (if work_pending (resync c) then [Ev_refcount_dec p] else []).

Definition quiesced (p : ptr) (c : mlx5e_ktls_offload_context_rx)
    (w : world) : world :=
  with_trace (λ t, t ++ quiesce_trace p c)
    (with_driver_ctx None
       (with_priv_rxs (insert p (quiesced_ctx c)) w)).

(** The calls that release the resources of a context. *)
Definition teardown_trace (p : ptr) (c : mlx5e_ktls_offload_context_rx)
    : list event :=
  match rule_handle (rule c) with
  | Some h => [Ev_fs_del_sk h]
  | None => []
  end ++
  [Ev_destroy_tir (tirn c); Ev_destroy_key (key_id c); Ev_kfree_priv_rx p].

(** ** The three contexts and teardown, interleaved

    The fast path (NAPI), the background worker, the completion handler and
    [mlx5e_ktls_del_rx] run concurrently on the context of one connection.
    Each is cut at its accesses to the shared state: a thread is a program
    point, and one step runs the statements up to the next point as one
    action of [M].  The program points carry the local variables. *)

(** [resync_queue_get_psv] *)
Inductive napi_pc :=
| N_idle
| N_test (p : ptr)
| N_inc (p : ptr)
| N_queue (p : ptr)
| N_dec (p : ptr).

(** [resync_handle_work], from the moment the workqueue takes the work. *)
Inductive worker_pc :=
| W_idle
| W_test (p : ptr)
| W_post (p : ptr)
| W_notify (p : ptr)
| W_dec (p : ptr).

(** [mlx5e_ktls_handle_get_psv_completion] *)
Inductive compl_pc :=
| C_idle
| C_inspect (buf : ptr)
| C_dec (buf p : ptr)
| C_free (buf : ptr).

(** [mlx5e_ktls_del_rx] with [wait_for_resync] inlined; [exp_time] and the
    count last read are the locals of the wait. *)
Inductive del_pc :=
| D_idle
| D_flag (p : ptr)
| D_slot (p : ptr)
| D_sync (p : ptr)
| D_cancel_rule (p : ptr)
| D_wait_add (p : ptr)
| D_cancel_resync (p : ptr)
| D_dec (p : ptr)
| D_wait (p : ptr)
| D_poll (p : ptr) (exp_time : Z)
| D_sleep (p : ptr) (exp_time v : Z)
| D_teardown (p : ptr)
| D_done.

Section threads.
Context `{ktls_hw}.

Definition napi_step (pc : napi_pc) : M napi_pc :=
  match pc with
  | N_idle =>
      priv_rx ← mlx5e_get_ktls_rx_priv_ctx;
      match priv_rx with
      | None => ret N_idle
      | Some p => ret (N_test p)
      end
  | N_test p =>
      deleting ← test_deleting p;
      ret (if deleting then N_idle else N_inc p)
  | N_inc p => refcount_inc p;; ret (N_queue p)
  | N_queue p =>
      queued ← queue_work_resync p;
      ret (if negb queued then N_dec p else N_idle)
  | N_dec p => refcount_dec p;; ret N_idle
  end.

(** The work embedded in the context at [p0]: the workqueue clears the
    pending bit and calls the handler. *)
Definition worker_step (p0 : ptr) (env : get_psv_env) (pc : worker_pc)
    : M worker_pc :=
  match pc with
  | W_idle =>
      c ← load_priv_rx p0;
      if work_pending (resync c) then
        update_priv_rx p0 (with_resync (set_work_pending false));;
        ret (W_test p0)
      else block
  | W_test p =>
      deleting ← test_deleting p;
      ret (if deleting then W_dec p else W_post p)
  | W_post p =>
      cseg ← resync_post_get_progress_params env p;
      match cseg with
      | ERR_PTR _ => ret (W_dec p)
      | CSEG _ => ret (W_notify p)
      end
  | W_notify p => mlx5e_notify_hw;; ret W_idle
  | W_dec p => refcount_dec p;; ret W_idle
  end.

(** The statements of the completion handler before its [out:] label. *)
Definition get_psv_completion_inspect (buf : ptr) : M ptr :=
  b ← load_buf buf;
  match buf_priv_rx b with
  | None => raise NULL_DEREF
  | Some p =>
      deleting ← test_deleting p;
      (if deleting then skip
       else
         emit (Ev_dma_sync_single_for_cpu (dma_addr b));;
         let tracker_state := record_tracker_state (progress b) in
         let auth_state := auth_state (progress b) in
         if negb (tracker_state =?
                  MLX5E_TLS_PROGRESS_PARAMS_RECORD_TRACKER_STATE_TRACKING)
            || negb (auth_state =?
                     MLX5E_TLS_PROGRESS_PARAMS_AUTH_STATE_NO_OFFLOAD)
         then stats_inc p inc_tls_resync_req_skip
         else
           let hw_seq := hw_resync_tcp_sn (progress b) in
           c ← load_priv_rx p;
           emit (Ev_resync_async_request_end (sk c) (cpu_to_be32 hw_seq));;
           stats_inc p inc_tls_resync_req_end);;
      ret p
  end.

Definition compl_step (pc : compl_pc) : M compl_pc :=
  match pc with
  | C_idle => block
  | C_inspect buf => p ← get_psv_completion_inspect buf; ret (C_dec buf p)
  | C_dec buf p => refcount_dec p;; ret (C_free buf)
  | C_free buf => kfree_buf buf;; ret C_idle
  end.

Definition del_step (o : sleep_outcome) (pc : del_pc) : M del_pc :=
  match pc with
  | D_idle =>
      priv_rx ← mlx5e_get_ktls_rx_priv_ctx;
      match priv_rx with
      | None => raise NULL_DEREF
      | Some p => ret (D_flag p)
      end
  | D_flag p =>
      update_priv_rx p (with_flags (set_bit MLX5E_PRIV_RX_FLAG_DELETING));;
      ret (D_slot p)
  | D_slot p => mlx5e_set_ktls_rx_priv_ctx None;; ret (D_sync p)
  | D_sync p =>
      _ ← load_priv_rx p;
      emit Ev_napi_synchronize;;
      ret (D_cancel_rule p)
  | D_cancel_rule p =>
      cancelled ← cancel_work_sync_rule p;
      ret (if negb cancelled then D_wait_add p else D_cancel_resync p)
  | D_wait_add p => wait_for_completion p;; ret (D_cancel_resync p)
  | D_cancel_resync p =>
      cancelled ← cancel_work_sync_resync p;
      ret (if cancelled then D_dec p else D_wait p)
  | D_dec p => refcount_dec p;; ret (D_wait p)
  | D_wait p =>
      w ← get;
      ret (D_poll p
             (jiffies w + msecs_to_jiffies MLX5E_KTLS_RX_RESYNC_TIMEOUT))
  | D_poll p exp_time =>
      v ← refcount_read p;
      ret (if v =? 1 then D_teardown p else D_sleep p exp_time v)
  | D_sleep p exp_time v =>
      msleep 20 o p;;
      w ← get;
      if time_before (jiffies w) exp_time then ret (D_poll p exp_time)
      else emit (Ev_netdev_warn v);; ret (D_teardown p)
  | D_teardown p => del_rx_teardown p;; ret D_done
  | D_done => block
  end.

(** The flow-install task as the workqueue runs it. *)
Definition process_rule_work (fs_add_sk : flow_handle_ptr) (p0 : ptr)
    : M unit :=
  c ← load_priv_rx p0;
  if rule_work_pending (rule c) then
    update_priv_rx p0 (with_rule (set_rule_work_pending false));;
    accel_rule_handle_work fs_add_sk p0
  else block.

End threads.

(** A thread run on its own, step after step, until it is back at rest;
    this is how the steps make up the C functions. *)
Section runs.
Context `{ktls_hw}.

Fixpoint run_napi (fuel : nat) (pc : napi_pc) : M unit :=
  match fuel with
  | O => block
  | S n =>
      pc' ← napi_step pc;
      match pc' with
      | N_idle => ret tt
      | _ => run_napi n pc'
      end
  end.

Fixpoint run_worker (p0 : ptr) (env : get_psv_env) (fuel : nat)
    (pc : worker_pc) : M unit :=
  match fuel with
  | O => block
  | S n =>
      pc' ← worker_step p0 env pc;
      match pc' with
      | W_idle => ret tt
      | _ => run_worker p0 env n pc'
      end
  end.

Fixpoint run_compl (fuel : nat) (pc : compl_pc) : M unit :=
  match fuel with
  | O => block
  | S n =>
      pc' ← compl_step pc;
      match pc' with
      | C_idle => ret tt
      | _ => run_compl n pc'
      end
  end.

(** Teardown takes the outcome of each sleep from the schedule. *)
Fixpoint run_del (fuel : nat) (sched : list sleep_outcome) (pc : del_pc)
    : M unit :=
  match fuel with
  | O => block
  | S n =>
      match pc with
      | D_done => ret tt
      | D_sleep _ _ _ =>
          match sched with
          | [] => block
          | o :: sched' => pc' ← del_step o pc; run_del n sched' pc'
          end
      | _ =>
          pc' ← del_step {| slept := 0; released := 0 |} pc;
          run_del n sched pc'
      end
  end.

End runs.

(** The program points of teardown before the wait. *)
Definition before_wait (pc : del_pc) : bool :=
  match pc with
  | D_poll _ _ | D_sleep _ _ _ | D_teardown _ | D_done => false
  | _ => true
  end.

(** The state of the system: the driver state, where each thread stands,
    and the response buffers of the fetches posted and not yet completed. *)
Record sys := {
  sw : world;
  napi : napi_pc;
  worker : worker_pc;
  compl : compl_pc;
  del : del_pc;
  inflight : list ptr
}.

Section system.
Context `{ktls_hw}.

(** One step of the system whose connection has its context at [p0]. *)
Inductive step (p0 : ptr) : sys → sys → Prop :=
| step_napi s pc' w' :
    napi_step (napi s) (sw s) = Ok pc' w' →
    step p0 s {| sw := w'; napi := pc'; worker := worker s;
                 compl := compl s; del := del s; inflight := inflight s |}
| step_worker s env pc' w' :
    (∀ b, kzalloc_buf env = Some b → resync_bufs (sw s) !! b = None) →
    worker_step p0 env (worker s) (sw s) = Ok pc' w' →
    step p0 s
      {| sw := w'; napi := napi s; worker := pc'; compl := compl s;
         del := del s;
         inflight :=
           match worker s, pc', kzalloc_buf env with
           | W_post _, W_notify _, Some b => b :: inflight s
           | _, _, _ => inflight s
           end |}
(* the device completes a posted fetch; its handler starts *)
| step_completion s buf bufs1 bufs2 :
    compl s = C_idle →
    inflight s = bufs1 ++ buf :: bufs2 →
    step p0 s {| sw := sw s; napi := napi s; worker := worker s;
                 compl := C_inspect buf; del := del s;
                 inflight := bufs1 ++ bufs2 |}
| step_compl s pc' w' :
    compl_step (compl s) (sw s) = Ok pc' w' →
    step p0 s {| sw := w'; napi := napi s; worker := worker s;
                 compl := pc'; del := del s; inflight := inflight s |}
(* napi_synchronize and cancel_work_sync also wait for the other thread
   to leave its handler; the steps of teardown are not restricted by it, so
   the system has every interleaving of the kernel and more *)
| step_del s o pc' w' :
    released o = 0 →
    del_step o (del s) (sw s) = Ok pc' w' →
    step p0 s {| sw := w'; napi := napi s; worker := worker s;
                 compl := compl s; del := pc'; inflight := inflight s |}
(* the device writes its answer into the buffer of a posted fetch *)
| step_device s buf r :
    buf ∈ inflight s →
    step p0 s {| sw := device_writes buf r (sw s); napi := napi s;
                 worker := worker s; compl := compl s; del := del s;
                 inflight := inflight s |}
(* the initial entries complete, the flow-install task runs, the
   record-framing layer answers *)
| step_ctx_completion s w' :
    mlx5e_ktls_handle_ctx_completion p0 (sw s) = Ok tt w' →
    step p0 s {| sw := w'; napi := napi s; worker := worker s;
                 compl := compl s; del := del s; inflight := inflight s |}
| step_rule_work s fs_add_sk w' :
    process_rule_work fs_add_sk p0 (sw s) = Ok tt w' →
    step p0 s {| sw := w'; napi := napi s; worker := worker s;
                 compl := compl s; del := del s; inflight := inflight s |}
| step_rx_resync s seq_no rcd_sn w' :
    mlx5e_ktls_rx_resync seq_no rcd_sn (sw s) = Ok tt w' →
    step p0 s {| sw := w'; napi := napi s; worker := worker s;
                 compl := compl s; del := del s; inflight := inflight s |}.

End system.

(** Increments and decrements of the reference count of [p0] in a log. *)
Definition incs (p0 : ptr) (t : list event) : Z :=
  Z.of_nat (length (filter (λ e, e = Ev_refcount_inc p0) t)).
Definition decs (p0 : ptr) (t : list event) : Z :=
  Z.of_nat (length (filter (λ e, e = Ev_refcount_dec p0) t)).

(** References held on behalf of operations in progress: by a thread
    between taking or receiving a reference and passing it on or dropping
    it, by the queued resync task, and by each posted fetch. *)
Definition napi_holds (pc : napi_pc) : Z :=
  match pc with
  | N_queue _ | N_dec _ => 1
  | _ => 0
  end.
Definition worker_holds (pc : worker_pc) : Z :=
  match pc with
  | W_test _ | W_post _ | W_dec _ => 1
  | _ => 0
  end.
Definition compl_holds (pc : compl_pc) : Z :=
  match pc with
  | C_inspect _ | C_dec _ _ => 1
  | _ => 0
  end.
Definition del_holds (pc : del_pc) : Z :=
  match pc with
  | D_dec _ => 1
  | _ => 0
  end.

Definition outstanding (s : sys) (c : mlx5e_ktls_offload_context_rx) : Z :=
  (if work_pending (resync c) then 1 else 0)
  + Z.of_nat (length (inflight s))
  + napi_holds (napi s) + worker_holds (worker s)
  + compl_holds (compl s) + del_holds (del s).

(** A freshly offloaded connection: every thread idle, nothing posted, the
    context registered with the count at 1 and a balanced history. *)
Definition init (p0 : ptr) (s : sys) : Prop :=
  napi s = N_idle ∧ worker s = W_idle ∧ compl s = C_idle ∧ del s = D_idle ∧
  inflight s = [] ∧
  driver_ctx (sw s) = Some p0 ∧
  incs p0 (trace (sw s)) = decs p0 (trace (sw s)) ∧
  ∃ c, priv_rxs (sw s) !! p0 = Some c ∧
       refcnt (resync c) = 1 ∧ work_pending (resync c) = false.

Definition offloaded_sys : sys :=
  {| sw := offloaded_world; napi := N_idle; worker := W_idle;
     compl := C_idle; del := D_idle; inflight := [] |}.

(** Where the threads point and which buffers are in use. *)
Definition napi_at (p0 : ptr) (pc : napi_pc) : Prop :=
  match pc with
  | N_idle => True
  | N_test p | N_inc p | N_queue p | N_dec p => p = p0
  end.
Definition worker_at (p0 : ptr) (pc : worker_pc) : Prop :=
  match pc with
  | W_idle => True
  | W_test p | W_post p | W_notify p | W_dec p => p = p0
  end.
Definition compl_at (p0 : ptr) (pc : compl_pc) : Prop :=
  match pc with
  | C_dec _ p => p = p0
  | _ => True
  end.
Definition del_at (p0 : ptr) (pc : del_pc) : Prop :=
  match pc with
  | D_idle | D_done => True
  | D_flag p | D_slot p | D_sync p | D_cancel_rule p | D_wait_add p
  | D_cancel_resync p | D_dec p | D_wait p | D_poll p _ | D_sleep p _ _
  | D_teardown p => p = p0
  end.
Definition compl_buf (pc : compl_pc) : list ptr :=
  match pc with
  | C_idle => []
  | C_inspect buf | C_dec buf _ | C_free buf => [buf]
  end.

(** The invariant of the system: the slot holds the context or nothing,
    the threads work on the context, the buffers of the fetches in progress
    are distinct, allocated and point back to the context, and while the
    context is allocated its reference count is one more than the
    operations in progress, which are the increments not yet matched by a
    decrement. *)
Definition inv (p0 : ptr) (s : sys) : Prop :=
  (driver_ctx (sw s) = None ∨ driver_ctx (sw s) = Some p0) ∧
  (napi_at p0 (napi s) ∧ worker_at p0 (worker s) ∧
   compl_at p0 (compl s) ∧ del_at p0 (del s)) ∧
  (NoDup (compl_buf (compl s) ++ inflight s) ∧
   ∀ buf, buf ∈ compl_buf (compl s) ++ inflight s →
          ∃ b, resync_bufs (sw s) !! buf = Some b ∧
               buf_priv_rx b = Some p0) ∧
  ∀ c, priv_rxs (sw s) !! p0 = Some c →
       refcnt (resync c) = 1 + outstanding s c ∧
       incs p0 (trace (sw s)) = decs p0 (trace (sw s)) + outstanding s c.

(** One thread of the system takes its step (the system stays as it is
    when that thread cannot move). *)
Definition do_napi `{ktls_hw} (s : sys) : sys :=
  match napi_step (napi s) (sw s) with
  | Ok pc' w' =>
      {| sw := w'; napi := pc'; worker := worker s; compl := compl s;
         del := del s; inflight := inflight s |}
  | _ => s
  end.

Definition do_worker `{ktls_hw} (p0 : ptr) (env : get_psv_env) (s : sys)
    : sys :=
  match worker_step p0 env (worker s) (sw s) with
  | Ok pc' w' =>
      {| sw := w'; napi := napi s; worker := pc'; compl := compl s;
         del := del s;
         inflight :=
           match worker s, pc', kzalloc_buf env with
           | W_post _, W_notify _, Some b => b :: inflight s
           | _, _, _ => inflight s
           end |}
  | _ => s
  end.

(** The decode failure was signalled and the worker has posted the fetch:
    four steps of the fast path, then three of the worker. *)
Definition fetch_posted_sys : sys :=
  let napi4 :=
    do_napi (H := example_hw)
      (do_napi (H := example_hw)
         (do_napi (H := example_hw)
            (do_napi (H := example_hw) offloaded_sys))) in
  do_worker (H := example_hw) 1 good_psv_env
    (do_worker (H := example_hw) 1 good_psv_env
       (do_worker (H := example_hw) 1 good_psv_env napi4)).

(** ** The receive data path: [mlx5e_ktls_handle_rx_skb]

    Called from NAPI for every packet whose completion carries a TLS
    offload state.  The packet is the memory at [skb->data] and the fields
    of [struct sk_buff] the file reads or writes; network-order fields are
    kept as the bytes they occupy. *)

(** What [get_cqe_tls_offload(cqe)] returns
    ([include/linux/mlx5/device.h]). *)
Inductive cqe_tls_offload :=
| CQE_TLS_OFFLOAD_NOT_DECRYPTED
| CQE_TLS_OFFLOAD_DECRYPTED
| CQE_TLS_OFFLOAD_RESYNC
| CQE_TLS_OFFLOAD_ERROR.

#[export] Instance cqe_tls_offload_eq_dec : EqDecision cqe_tls_offload.
Proof. solve_decision. Defined.

(** [include/net/tcp_states.h] *)
Definition TCP_TIME_WAIT : Z := 6.

(** Sizes and field offsets of [struct ethhdr], [struct iphdr],
    [struct ipv6hdr] and [struct tcphdr] (the wire formats). *)
Definition ethhdr_h_proto : Z := 12.
Definition sizeof_iphdr : Z := 20.
Definition iphdr_saddr : Z := 12.
Definition iphdr_daddr : Z := 16.
Definition sizeof_ipv6hdr : Z := 40.
Definition ipv6hdr_saddr : Z := 8.
Definition ipv6hdr_daddr : Z := 24.
Definition sizeof_tcphdr : Z := 20.
Definition tcphdr_source : Z := 0.
Definition tcphdr_dest : Z := 2.
Definition tcphdr_seq : Z := 4.

(** A [struct sock *] that is not [NULL], with [sk->sk_state]. *)
Record sock := {
  sk_addr : Z;
  sk_state : Z
}.

Inductive skb_destructor := sock_edemux.

(** [struct sk_buff]: [data i] is the byte at [skb->data + i]. *)
Record sk_buff := {
  data : Z → Z;
  len : Z;
  skb_sk : option Z;
  destructor : option skb_destructor;
  decrypted : bool
}.

(** The counters of [rq->stats] ([struct mlx5e_rq_stats]) that the receive
    path updates; no other function of the file touches them. *)
Record mlx5e_rq_rx_stats := {
  tls_decrypted_packets : Z;
  tls_decrypted_bytes : Z;
  tls_resync_req_pkt : Z;
  tls_resync_req_start : Z;
  tls_err : Z
}.

(** [struct mlx5e_rq]: [rq->netdev->ifindex] and [rq->stats]. *)
Record mlx5e_rq := {
  netdev_ifindex : Z;
  rq_stats : mlx5e_rq_rx_stats
}.

(** What the receive path works on: the queue, the packet, and the calls
    of [tls_offload_rx_resync_async_request_start(sk, seq, datalen)] made so
    far. *)
Record rx_path := {
  rq : mlx5e_rq;
  skb : sk_buff;
  request_start : list (Z * list Z * Z)
}.

(** The kernel around the receive path: whether IPv6 is built in, the depth
    [__vlan_get_protocol(skb, type, &depth)] leaves in [depth], and the
    established-socket tables.  The socket found is the one whose TLS
    context holds the driver-context slot of the [world]. *)
Record rx_env := {
  CONFIG_IPV6 : bool;
  __vlan_get_protocol : sk_buff → list Z → Z;
  (* inet_lookup_established(net, &tcp_hashinfo, saddr, sport, daddr, dport,
     dif) *)
  inet_lookup_established :
    list Z → list Z → list Z → list Z → Z → option sock;
  (* __inet6_lookup_established(net, &tcp_hashinfo, saddr, sport, daddr,
     hnum, dif, sdif) *)
  __inet6_lookup_established :
    list Z → list Z → list Z → Z → Z → Z → option sock
}.

Definition with_rq_stats (f : mlx5e_rq_rx_stats → mlx5e_rq_rx_stats)
    (st : rx_path) : rx_path :=
  {| rq := {| netdev_ifindex := netdev_ifindex (rq st);
              rq_stats := f (rq_stats (rq st)) |};
     skb := skb st; request_start := request_start st |}.

Definition with_skb (f : sk_buff → sk_buff) (st : rx_path) : rx_path :=
  {| rq := rq st; skb := f (skb st); request_start := request_start st |}.

Definition with_request_start
    (f : list (Z * list Z * Z) → list (Z * list Z * Z)) (st : rx_path)
    : rx_path :=
  {| rq := rq st; skb := skb st; request_start := f (request_start st) |}.

Definition set_skb_sk (s : Z) (b : sk_buff) : sk_buff :=
  {| data := data b; len := len b; skb_sk := Some s;
     destructor := destructor b; decrypted := decrypted b |}.
Definition set_destructor (d : skb_destructor) (b : sk_buff) : sk_buff :=
  {| data := data b; len := len b; skb_sk := skb_sk b;
     destructor := Some d; decrypted := decrypted b |}.
Definition set_decrypted (b : sk_buff) : sk_buff :=
  {| data := data b; len := len b; skb_sk := skb_sk b;
     destructor := destructor b; decrypted := true |}.

Definition inc_tls_decrypted_packets (s : mlx5e_rq_rx_stats) :=
  {| tls_decrypted_packets := u64_inc (tls_decrypted_packets s);
     tls_decrypted_bytes := tls_decrypted_bytes s;
     tls_resync_req_pkt := tls_resync_req_pkt s;
     tls_resync_req_start := tls_resync_req_start s;
     tls_err := tls_err s |}.
Definition add_tls_decrypted_bytes (n : Z) (s : mlx5e_rq_rx_stats) :=
  {| tls_decrypted_packets := tls_decrypted_packets s;
     tls_decrypted_bytes := (tls_decrypted_bytes s + n) mod 2 ^ 64;
     tls_resync_req_pkt := tls_resync_req_pkt s;
     tls_resync_req_start := tls_resync_req_start s;
     tls_err := tls_err s |}.
Definition inc_tls_resync_req_pkt (s : mlx5e_rq_rx_stats) :=
  {| tls_decrypted_packets := tls_decrypted_packets s;
     tls_decrypted_bytes := tls_decrypted_bytes s;
     tls_resync_req_pkt := u64_inc (tls_resync_req_pkt s);
     tls_resync_req_start := tls_resync_req_start s;
     tls_err := tls_err s |}.
Definition inc_tls_resync_req_start (s : mlx5e_rq_rx_stats) :=
  {| tls_decrypted_packets := tls_decrypted_packets s;
     tls_decrypted_bytes := tls_decrypted_bytes s;
     tls_resync_req_pkt := tls_resync_req_pkt s;
     tls_resync_req_start := u64_inc (tls_resync_req_start s);
     tls_err := tls_err s |}.
Definition inc_tls_err (s : mlx5e_rq_rx_stats) :=
  {| tls_decrypted_packets := tls_decrypted_packets s;
     tls_decrypted_bytes := tls_decrypted_bytes s;
     tls_resync_req_pkt := tls_resync_req_pkt s;
     tls_resync_req_start := tls_resync_req_start s;
     tls_err := u64_inc (tls_err s) |}.

(** The [n] bytes at [skb->data + off]. *)
Definition skb_bytes (b : sk_buff) (off : Z) (n : nat) : list Z :=
  map (λ i, data b (off + Z.of_nat i)) (List.seq 0 n).

(** [ntohs] of a [__be16] given by its two bytes. *)
Definition ntohs (b : list Z) : Z :=
  match b with
  | [hi; lo] => hi * 256 + lo
  | _ => 0
  end.

(** [iph->version]: the high four bits of the first byte of the header. *)
Definition iph_version (b : sk_buff) (iph : Z) : Z :=
  Z.land (Z.shiftr (data b iph) 4) 15.

Section rx_path.
Context `{ktls_hw}.

(** Runs in NAPI. *)
Definition resync_update_sn (env : rx_env) (st : rx_path) : M rx_path :=
  let b := skb st in
  let depth := __vlan_get_protocol env b (skb_bytes b ethhdr_h_proto 2) in
  let iph := depth in
  (* [None]: the version is not 4 and there is no IPv6, [sk] stays NULL *)
  let hdrs :=
    if iph_version b iph =? 4 then
      let th := iph + sizeof_iphdr in
      Some (depth + sizeof_iphdr, th,
            inet_lookup_established env
              (skb_bytes b (iph + iphdr_saddr) 4)
              (skb_bytes b (th + tcphdr_source) 2)
              (skb_bytes b (iph + iphdr_daddr) 4)
              (skb_bytes b (th + tcphdr_dest) 2)
              (netdev_ifindex (rq st)))
    else if CONFIG_IPV6 env then
      let th := iph + sizeof_ipv6hdr in
      Some (depth + sizeof_ipv6hdr, th,
            __inet6_lookup_established env
              (skb_bytes b (iph + ipv6hdr_saddr) 16)
              (skb_bytes b (th + tcphdr_source) 2)
              (skb_bytes b (iph + ipv6hdr_daddr) 16)
              (ntohs (skb_bytes b (th + tcphdr_dest) 2))
              (netdev_ifindex (rq st)) 0)
    else None in
  match hdrs with
  | None | Some (_, _, None) => ret st
  | Some (depth, th, Some s) =>
      let depth := depth + sizeof_tcphdr in
      if sk_state s =? TCP_TIME_WAIT then ret st
      else
        queued ← resync_queue_get_psv;
        if negb queued then ret st
        else
          let st := with_skb (set_skb_sk (sk_addr s)) st in
          let st := with_skb (set_destructor sock_edemux) st in
          let seq := skb_bytes b (th + tcphdr_seq) 4 in
          let datalen := (len b - depth) mod 2 ^ 32 in
          let st :=
            with_request_start (λ l, l ++ [(sk_addr s, seq, datalen)]) st in
          ret (with_rq_stats inc_tls_resync_req_start st)
  end.

Definition mlx5e_ktls_handle_rx_skb (env : rx_env) (cqe : cqe_tls_offload)
    (cqe_bcnt : Z) (st : rx_path) : M rx_path :=
  match cqe with
  | CQE_TLS_OFFLOAD_DECRYPTED =>
      let st := with_skb set_decrypted st in
      let st := with_rq_stats inc_tls_decrypted_packets st in
      ret (with_rq_stats (add_tls_decrypted_bytes cqe_bcnt) st)
  | CQE_TLS_OFFLOAD_RESYNC =>
      resync_update_sn env (with_rq_stats inc_tls_resync_req_pkt st)
  | _ => ret (with_rq_stats inc_tls_err st)
  end.

End rx_path.

(** The headers of a packet as [resync_update_sn] locates them. *)
Definition rx_iph (env : rx_env) (b : sk_buff) : Z :=
  __vlan_get_protocol env b (skb_bytes b ethhdr_h_proto 2).

Definition rx_iphdr_len (env : rx_env) (b : sk_buff) : Z :=
  if iph_version b (rx_iph env b) =? 4 then sizeof_iphdr
  else sizeof_ipv6hdr.

Definition rx_th (env : rx_env) (b : sk_buff) : Z :=
  rx_iph env b + rx_iphdr_len env b.

(** The socket the lookup returns for a packet. *)
Definition rx_lookup (env : rx_env) (ifindex : Z) (b : sk_buff)
    : option sock :=
  let iph := rx_iph env b in
  let th := rx_th env b in
  if iph_version b iph =? 4 then
    inet_lookup_established env
      (skb_bytes b (iph + iphdr_saddr) 4)
      (skb_bytes b (th + tcphdr_source) 2)
      (skb_bytes b (iph + iphdr_daddr) 4)
      (skb_bytes b (th + tcphdr_dest) 2) ifindex
  else if CONFIG_IPV6 env then
    __inet6_lookup_established env
      (skb_bytes b (iph + ipv6hdr_saddr) 16)
      (skb_bytes b (th + tcphdr_source) 2)
      (skb_bytes b (iph + ipv6hdr_daddr) 16)
      (ntohs (skb_bytes b (th + tcphdr_dest) 2)) ifindex 0
  else None.

(** The packet after a resync request was started for the socket [s]. *)
Definition rx_started (env : rx_env) (s : sock) (st : rx_path) : rx_path :=
  let b := skb st in
  with_rq_stats inc_tls_resync_req_start
    (with_request_start
       (λ l, l ++ [(sk_addr s,
                    skb_bytes b (rx_th env b + tcphdr_seq) 4,
                    (len b - (rx_th env b + sizeof_tcphdr)) mod 2 ^ 32)])
       (with_skb (set_destructor sock_edemux)
          (with_skb (set_skb_sk (sk_addr s)) st))).

(** Whether [resync_queue_get_psv] takes a request in the state [w]. *)
Definition resync_accepted (w : world) : bool :=
  match driver_ctx w with
  | Some p =>
      negb (test_bit MLX5E_PRIV_RX_FLAG_DELETING (flags (ctx_at w p)))
  | None => false
  end.

(** The offsets into [skb->data], besides the version nibble, at which
    [resync_update_sn] reads: the addresses of the IP header, and the ports
    and the sequence number of the TCP header. *)
Definition rx_reads (env : rx_env) (b : sk_buff) (i : Z) : bool :=
  let iph := rx_iph env b in
  let th := rx_th env b in
  if iph_version b iph =? 4 then
    ((iph + iphdr_saddr <=? i) && (i <? iph + iphdr_daddr + 4))
    || ((th <=? i) && (i <? th + tcphdr_seq + 4))
  else if CONFIG_IPV6 env then
    ((iph + ipv6hdr_saddr <=? i) && (i <? iph + ipv6hdr_daddr + 16))
    || ((th <=? i) && (i <? th + tcphdr_seq + 4))
  else false.

(** The same packet with other bytes at [skb->data]. *)
Definition set_data (d : Z → Z) (b : sk_buff) : sk_buff :=
  {| data := d; len := len b; skb_sk := skb_sk b;
     destructor := destructor b; decrypted := decrypted b |}.

(** ** Runs of several functions, and the system *)


(** The system with every thread at rest on the driver state [w]. *)
Definition idle_sys (w : world) : sys :=
  {| sw := w; napi := N_idle; worker := W_idle; compl := C_idle;
     del := D_idle; inflight := [] |}.







(** ** A packet for the examples *)

(** An Ethernet frame without VLAN tag carrying TCP over IPv4 from
    10.0.0.2:49152 to 10.0.0.1:443, sequence number 1042, 100 bytes of
    payload; 154 bytes in all. *)
Definition example_packet : list Z :=
  [2; 0; 0; 0; 0; 1;  2; 0; 0; 0; 0; 2;  8; 0] ++
  [69; 0; 0; 140; 0; 0; 64; 0; 64; 6; 0; 0;  10; 0; 0; 2;  10; 0; 0; 1] ++
  [192; 0;  1; 187;  0; 0; 4; 18;  0; 0; 0; 0;  80; 16; 2; 0;  0; 0; 0; 0] ++
  repeat 23 100.

Definition example_skb : sk_buff :=
  {| data := λ i, if i <? 0 then 0 else nth (Z.to_nat i) example_packet 0;
     len := 154; skb_sk := None; destructor := None; decrypted := false |}.

(** The same frame with an IP header length of 6 words and a TCP data
    offset of 8 words written into its headers. *)
Definition example_skb_options : sk_buff :=
  set_data (λ i, if i =? 14 then 70 else if i =? 46 then 128
                 else data example_skb i) example_skb.

(** The socket of the offloaded connection is established (state 1) and is
    found by its destination port. *)
Definition example_rx_env : rx_env :=
  {| CONFIG_IPV6 := true;
     __vlan_get_protocol := λ _ _, 14;
     inet_lookup_established := λ _ _ _ dport _,
       if decide (dport = [1; 187])
       then Some {| sk_addr := 10; sk_state := 1 |} else None;
     __inet6_lookup_established := λ _ _ _ _ _ _, None |}.

Definition example_rx : rx_path :=
  {| rq := {| netdev_ifindex := 2;
              rq_stats := {| tls_decrypted_packets := 0;
                             tls_decrypted_bytes := 0;
                             tls_resync_req_pkt := 0;
                             tls_resync_req_start := 0; tls_err := 0 |} |};
     skb := example_skb; request_start := [] |}.

(** One sleep that lasts the whole timeout, during which nothing
    completes. *)
Definition sleeps_through : list sleep_outcome :=
  [{| slept := 20000; released := 0 |}].

(** * Proofs *)

(** ** Symbolic execution of driver code *)

Ltac unfold_prims :=
  unfold refcount_inc, refcount_dec, refcount_read, test_deleting, stats_inc,
    init_completion, complete, wait_for_completion, queue_work_resync,
    queue_work_rule, cancel_work_sync_resync, cancel_work_sync_rule,
    kfree_priv_rx, kfree_buf, mlx5e_notify_hw, mlx5e_set_ktls_rx_priv_ctx,
    mlx5e_get_ktls_rx_priv_ctx, update_priv_rx, load_priv_rx, update_buf,
    load_buf, emit, skip, modify, get, ret, raise, block, bind in *.

Ltac heap_step :=
  first
    [ rewrite lookup_insert_eq
    | rewrite lookup_delete_eq
    | match goal with
      | H : ?m !! ?k = _ |- context [?m !! ?k] => rewrite H
      | H : ?b = true |- context [?b] => rewrite H
      | H : ?b = false |- context [?b] => rewrite H
      | H : ?b = _ |- context [match ?b with _ => _ end] => rewrite H
      end ].

Ltac msimpl :=
  cbn -[Z.add Z.sub Z.opp Z.eqb Z.ltb Z.testbit Z.lor Z.shiftl u64_inc
        u16_add].

Ltac mrun :=
  repeat first [progress unfold_prims | progress msimpl | heap_step].

(** Splits on what the code branches on until the run is a value. *)
Ltac unfold_callees :=
  unfold resync_post_get_progress_params, get_psv_completion_inspect,
    del_rx_teardown, msleep, time_before in *.

(** The condition a test starts with. *)
Ltac first_test x :=
  lazymatch x with
  | negb ?y => first_test y
  | orb ?y _ => first_test y
  | andb ?y _ => first_test y
  | _ => x
  end.

Ltac crunch :=
  repeat first
    [ progress unfold_callees
    | progress mrun
    | match goal with
      | |- context [match ?x with _ => _ end] =>
          lazymatch x with
          | context [match _ with _ => _ end] => fail
          | _ => let y := first_test x in destruct y eqn:?
          end
      end ].

Section sequential.
Context `{ktls_hw}.

(** ** The authoritative answer: [mlx5e_ktls_rx_resync] *)

(** C10.  When the driver-context slot of the socket's TLS context is null,
    [mlx5e_ktls_rx_resync] returns at once and leaves the whole driver state
    as it was: no field of a session, no queue entry, no counter and no call
    to a collaborator. *)
Theorem mlx5e_ktls_rx_resync_no_ctx (w : world) (seq_no rcd_sn : Z) :
  driver_ctx w = None →
  mlx5e_ktls_rx_resync seq_no rcd_sn w = Ok tt w.
Proof.
  intros Hd. unfold mlx5e_ktls_rx_resync. mrun. reflexivity.
Qed.


(** ** The decode-failure stimulus: [resync_queue_get_psv] *)

(** C7.  For a located offload context, [resync_queue_get_psv] with the
    deletion flag set changes nothing at all (no count, no work queued);
    with the flag clear it first increments the reference count and then
    calls [queue_work], and when [queue_work] reports that nothing was
    queued it decrements the count again at once. *)
Theorem resync_queue_get_psv_spec
    (w : world) (p : ptr) (c : mlx5e_ktls_offload_context_rx) :
  driver_ctx w = Some p →
  priv_rxs w !! p = Some c →
  ∃ r w' c',
    resync_queue_get_psv w = Ok r w' ∧
    priv_rxs w' !! p = Some c' ∧
    if test_bit MLX5E_PRIV_RX_FLAG_DELETING (flags c)
    then r = false ∧ w' = w
    else
      r = true ∧
      if work_pending (resync c)
      then
        trace w' = trace w ++ [Ev_refcount_inc p;
                               Ev_queue_work_resync p false;
                               Ev_refcount_dec p] ∧
        refcnt (resync c') = refcnt (resync c) ∧
        work_pending (resync c') = true
      else
        trace w' = trace w ++ [Ev_refcount_inc p;
                               Ev_queue_work_resync p true] ∧
        refcnt (resync c') = refcnt (resync c) + 1 ∧
        work_pending (resync c') = true.
Proof.
  intros Hd Hc. unfold resync_queue_get_psv.
  destruct (test_bit _ _) eqn:Hdel; [|destruct (work_pending _) eqn:Hp]; mrun.
  - exists false, w, c. repeat split; auto.
  - do 3 eexists. split; [reflexivity|]. mrun. split; [reflexivity|].
    rewrite <- !app_assoc. cbn. repeat split; try reflexivity; try lia; auto.
  - do 3 eexists. split; [reflexivity|]. mrun. split; [reflexivity|].
    rewrite <- !app_assoc. cbn. repeat split; reflexivity.
Qed.

(** ** The flow-install task: [accel_rule_handle_work] *)

(** C9.  Whatever [mlx5e_accel_fs_add_sk] returns, a run of
    [accel_rule_handle_work] signals [add_ctx] exactly once, as its last
    action; when it finds the deletion flag set it does not call
    [mlx5e_accel_fs_add_sk] and leaves the rule handle as it was, otherwise
    it calls it once and stores the handle unless it is an error or null. *)
Theorem accel_rule_handle_work_completes
    (fs_add_sk : flow_handle_ptr) (w : world) (p : ptr)
    (c : mlx5e_ktls_offload_context_rx) :
  priv_rxs w !! p = Some c →
  ∃ w' c',
    accel_rule_handle_work fs_add_sk p w = Ok tt w' ∧
    priv_rxs w' !! p = Some c' ∧
    add_ctx c' = S (add_ctx c) ∧
    completions p (trace w') = S (completions p (trace w)) ∧
    if test_bit MLX5E_PRIV_RX_FLAG_DELETING (flags c)
    then
      trace w' = trace w ++ [Ev_complete p] ∧
      rule_handle (rule c') = rule_handle (rule c)
    else
      trace w' = trace w ++ [Ev_fs_add_sk (sk c) (tirn c); Ev_complete p] ∧
      rule_handle (rule c') =
        match fs_add_sk with
        | FLOW_HANDLE h => Some h
        | _ => rule_handle (rule c)
        end.
Proof.
  intros Hc. unfold accel_rule_handle_work, completions.
  destruct (test_bit _ _) eqn:Hdel; [|destruct fs_add_sk]; mrun;
    (do 2 eexists; split; [reflexivity|]; mrun; split; [reflexivity|];
     rewrite <- ?app_assoc, !filter_app, !length_app; cbn;
     repeat split; try reflexivity;
     repeat (case_decide; try congruence); cbn; lia).
Qed.

(** ** Setting up the offload: [mlx5e_ktls_add_rx] *)

(** X1.  When [kzalloc] returns fresh memory, [mlx5e_ktls_add_rx] returns; on
    a failure it destroys the key and the TIR it created in the reverse order
    of their creation, then frees the context, so that the heap is as before
    the call; the driver-context slot then holds the freed context if the
    failure came after the key was created, and is untouched otherwise. *)
Theorem mlx5e_ktls_add_rx_unwinds
    (env : add_rx_env) (s : Z) (info : tls12_crypto_info_aes_gcm_128)
    (start_offload_tcp_sn : Z) (w : world) (p : ptr) :
  kzalloc_priv_rx env = Some p →
  priv_rxs w !! p = None →
  ∃ (err : Z) (w' : world) (t : list event),
    mlx5e_ktls_add_rx env s info start_offload_tcp_sn w = Ok err w' ∧
    trace w' = trace w ++ t ∧
    if err =? 0 then
      released_resources t = [] ∧
      driver_ctx w' = Some p ∧
      is_Some (priv_rxs w' !! p)
    else
      released_resources t = rev (acquired t) ∧
      last t = Some (Ev_kfree_priv_rx p) ∧
      priv_rxs w' = priv_rxs w ∧
      driver_ctx w' =
        if create_key_err env =? 0 then Some p else driver_ctx w.
Proof.
  intros Hk Hfresh.
  unfold mlx5e_ktls_add_rx, mlx5e_ktls_create_tir, post_rx_param_wqes,
    post_static_params, post_progress_params, resync_init, accel_rule_init.
  rewrite Hk. crunch.
  all: do 3 eexists; split; [reflexivity|]; msimpl;
    rewrite <- ?app_assoc; split; [reflexivity|].
  all: crunch.
  all: try match goal with
           | Hz : (- _ =? 0) = true |- _ => vm_compute in Hz; discriminate Hz
           | Hz : (0 =? 0) = false |- _ => vm_compute in Hz; discriminate Hz
           end.
  all: repeat split; eauto; rewrite ?insert_insert_eq;
    apply delete_insert_id; assumption.
Qed.

(** ** The completion of a fetch: [mlx5e_ktls_handle_get_psv_completion] *)

(** C5, as amended.  A fetch-progress completion forwards the sequence
    number read from the response (as [cpu_to_be32 hw_seq]) to
    [tls_offload_rx_resync_async_request_end] exactly once if and only if the
    deletion flag is clear, the tracker state is tracking and the
    authentication state is no-offload, counting [tls_resync_req_end]; with
    the flag clear and any other state pair it forwards nothing and counts
    [tls_resync_req_skip]; with the flag set it forwards nothing and touches
    no counter.  In every case it drops one reference and frees the response
    buffer. *)
Theorem mlx5e_ktls_handle_get_psv_completion_spec
    (w : world) (buf : ptr) (b : mlx5e_ktls_rx_resync_buf) (p : ptr)
    (c : mlx5e_ktls_offload_context_rx) :
  resync_bufs w !! buf = Some b →
  buf_priv_rx b = Some p →
  priv_rxs w !! p = Some c →
  let deleting := test_bit MLX5E_PRIV_RX_FLAG_DELETING (flags c) in
  let in_sync :=
    (record_tracker_state (progress b) =?
       MLX5E_TLS_PROGRESS_PARAMS_RECORD_TRACKER_STATE_TRACKING)
    && (auth_state (progress b) =?
          MLX5E_TLS_PROGRESS_PARAMS_AUTH_STATE_NO_OFFLOAD) in
  ∃ w' c',
    mlx5e_ktls_handle_get_psv_completion buf w = Ok tt w' ∧
    forwarded (trace w') =
      forwarded (trace w) ++
      (if negb deleting && in_sync
       then [(sk c, cpu_to_be32 (hw_resync_tcp_sn (progress b)))]
       else []) ∧
    stats w' =
      (if deleting then stats w
       else if in_sync then inc_tls_resync_req_end (stats w)
       else inc_tls_resync_req_skip (stats w)) ∧
    priv_rxs w' !! p = Some c' ∧
    refcnt (resync c') = refcnt (resync c) - 1 ∧
    resync_bufs w' = delete buf (resync_bufs w).
Proof.
  intros Hb Hp Hc deleting in_sync. subst deleting in_sync.
  unfold mlx5e_ktls_handle_get_psv_completion, forwarded.
  destruct (test_bit _ _) eqn:Hdel;
    [|destruct (_ =? MLX5E_TLS_PROGRESS_PARAMS_RECORD_TRACKER_STATE_TRACKING)
        eqn:Ht;
      [destruct (_ =? MLX5E_TLS_PROGRESS_PARAMS_AUTH_STATE_NO_OFFLOAD)
         eqn:Ha|]];
    mrun;
    (do 2 eexists; split; [reflexivity|]; mrun;
     rewrite <- ?app_assoc, !omap_app; cbn;
     rewrite ?app_nil_r; repeat split; reflexivity).
Qed.

End sequential.

(** ** The code at concrete inputs *)

Section examples.
#[local] Existing Instance example_hw.

(** C10: the hypothesis holds before any offload was set up. *)
Lemma mlx5e_ktls_rx_resync_no_ctx_witness :
  driver_ctx fresh_world = None ∧
  mlx5e_ktls_rx_resync 1050 77 fresh_world = Ok tt fresh_world.
Proof.
  split; [reflexivity|].
  apply (mlx5e_ktls_rx_resync_no_ctx fresh_world 1050 77). reflexivity.
Defined.



Lemma resync_queue_get_psv_spec_witness :
  driver_ctx offloaded_world = Some 1%positive ∧
  priv_rxs offloaded_world !! 1%positive = Some (ctx_at offloaded_world 1) ∧
  ∃ r w', resync_queue_get_psv offloaded_world = Ok r w'.
Proof.
  assert (Hd : driver_ctx offloaded_world = Some 1%positive)
    by (vm_compute; reflexivity).
  assert (Hc : priv_rxs offloaded_world !! 1%positive
               = Some (ctx_at offloaded_world 1))
    by (vm_compute; reflexivity).
  split; [exact Hd|]. split; [exact Hc|].
  destruct (resync_queue_get_psv_spec offloaded_world 1
              (ctx_at offloaded_world 1) Hd Hc)
    as (r & w' & c' & Hrun & _).
  exists r, w'. exact Hrun.
Defined.

Lemma accel_rule_handle_work_completes_witness :
  priv_rxs offloaded_world !! 1%positive = Some (ctx_at offloaded_world 1) ∧
  ∃ w', accel_rule_handle_work (FLOW_HANDLE 8) 1 offloaded_world = Ok tt w'.
Proof.
  assert (Hc : priv_rxs offloaded_world !! 1%positive
               = Some (ctx_at offloaded_world 1))
    by (vm_compute; reflexivity).
  split; [exact Hc|].
  destruct (accel_rule_handle_work_completes (FLOW_HANDLE 8) offloaded_world
              1 (ctx_at offloaded_world 1) Hc)
    as (w' & c' & Hrun & _).
  exists w'. exact Hrun.
Defined.

(** C5, as stated, fails when the deletion flag is set: the response
    reports a tracker that is not tracking, nothing is forwarded, and the
    skip counter stays where it was. *)
Lemma mlx5e_ktls_handle_get_psv_completion_deleting :
  record_tracker_state (progress (buf_at deleting_world 2)) ≠
    MLX5E_TLS_PROGRESS_PARAMS_RECORD_TRACKER_STATE_TRACKING ∧
  ∃ w',
    mlx5e_ktls_handle_get_psv_completion 2 deleting_world = Ok tt w' ∧
    forwarded (trace w') = forwarded (trace deleting_world) ∧
    tls_resync_req_skip (stats w') =
      tls_resync_req_skip (stats deleting_world).
Proof.
  split; [vm_compute; discriminate|].
  eexists. split; [vm_compute; reflexivity|]. split; reflexivity.
Qed.

Lemma mlx5e_ktls_handle_get_psv_completion_spec_witness :
  resync_bufs answered_world !! 2%positive = Some (buf_at answered_world 2) ∧
  buf_priv_rx (buf_at answered_world 2) = Some 1%positive ∧
  priv_rxs answered_world !! 1%positive = Some (ctx_at answered_world 1) ∧
  ∃ w', mlx5e_ktls_handle_get_psv_completion 2 answered_world = Ok tt w'.
Proof.
  assert (Hb : resync_bufs answered_world !! 2%positive
               = Some (buf_at answered_world 2))
    by (vm_compute; reflexivity).
  assert (Hp : buf_priv_rx (buf_at answered_world 2) = Some 1%positive)
    by (vm_compute; reflexivity).
  assert (Hc : priv_rxs answered_world !! 1%positive
               = Some (ctx_at answered_world 1))
    by (vm_compute; reflexivity).
  split; [exact Hb|]. split; [exact Hp|]. split; [exact Hc|].
  destruct (mlx5e_ktls_handle_get_psv_completion_spec answered_world 2
              (buf_at answered_world 2) 1 (ctx_at answered_world 1)
              Hb Hp Hc)
    as (w' & c' & Hrun & _).
  exists w'. exact Hrun.
Defined.

Lemma mlx5e_ktls_add_rx_unwinds_witness :
  kzalloc_priv_rx tir_error_env = Some 1%positive ∧
  priv_rxs fresh_world !! 1%positive = None ∧
  ∃ err w',
    mlx5e_ktls_add_rx tir_error_env 10 example_info 1000 fresh_world
      = Ok err w'.
Proof.
  assert (Hk : kzalloc_priv_rx tir_error_env = Some 1%positive)
    by reflexivity.
  assert (Hfresh : priv_rxs fresh_world !! 1%positive = None)
    by (vm_compute; reflexivity).
  split; [exact Hk|]. split; [exact Hfresh|].
  destruct (mlx5e_ktls_add_rx_unwinds tir_error_env 10 example_info 1000
              fresh_world 1 Hk Hfresh)
    as (err & w' & t & Hrun & _).
  exists err, w'. exact Hrun.
Defined.

(** C4: where the code leaves the claim.  The worker allocated response
    buffer 2; when [dma_map_single] fails, and likewise when the ICOSQ has no
    room, [resync_handle_work] drops its reference and returns, while the
    buffer is still allocated, was never passed to [kfree], and is referred
    to by no queue entry. *)
Theorem resync_handle_work_error_leaks_buf :
  (∃ w',
     resync_handle_work dma_error_env 1 started_world = Ok tt w' ∧
     is_Some (resync_bufs w' !! 2%positive) ∧
     (Ev_kfree_buf 2 ∉ trace w') ∧
     sq_posted (async_icosq w') = sq_posted (async_icosq started_world) ∧
     refcnt (resync (ctx_at w' 1)) =
       refcnt (resync (ctx_at started_world 1)) - 1) ∧
  (∃ w',
     resync_handle_work good_psv_env 1 started_world_full = Ok tt w' ∧
     is_Some (resync_bufs w' !! 2%positive) ∧
     (Ev_kfree_buf 2 ∉ trace w') ∧
     sq_posted (async_icosq w') =
       sq_posted (async_icosq started_world_full) ∧
     refcnt (resync (ctx_at w' 1)) =
       refcnt (resync (ctx_at started_world_full 1)) - 1).
Proof.
  split; (eexists; split; [vm_compute; reflexivity|]; split_and!;
          [ vm_compute; eauto
          | refine (bool_decide_unpack _ _); vm_compute; exact I
          | reflexivity
          | reflexivity ]).
Qed.

(** C2: where the code leaves the claim.  When [mlx5_core_create_tir]
    fails, and likewise when the initial entries find no room in the ICOSQ,
    [mlx5e_ktls_add_rx] destroys what it created, in reverse order, frees
    the context and returns the error, and the driver-context slot still
    holds the address of the freed context. *)
Theorem mlx5e_ktls_add_rx_error_leaves_ctx_registered :
  (∃ w',
     mlx5e_ktls_add_rx tir_error_env 10 example_info 1000 fresh_world
       = Ok (-5) w' ∧
     trace w' = [Ev_create_key 0 33; Ev_create_tir 5 (-5) 0;
                 Ev_destroy_key 33; Ev_kfree_priv_rx 1] ∧
     driver_ctx w' = Some 1%positive ∧
     priv_rxs w' !! 1%positive = None) ∧
  (∃ w',
     mlx5e_ktls_add_rx good_add_env 10 example_info 1000 fresh_world_full
       = Ok (- ENOSPC) w' ∧
     trace w' = [Ev_create_key 0 33; Ev_create_tir 5 0 44;
                 Ev_init_completion 1; Ev_resync_set_type 10; Ev_complete 1;
                 Ev_destroy_tir 44; Ev_destroy_key 33;
                 Ev_kfree_priv_rx 1] ∧
     driver_ctx w' = Some 1%positive ∧
     priv_rxs w' !! 1%positive = None).
Proof.
  split; (eexists; split; [vm_compute; reflexivity|]; repeat split).
Qed.

End examples.

(** ** Teardown: [wait_for_resync] and [mlx5e_ktls_del_rx] *)

Lemma world_eq (w1 w2 : world) :
  priv_rxs w1 = priv_rxs w2 →
  resync_bufs w1 = resync_bufs w2 →
  driver_ctx w1 = driver_ctx w2 →
  resync_async w1 = resync_async w2 →
  async_icosq w1 = async_icosq w2 →
  stats w1 = stats w2 →
  jiffies w1 = jiffies w2 →
  trace w1 = trace w2 →
  w1 = w2.
Proof. destruct w1, w2; cbn; intros; subst; reflexivity. Qed.

Lemma with_resync_refcnt_sub
    (c : mlx5e_ktls_offload_context_rx) (d v : Z) :
  refcnt (resync c) - d = v →
  with_resync (λ r, set_refcnt (refcnt r - d) r) c =
  with_resync (set_refcnt v) c.
Proof. intros <-. reflexivity. Qed.

Lemma with_resync_set_refcnt_sub
    (c : mlx5e_ktls_offload_context_rx) (d v v' : Z) :
  v = v' →
  with_resync (set_refcnt v)
    (with_resync (λ r, set_refcnt (refcnt r - d) r) c) =
  with_resync (set_refcnt v') c.
Proof. intros ->. destruct c as [? ? ? ? ? ? ? ? []]. reflexivity. Qed.

Lemma with_resync_refcnt_id (c : mlx5e_ktls_offload_context_rx) (v : Z) :
  v = refcnt (resync c) → with_resync (set_refcnt v) c = c.
Proof. intros ->. destruct c as [? ? ? ? ? ? ? ? []]. reflexivity. Qed.

Lemma elapsed_nil : elapsed [] = 0.
Proof. reflexivity. Qed.
Lemma elapsed_cons (o : sleep_outcome) (sched : list sleep_outcome) :
  elapsed (o :: sched) = slept o + elapsed sched.
Proof. reflexivity. Qed.
Lemma dropped_nil : dropped [] = 0.
Proof. reflexivity. Qed.
Lemma dropped_cons (o : sleep_outcome) (sched : list sleep_outcome) :
  dropped (o :: sched) = released o + dropped sched.
Proof. reflexivity. Qed.

#[local] Arguments elapsed : simpl never.
#[local] Arguments dropped : simpl never.

Ltac simp_sched :=
  unfold refcnt_after, jiffies_after in *;
  repeat (progress (cbn in *;
                    rewrite ?take_0, ?elapsed_cons, ?dropped_cons,
                      ?elapsed_nil, ?dropped_nil in *)).

Lemma polled_S (r0 : Z) (o : sleep_outcome) (sched : list sleep_outcome)
    (k : nat) :
  polled r0 (o :: sched) (S k) = r0 :: polled (r0 - released o) sched k.
Proof.
  unfold polled. cbn [List.seq map]. f_equal.
  - simp_sched. lia.
  - rewrite <- seq_shift, map_map. apply map_ext. intros i.
    simp_sched. lia.
Qed.

Section teardown.
Context `{ktls_hw}.

(** With the count at 1 the first poll ends the wait: no sleep, whatever
    the schedule. *)
Lemma wait_for_resync_loop_quiescent
    (exp_time : Z) (p : ptr) (sched : list sleep_outcome) (w : world)
    (c : mlx5e_ktls_offload_context_rx) :
  priv_rxs w !! p = Some c →
  refcnt (resync c) = 1 →
  wait_for_resync_loop exp_time p sched w =
    Ok tt (with_trace (λ t, t ++ [Ev_refcount_read p 1]) w).
Proof.
  intros Hc Hr. destruct sched; cbn [wait_for_resync_loop]; mrun;
    rewrite Hr; reflexivity.
Qed.

(** The loop in general: it ends after some [k] sleeps, either at a poll
    that reads 1 or, once the deadline has passed, with the warning. *)
Lemma wait_for_resync_loop_run (exp_time : Z) (p : ptr)
    (sched : list sleep_outcome) :
  ∀ (w : world) (c : mlx5e_ktls_offload_context_rx),
    priv_rxs w !! p = Some c →
    sched ≠ [] →
    exp_time ≤ jiffies w + elapsed sched →
    ∃ (k : nat) (fin : list event),
      (k ≤ length sched)%nat ∧
      wait_for_resync_loop exp_time p sched w =
        Ok tt (after_wait p c sched k fin w) ∧
      (∀ i, (i < k)%nat → refcnt_after (refcnt (resync c)) sched i ≠ 1) ∧
      (∀ i, (1 ≤ i < k)%nat → jiffies_after (jiffies w) sched i < exp_time) ∧
      ((fin = [Ev_refcount_read p 1] ∧
        refcnt_after (refcnt (resync c)) sched k = 1 ∧
        (k = O ∨ jiffies_after (jiffies w) sched k < exp_time)) ∨
       (fin = [Ev_netdev_warn
                 (refcnt_after (refcnt (resync c)) sched (k - 1))] ∧
        (1 ≤ k)%nat ∧
        exp_time ≤ jiffies_after (jiffies w) sched k)).
Proof.
  induction sched as [|o sched IH]; intros w c Hc Hne Hexp; [congruence|].
  cbn [wait_for_resync_loop]. unfold msleep, time_before. mrun.
  destruct (refcnt (resync c) =? 1) eqn:Hr.
  - apply Z.eqb_eq in Hr.
    exists O, [Ev_refcount_read p 1]. split; [cbn; lia|]. split.
    + f_equal. unfold after_wait, polled, poll_trace.
      apply world_eq; simp_sched; try reflexivity.
      * rewrite insert_id; [reflexivity|]. rewrite Hc. f_equal.
        symmetry. apply with_resync_refcnt_id. lia.
      * lia.
      * rewrite Hr. reflexivity.
    + split; [intros; lia|]. split; [intros; lia|]. left.
      simp_sched. repeat split; auto. lia.
  - apply Z.eqb_neq in Hr. mrun.
    destruct (jiffies w + slept o <? exp_time) eqn:Ht.
    + apply Z.ltb_lt in Ht.
      set (c1 := with_resync
                   (λ r, set_refcnt (refcnt r - released o) r) c).
      match goal with
      | |- context [wait_for_resync_loop _ _ _ ?w1] => set (w1' := w1)
      end.
      assert (Hc1 : priv_rxs w1' !! p = Some c1)
        by (subst w1'; cbn; apply lookup_insert_eq).
      assert (Hne1 : sched ≠ []).
      { intros ->. simp_sched. lia. }
      assert (Hexp1 : exp_time ≤ jiffies w1' + elapsed sched).
      { subst w1'. simp_sched. lia. }
      destruct (IH w1' c1 Hc1 Hne1 Hexp1)
        as (k & fin & Hk & Hrun & Hpoll & Htime & Hfin).
      exists (S k), fin. split; [cbn; lia|]. split.
      * rewrite Hrun. f_equal.
        unfold after_wait. rewrite polled_S. unfold poll_trace.
        subst w1' c1. apply world_eq; cbn; try reflexivity.
        -- rewrite insert_insert_eq. f_equal.
           apply with_resync_set_refcnt_sub. simp_sched. lia.
        -- simp_sched. lia.
        -- rewrite <- !app_assoc. reflexivity.
      * split.
        { intros [|i] Hi.
          - simp_sched. lia.
          - specialize (Hpoll i ltac:(lia)). subst c1. simp_sched. lia. }
        split.
        { intros [|i] Hi; [lia|].
          destruct (decide (i = O)) as [->|Hi0].
          - simp_sched. lia.
          - specialize (Htime i ltac:(lia)). subst w1'. simp_sched. lia. }
        destruct Hfin as [(-> & Hone & Hk0)|(-> & Hk1 & Hlate)].
        { left. split; [reflexivity|]. subst w1' c1.
          split; [simp_sched; lia|]. right.
          destruct Hk0 as [->|Hk0]; simp_sched; lia. }
        { right. subst w1' c1. split; [|split; [lia|simp_sched; lia]].
          do 2 f_equal. destruct k as [|k]; [lia|].
          cbn [Nat.sub]. rewrite Nat.sub_0_r. simp_sched. lia. }
    + apply Z.ltb_ge in Ht.
      exists 1%nat, [Ev_netdev_warn (refcnt (resync c))].
      split; [cbn; lia|]. split.
      * f_equal. unfold after_wait, polled, poll_trace.
        apply world_eq; cbn; try reflexivity.
        -- f_equal. apply with_resync_refcnt_sub. simp_sched. lia.
        -- simp_sched. lia.
        -- rewrite <- !app_assoc. simp_sched. do 4 f_equal. lia.
      * split.
        { intros i Hi. assert (i = O) as -> by lia. simp_sched. lia. }
        split; [intros; lia|]. right. simp_sched.
        split; [do 2 f_equal; lia|]. split; lia.
Qed.

End teardown.

Lemma bind_Ok {A B : Type} (m : M A) (f : A → M B) (w : world) (a : A)
    (w' : world) :
  m w = Ok a w' → bind m f w = f a w'.
Proof. unfold bind. intros ->. reflexivity. Qed.

(** Runs the first action of a sequence. *)
Ltac mstep := erewrite bind_Ok by (mrun; reflexivity).

Section del_rx.
Context `{ktls_hw}.

Lemma mlx5e_ktls_del_rx_no_ctx (sched : list sleep_outcome) (w : world) :
  driver_ctx w = None →
  mlx5e_ktls_del_rx sched w = Fault NULL_DEREF.
Proof. intros Hd. unfold mlx5e_ktls_del_rx. mrun. reflexivity. Qed.

Lemma mlx5e_ktls_del_rx_quiesces
    (sched : list sleep_outcome) (w : world) (p : ptr)
    (c : mlx5e_ktls_offload_context_rx) :
  driver_ctx w = Some p →
  priv_rxs w !! p = Some c →
  rule_work_pending (rule c) = true ∨ add_ctx c ≠ O →
  mlx5e_ktls_del_rx sched w =
    (wait_for_resync sched p;; del_rx_teardown p) (quiesced p c w).
Proof.
  intros Hd Hc Hadd. unfold mlx5e_ktls_del_rx.
  mstep. cbn. rewrite Hd. repeat mstep.
  assert (Hw : ∀ (W : world) (k : M unit),
             W = quiesced p c w →
             k = (wait_for_resync sched p;; del_rx_teardown p) →
             k W = (wait_for_resync sched p;; del_rx_teardown p)
                     (quiesced p c w))
    by (intros ? ? -> ->; reflexivity).
  destruct (rule_work_pending (rule c)) eqn:Hrule;
    [|destruct (add_ctx c) as [|n] eqn:Hn; [destruct Hadd; congruence|]];
    destruct (work_pending (resync c)) eqn:Hres; cbn;
    repeat mstep; cbn;
    (apply Hw; [|reflexivity]);
    (apply world_eq; cbn; try reflexivity;
     [ rewrite !insert_insert_eq; f_equal;
       unfold quiesced_ctx; rewrite ?Hrule, ?Hres, ?Hn;
       destruct c as [? [] ? ? ? ? ? ? []]; cbn in *; subst;
       unfold with_resync, with_add_ctx, with_rule, with_flags, set_refcnt,
         set_work_pending, set_rule_work_pending; cbn;
       repeat f_equal; lia
     | unfold quiesce_trace; rewrite ?Hrule, ?Hres, <- ?app_assoc;
       reflexivity ]).
Qed.

Lemma del_rx_teardown_run (w : world) (p : ptr)
    (c : mlx5e_ktls_offload_context_rx) :
  priv_rxs w !! p = Some c →
  del_rx_teardown p w =
    Ok tt (with_trace (λ t, t ++ teardown_trace p c)
             (with_priv_rxs (delete p) (with_stats inc_tls_del w))).
Proof.
  intros Hc. unfold del_rx_teardown, teardown_trace.
  destruct (rule_handle (rule c)) eqn:Hh; mrun; f_equal;
    apply world_eq; cbn; rewrite <- ?app_assoc; reflexivity.
Qed.

End del_rx.

Section del_rx_claims.
Context `{ktls_hw}.

Lemma teardown_trace_quiesced (p : ptr) (c : mlx5e_ktls_offload_context_rx)
    (v : Z) :
  teardown_trace p (with_resync (set_refcnt v) (quiesced_ctx c)) =
  teardown_trace p c.
Proof. reflexivity. Qed.

(** C8.  Once [mlx5e_ktls_del_rx] has cancelled the resync task (dropping
    the task's reference when the task was still pending), it polls the
    reference count: each poll that does not read 1 is followed by one
    [msleep(20)]; the wait ends at the first poll that reads 1, and every
    poll after the first happens before the deadline, 20000 ms after the
    wait began; when a sleep ends at or past the deadline the count last read
    is logged in a warning.  In both cases the call goes on to release the
    steering rule, the TIR, the key and the context.  The call returns for
    every schedule of sleeps that covers the timeout. *)
Theorem mlx5e_ktls_del_rx_waits_bounded
    (sched : list sleep_outcome) (w : world) (p : ptr)
    (c : mlx5e_ktls_offload_context_rx) :
  driver_ctx w = Some p →
  priv_rxs w !! p = Some c →
  rule_work_pending (rule c) = true ∨ add_ctx c ≠ O →
  sched ≠ [] →
  msecs_to_jiffies MLX5E_KTLS_RX_RESYNC_TIMEOUT ≤ elapsed sched →
  let r0 := refcnt (resync c) - (if work_pending (resync c) then 1 else 0) in
  let deadline :=
    jiffies w + msecs_to_jiffies MLX5E_KTLS_RX_RESYNC_TIMEOUT in
  ∃ (w' : world) (k : nat) (fin : list event),
    mlx5e_ktls_del_rx sched w = Ok tt w' ∧
    (k ≤ length sched)%nat ∧
    trace w' =
      trace w ++ quiesce_trace p c ++ poll_trace p (polled r0 sched k) ++
      fin ++ teardown_trace p c ∧
    jiffies w' = jiffies_after (jiffies w) sched k ∧
    priv_rxs w' = delete p (priv_rxs w) ∧
    driver_ctx w' = None ∧
    (∀ i, (i < k)%nat → refcnt_after r0 sched i ≠ 1) ∧
    (∀ i, (1 ≤ i < k)%nat → jiffies_after (jiffies w) sched i < deadline) ∧
    ((fin = [Ev_refcount_read p 1] ∧
      refcnt_after r0 sched k = 1 ∧
      (k = O ∨ jiffies_after (jiffies w) sched k < deadline)) ∨
     (fin = [Ev_netdev_warn (refcnt_after r0 sched (k - 1))] ∧
      (1 ≤ k)%nat ∧
      deadline ≤ jiffies_after (jiffies w) sched k)).
Proof.
  intros Hd Hc Hadd Hne Hcover r0 deadline.
  rewrite (mlx5e_ktls_del_rx_quiesces sched w p c Hd Hc Hadd).
  assert (Hq : priv_rxs (quiesced p c w) !! p = Some (quiesced_ctx c))
    by (cbn; apply lookup_insert_eq).
  destruct (wait_for_resync_loop_run deadline p sched (quiesced p c w)
              (quiesced_ctx c) Hq Hne)
    as (k & fin & Hk & Hrun & Hpoll & Htime & Hfin).
  { subst deadline. cbn. lia. }
  exists
    (with_trace (λ t, t ++ teardown_trace p c)
       (with_priv_rxs (delete p)
          (with_stats inc_tls_del
             (after_wait p (quiesced_ctx c) sched k fin (quiesced p c w))))),
    k, fin.
  split.
  { erewrite bind_Ok; [|unfold wait_for_resync; mstep; exact Hrun].
    erewrite del_rx_teardown_run by (cbn; apply lookup_insert_eq).
    rewrite teardown_trace_quiesced. reflexivity. }
  split; [exact Hk|].
  split; [cbn -[quiesce_trace poll_trace teardown_trace polled];
          rewrite <- !app_assoc; reflexivity|].
  split; [reflexivity|].
  split; [cbn; rewrite !insert_insert_eq; apply delete_insert_eq|].
  split; [reflexivity|].
  split; [exact Hpoll|]. split; [exact Htime|]. exact Hfin.
Qed.

(** C3, as amended.  [mlx5e_ktls_del_rx] is to be called once for a
    registered context.  When no resync is in progress (reference count 1,
    resync task not pending) and the flow-install attempt has finished or can
    be cancelled, its first poll reads 1: the call sets the flag, clears the
    slot, cancels the tasks, releases the resources and frees the context
    without a single [msleep], at the same jiffy.  It leaves the slot null
    and does not test it on entry, so a further call on the connection
    dereferences a null pointer. *)
Theorem mlx5e_ktls_del_rx_once
    (sched : list sleep_outcome) (w : world) (p : ptr)
    (c : mlx5e_ktls_offload_context_rx) :
  driver_ctx w = Some p →
  priv_rxs w !! p = Some c →
  rule_work_pending (rule c) = true ∨ add_ctx c ≠ O →
  refcnt (resync c) = 1 →
  work_pending (resync c) = false →
  ∃ w' : world,
    mlx5e_ktls_del_rx sched w = Ok tt w' ∧
    trace w' =
      trace w ++ quiesce_trace p c ++ [Ev_refcount_read p 1] ++
      teardown_trace p c ∧
    jiffies w' = jiffies w ∧
    priv_rxs w' = delete p (priv_rxs w) ∧
    driver_ctx w' = None ∧
    stats w' = inc_tls_del (stats w) ∧
    ∀ sched', mlx5e_ktls_del_rx sched' w' = Fault NULL_DEREF.
Proof.
  intros Hd Hc Hadd Hone Hidle.
  rewrite (mlx5e_ktls_del_rx_quiesces sched w p c Hd Hc Hadd).
  assert (Hq : priv_rxs (quiesced p c w) !! p = Some (quiesced_ctx c))
    by (cbn; apply lookup_insert_eq).
  assert (Hr : refcnt (resync (quiesced_ctx c)) = 1)
    by (cbn; rewrite Hidle; lia).
  eexists. split.
  { erewrite bind_Ok;
      [|unfold wait_for_resync; mstep;
        exact (wait_for_resync_loop_quiescent _ p sched _ _ Hq Hr)].
    erewrite del_rx_teardown_run by exact Hq. reflexivity. }
  split; [cbn -[quiesce_trace teardown_trace];
          rewrite <- !app_assoc; reflexivity|].
  split; [reflexivity|].
  split; [cbn; apply delete_insert_eq|].
  split; [reflexivity|]. split; [reflexivity|].
  intros sched'. apply mlx5e_ktls_del_rx_no_ctx. reflexivity.
Qed.

End del_rx_claims.

Section del_rx_examples.
#[local] Existing Instance example_hw.

(** C3, as stated, fails on the second call: the first call returns and
    leaves the slot null, the second dereferences it. *)
Lemma mlx5e_ktls_del_rx_twice_faults :
  ∃ w1,
    mlx5e_ktls_del_rx [] installing_world = Ok tt w1 ∧
    mlx5e_ktls_del_rx [] w1 = Fault NULL_DEREF.
Proof.
  eexists. split; [vm_compute; reflexivity|]. vm_compute. reflexivity.
Qed.

Lemma mlx5e_ktls_del_rx_once_witness :
  driver_ctx installing_world = Some 1%positive ∧
  priv_rxs installing_world !! 1%positive
    = Some (ctx_at installing_world 1) ∧
  rule_work_pending (rule (ctx_at installing_world 1)) = true ∧
  refcnt (resync (ctx_at installing_world 1)) = 1 ∧
  work_pending (resync (ctx_at installing_world 1)) = false ∧
  ∃ w', mlx5e_ktls_del_rx [] installing_world = Ok tt w'.
Proof.
  assert (Hd : driver_ctx installing_world = Some 1%positive)
    by (vm_compute; reflexivity).
  assert (Hc : priv_rxs installing_world !! 1%positive
               = Some (ctx_at installing_world 1))
    by (vm_compute; reflexivity).
  assert (Hrule : rule_work_pending (rule (ctx_at installing_world 1))
                  = true)
    by (vm_compute; reflexivity).
  assert (Hone : refcnt (resync (ctx_at installing_world 1)) = 1)
    by (vm_compute; reflexivity).
  assert (Hidle : work_pending (resync (ctx_at installing_world 1)) = false)
    by (vm_compute; reflexivity).
  do 5 (split; [assumption|]).
  destruct (mlx5e_ktls_del_rx_once [] installing_world 1
              (ctx_at installing_world 1) Hd Hc (or_introl Hrule) Hone Hidle)
    as (w' & Hrun & _).
  exists w'. exact Hrun.
Defined.

Lemma mlx5e_ktls_del_rx_waits_bounded_witness :
  driver_ctx busy_world = Some 1%positive ∧
  priv_rxs busy_world !! 1%positive = Some (ctx_at busy_world 1) ∧
  rule_work_pending (rule (ctx_at busy_world 1)) = true ∧
  completes_after_2s ≠ [] ∧
  msecs_to_jiffies MLX5E_KTLS_RX_RESYNC_TIMEOUT
    ≤ elapsed completes_after_2s ∧
  ∃ w', mlx5e_ktls_del_rx completes_after_2s busy_world = Ok tt w'.
Proof.
  assert (Hd : driver_ctx busy_world = Some 1%positive) by (vm_compute; reflexivity).
  assert (Hc : priv_rxs busy_world !! 1%positive
               = Some (ctx_at busy_world 1))
    by (vm_compute; reflexivity).
  assert (Hrule : rule_work_pending (rule (ctx_at busy_world 1)) = true)
    by (vm_compute; reflexivity).
  assert (Hne : completes_after_2s ≠ []) by discriminate.
  assert (Hcover : msecs_to_jiffies MLX5E_KTLS_RX_RESYNC_TIMEOUT
                   ≤ elapsed completes_after_2s)
    by (apply Z.leb_le; vm_compute; reflexivity).
  do 5 (split; [assumption|]).
  destruct (mlx5e_ktls_del_rx_waits_bounded completes_after_2s busy_world 1
              (ctx_at busy_world 1) Hd Hc (or_introl Hrule) Hne Hcover)
    as (w' & k & fin & Hrun & _).
  exists w'. exact Hrun.
Defined.

End del_rx_examples.

(** ** Reference-count accounting over all interleavings *)

Lemma incs_app (p0 : ptr) (t1 t2 : list event) :
  incs p0 (t1 ++ t2) = incs p0 t1 + incs p0 t2.
Proof. unfold incs. rewrite filter_app, length_app. lia. Qed.

Lemma decs_app (p0 : ptr) (t1 t2 : list event) :
  decs p0 (t1 ++ t2) = decs p0 t1 + decs p0 t2.
Proof. unfold decs. rewrite filter_app, length_app. lia. Qed.

Lemma incs_one (p0 : ptr) (e : event) :
  incs p0 [e] = if decide (e = Ev_refcount_inc p0) then 1 else 0.
Proof.
  unfold incs. rewrite filter_cons, filter_nil. case_decide; reflexivity.
Qed.

Lemma decs_one (p0 : ptr) (e : event) :
  decs p0 [e] = if decide (e = Ev_refcount_dec p0) then 1 else 0.
Proof.
  unfold decs. rewrite filter_cons, filter_nil. case_decide; reflexivity.
Qed.

#[local] Arguments incs : simpl never.
#[local] Arguments decs : simpl never.

Ltac count_events :=
  rewrite ?incs_app, ?decs_app, ?incs_one, ?decs_one;
  repeat (case_decide; try congruence).

Ltac use_acc :=
  repeat match goal with
         | Hl : priv_rxs ?w !! ?p = Some ?c,
           Ha : ∀ c, priv_rxs ?w !! ?p = Some c → _ |- _ =>
             specialize (Ha c Hl)
         | Ha : ∀ c, Some ?m = Some c → _ |- _ =>
             specialize (Ha m eq_refl)
         end.

Ltac split_ifs :=
  repeat match goal with
         | H : context [if ?b then _ else _] |- _ => destruct b eqn:?
         | |- context [if ?b then _ else _] => destruct b eqn:?
         end.

(** The accounting part of the invariant after a step. *)
Ltac solve_acc :=
  let c' := fresh "c'" in
  let Hc' := fresh "Hc'" in
  intros c' Hc'; cbn in Hc';
  rewrite ?lookup_insert_eq, ?lookup_delete_eq in Hc';
  lazymatch type of Hc' with
  | None = Some _ => discriminate Hc'
  | Some _ = Some _ => injection Hc' as <-
  | ?x = Some _ =>
      try match goal with
          | Hl : x = Some _ |- _ =>
              tryif constr_eq Hl Hc' then fail
              else (rewrite Hl in Hc'; injection Hc' as <-)
          end
  end;
  use_acc; cbn in *; count_events; split_ifs;
  try congruence; try lia.

Ltac solve_slot :=
  cbn in *;
  repeat match goal with
         | H : _ ∨ _ |- _ => destruct H
         end;
  simplify_eq; auto.

(** *** The steps make up the functions *)

Section steps_make_functions.
Context `{ktls_hw}.

Lemma resync_queue_get_psv_steps (w : world) :
  (_ ← resync_queue_get_psv; ret tt) w = run_napi 5 N_idle w.
Proof.
  unfold resync_queue_get_psv. cbn [run_napi napi_step].
  crunch; reflexivity.
Qed.

Lemma resync_handle_work_steps (env : get_psv_env) (p : ptr) (w : world) :
  resync_handle_work env p w = run_worker p env 3 (W_test p) w.
Proof.
  unfold resync_handle_work. cbn [run_worker worker_step].
  unfold resync_post_get_progress_params.
  crunch; reflexivity.
Qed.

Lemma mlx5e_ktls_handle_get_psv_completion_steps (buf : ptr) (w : world) :
  mlx5e_ktls_handle_get_psv_completion buf w
  = run_compl 3 (C_inspect buf) w.
Proof.
  unfold mlx5e_ktls_handle_get_psv_completion.
  cbn [run_compl compl_step]. unfold get_psv_completion_inspect.
  crunch; reflexivity.
Qed.

#[local] Arguments run_del {H} !fuel sched !pc /.

(** As [crunch], leaving the loop and the rest of the run alone. *)
Ltac crunch_loop :=
  repeat first
    [ progress unfold_callees
    | progress unfold wait_for_resync in *
    | progress mrun
    | match goal with
      | |- context [match ?x with _ => _ end] =>
          lazymatch x with
          | context [match _ with _ => _ end] => fail
          | context [wait_for_resync_loop] => fail
          | context [run_del] => fail
          | _ => let y := first_test x in destruct y eqn:?
          end
      end ].

Lemma wait_for_resync_loop_steps (exp_time : Z) (p : ptr)
    (sched : list sleep_outcome) :
  ∀ (fuel : nat) (w : world),
    (2 * length sched + 3 ≤ fuel)%nat →
    (wait_for_resync_loop exp_time p sched;; del_rx_teardown p) w
    = run_del fuel sched (D_poll p exp_time) w.
Proof.
  induction sched as [|o sched IH]; intros fuel w Hfuel.
  - destruct fuel as [|[|[|fuel]]]; try (cbn in Hfuel; lia).
    cbn [wait_for_resync_loop]. crunch; reflexivity.
  - destruct fuel as [|[|fuel]]; try (cbn in Hfuel; lia).
    assert (Hfuel' : (2 * length sched + 3 ≤ fuel)%nat)
      by (cbn in Hfuel; lia).
    cbn [wait_for_resync_loop].
    crunch_loop; try reflexivity;
      first [ rewrite <- IH by lia; unfold bind; reflexivity
            | destruct fuel as [|[|fuel]]; try lia;
              crunch_loop; reflexivity ].
Qed.

Lemma run_del_before_wait (fuel : nat) (sched : list sleep_outcome)
    (pc : del_pc) (w : world) :
  before_wait pc = true →
  run_del (S fuel) sched pc w
  = bind (del_step {| slept := 0; released := 0 |} pc)
      (run_del fuel sched) w.
Proof. destruct pc; intros Hb; try discriminate Hb; reflexivity. Qed.

#[local] Arguments run_del : simpl never.

Lemma mlx5e_ktls_del_rx_steps (sched : list sleep_outcome) (w : world) :
  mlx5e_ktls_del_rx sched w
  = run_del (2 * length sched + 12) sched D_idle w.
Proof.
  replace (2 * length sched + 12)%nat
    with (S (S (S (S (S (S (S (S (S (2 * length sched + 3))))))))))
    by lia.
  unfold mlx5e_ktls_del_rx.
  repeat first
    [ rewrite run_del_before_wait by reflexivity
    | progress crunch_loop ];
    try reflexivity;
    rewrite <- wait_for_resync_loop_steps by lia;
    unfold bind; reflexivity.
Qed.

End steps_make_functions.

Section accounting.
Context `{ktls_hw}.

Lemma napi_step_inv (p0 : ptr) (s : sys) (pc' : napi_pc) (w' : world) :
  inv p0 s →
  napi_step (napi s) (sw s) = Ok pc' w' →
  inv p0 {| sw := w'; napi := pc'; worker := worker s; compl := compl s;
            del := del s; inflight := inflight s |}.
Proof.
  intros (Hslot & (Hn & Hw & Hc & Hd) & Hbufs & Hacc) Hstep.
  unfold inv, outstanding in *. revert Hstep.
  destruct (napi s) as [|p|p|p|p] eqn:Hpc; cbn in Hn; subst;
    cbn [napi_step]; crunch; intros [= <- <-];
    (split; [solve_slot|]);
    (split; [cbn; repeat split; solve [auto | solve_slot]|]);
    (split; [exact Hbufs|]);
    solve_acc.
Qed.

(** A buffer that [kzalloc] just returned is none of the buffers in use. *)
Lemma fresh_buf_not_in_use (p0 : ptr) (w : world) (l : list ptr) (b : ptr) :
  (∀ buf, buf ∈ l →
          ∃ x, resync_bufs w !! buf = Some x ∧ buf_priv_rx x = Some p0) →
  resync_bufs w !! b = None →
  b ∉ l.
Proof.
  intros Hall Hb Hin. destruct (Hall b Hin) as (x & Hx & _). congruence.
Qed.

Lemma bufs_in_use_insert (p0 : ptr)
    (heap : gmap positive mlx5e_ktls_rx_resync_buf) (l : list ptr) (b : ptr)
    (y : mlx5e_ktls_rx_resync_buf) :
  (∀ buf, buf ∈ l →
          ∃ x, heap !! buf = Some x ∧ buf_priv_rx x = Some p0) →
  heap !! b = None →
  ∀ buf, buf ∈ l →
         ∃ x, <[b:=y]> heap !! buf = Some x ∧ buf_priv_rx x = Some p0.
Proof.
  intros Hall Hb buf Hin. destruct (Hall buf Hin) as (x & Hx & Hp).
  exists x. split; [|exact Hp].
  rewrite lookup_insert_ne; [exact Hx|]. intros ->. congruence.
Qed.

Lemma worker_step_inv (p0 : ptr) (s : sys) (env : get_psv_env)
    (pc' : worker_pc) (w' : world) :
  inv p0 s →
  (∀ b, kzalloc_buf env = Some b → resync_bufs (sw s) !! b = None) →
  worker_step p0 env (worker s) (sw s) = Ok pc' w' →
  inv p0 {| sw := w'; napi := napi s; worker := pc'; compl := compl s;
            del := del s;
            inflight :=
              match worker s, pc', kzalloc_buf env with
              | W_post _, W_notify _, Some b => b :: inflight s
              | _, _, _ => inflight s
              end |}.
Proof.
  intros (Hslot & (Hn & Hw & Hc & Hd) & (Hnd & Hall) & Hacc) Hfresh Hstep.
  unfold inv, outstanding in *. revert Hstep.
  destruct (worker s) as [|p|p|p|p] eqn:Hpc; cbn in Hw; subst;
    cbn [worker_step]; unfold resync_post_get_progress_params;
    crunch; intros [= <- <-];
    (split; [solve_slot|]);
    (split; [cbn; repeat split; solve [auto | solve_slot]|]);
    (split; [|solve_acc]);
    try (split; [exact Hnd|exact Hall]);
    cbn; rewrite ?insert_insert_eq;
    match goal with
    | Hk : kzalloc_buf env = Some ?b |- _ =>
        specialize (Hfresh b eq_refl);
        pose proof (fresh_buf_not_in_use p0 _ _ b Hall Hfresh) as Hnotin
    end.
  all:
    first
      [ split; [exact Hnd|];
        exact (bufs_in_use_insert p0 _ _ _ _ Hall Hfresh)
      | split;
        [ rewrite <- Permutation_middle; apply NoDup_cons; split; assumption
        | intros buf Hin;
          apply elem_of_app in Hin as [Hin|[->|Hin]%elem_of_cons];
          [ apply (bufs_in_use_insert p0 _ _ _ _ Hall Hfresh);
            apply elem_of_app; left; exact Hin
          | eexists; rewrite lookup_insert_eq; split; reflexivity
          | apply (bufs_in_use_insert p0 _ _ _ _ Hall Hfresh);
            apply elem_of_app; right; exact Hin ] ] ].
Qed.

Lemma completion_start_inv (p0 : ptr) (s : sys) (buf : ptr)
    (bufs1 bufs2 : list ptr) :
  inv p0 s →
  compl s = C_idle →
  inflight s = bufs1 ++ buf :: bufs2 →
  inv p0 {| sw := sw s; napi := napi s; worker := worker s;
            compl := C_inspect buf; del := del s;
            inflight := bufs1 ++ bufs2 |}.
Proof.
  intros (Hslot & (Hn & Hw & Hc & Hd) & (Hnd & Hall) & Hacc) Hidle Hin.
  unfold inv, outstanding in *. rewrite Hidle, Hin in *. cbn in *.
  split; [exact Hslot|]. split; [auto|]. split.
  - split.
    + rewrite <- Permutation_middle in Hnd. exact Hnd.
    + intros b Hb. apply Hall.
      rewrite elem_of_cons, elem_of_app in Hb.
      rewrite elem_of_app, elem_of_cons. tauto.
  - intros c Hc'. specialize (Hacc c Hc').
    rewrite length_app in *. cbn in *. lia.
Qed.

Lemma compl_step_inv (p0 : ptr) (s : sys) (pc' : compl_pc) (w' : world) :
  inv p0 s →
  compl_step (compl s) (sw s) = Ok pc' w' →
  inv p0 {| sw := w'; napi := napi s; worker := worker s; compl := pc';
            del := del s; inflight := inflight s |}.
Proof.
  intros (Hslot & (Hn & Hw & Hc & Hd) & (Hnd & Hall) & Hacc) Hstep.
  unfold inv, outstanding in *. revert Hstep.
  destruct (compl s) as [|buf|buf p|buf] eqn:Hpc; cbn in Hc, Hnd, Hall;
    subst; cbn [compl_step]; unfold get_psv_completion_inspect.
  - crunch. discriminate.
  - destruct (Hall buf) as (b & Hb & Hp); [apply elem_of_cons; auto|].
    crunch; intros [= <- <-];
      (split; [solve_slot|]);
      (split; [cbn; repeat split; solve [auto | solve_slot]|]);
      (split; [split; [exact Hnd|exact Hall]|]);
      solve_acc.
  - crunch; intros [= <- <-];
      (split; [solve_slot|]);
      (split; [cbn; repeat split; solve [auto | solve_slot]|]);
      (split; [split; [exact Hnd|exact Hall]|]);
      solve_acc.
  - crunch; intros [= <- <-];
      (split; [solve_slot|]);
      (split; [cbn; repeat split; solve [auto | solve_slot]|]);
      (split; [|solve_acc]).
    apply NoDup_cons in Hnd as [Hnotin Hnd]. split; [exact Hnd|].
    intros b Hb. cbn in *.
    destruct (Hall b) as (x & Hx & Hp); [apply elem_of_cons; auto|].
    exists x. split; [|exact Hp].
    rewrite lookup_delete_ne; [exact Hx|]. intros ->. contradiction.
Qed.


Ltac same_bufs Hnd Hall :=
  (split; [solve_slot|]);
  (split; [cbn; repeat split; solve [auto | solve_slot]|]);
  (split; [split; [exact Hnd|exact Hall]|]);
  solve_acc.

Lemma del_step_inv (p0 : ptr) (s : sys) (o : sleep_outcome) (pc' : del_pc)
    (w' : world) :
  inv p0 s →
  released o = 0 →
  del_step o (del s) (sw s) = Ok pc' w' →
  inv p0 {| sw := w'; napi := napi s; worker := worker s; compl := compl s;
            del := pc'; inflight := inflight s |}.
Proof.
  intros (Hslot & (Hn & Hw & Hc & Hd) & (Hnd & Hall) & Hacc) Hrel Hstep.
  unfold inv, outstanding in *. revert Hstep.
  destruct (del s) eqn:Hpc; cbn in Hd; subst; cbn [del_step];
    unfold del_rx_teardown, msleep, time_before; rewrite ?Hrel;
    crunch; intros [= <- <-]; same_bufs Hnd Hall.
Qed.

Lemma device_writes_inv (p0 : ptr) (s : sys) (buf : ptr)
    (r : tls_progress_params) :
  inv p0 s →
  inv p0 {| sw := device_writes buf r (sw s); napi := napi s;
            worker := worker s; compl := compl s; del := del s;
            inflight := inflight s |}.
Proof.
  intros (Hslot & Hat & (Hnd & Hall) & Hacc).
  unfold inv, outstanding in *. cbn.
  split; [exact Hslot|]. split; [exact Hat|]. split; [|exact Hacc].
  split; [exact Hnd|]. intros b Hb.
  destruct (Hall b Hb) as (x & Hx & Hp).
  destruct (decide (buf = b)) as [->|Hne].
  - rewrite lookup_alter_eq, Hx. eexists. split; [reflexivity|exact Hp].
  - rewrite lookup_alter_ne by exact Hne. eauto.
Qed.

Lemma ctx_completion_inv (p0 : ptr) (s : sys) (w' : world) :
  inv p0 s →
  mlx5e_ktls_handle_ctx_completion p0 (sw s) = Ok tt w' →
  inv p0 {| sw := w'; napi := napi s; worker := worker s; compl := compl s;
            del := del s; inflight := inflight s |}.
Proof.
  intros (Hslot & (Hn & Hw & Hc & Hd) & (Hnd & Hall) & Hacc) Hstep.
  unfold inv, outstanding in *. revert Hstep.
  unfold mlx5e_ktls_handle_ctx_completion.
  crunch; intros [= <-]; same_bufs Hnd Hall.
Qed.

Lemma rule_work_inv (p0 : ptr) (s : sys) (fs_add_sk : flow_handle_ptr)
    (w' : world) :
  inv p0 s →
  process_rule_work fs_add_sk p0 (sw s) = Ok tt w' →
  inv p0 {| sw := w'; napi := napi s; worker := worker s; compl := compl s;
            del := del s; inflight := inflight s |}.
Proof.
  intros (Hslot & (Hn & Hw & Hc & Hd) & (Hnd & Hall) & Hacc) Hstep.
  unfold inv, outstanding in *. revert Hstep.
  unfold process_rule_work, accel_rule_handle_work.
  crunch; intros [= <-]; same_bufs Hnd Hall.
Qed.

Lemma rx_resync_inv (p0 : ptr) (s : sys) (seq_no rcd_sn : Z) (w' : world) :
  inv p0 s →
  mlx5e_ktls_rx_resync seq_no rcd_sn (sw s) = Ok tt w' →
  inv p0 {| sw := w'; napi := napi s; worker := worker s; compl := compl s;
            del := del s; inflight := inflight s |}.
Proof.
  intros (Hslot & (Hn & Hw & Hc & Hd) & (Hnd & Hall) & Hacc) Hstep.
  unfold inv, outstanding in *. revert Hstep.
  unfold mlx5e_ktls_rx_resync, resync_handle_seq_match, post_static_params.
  crunch; intros [= <-];
    try (destruct Hslot as [?|?]; simplify_eq);
    same_bufs Hnd Hall.
Qed.

Lemma step_inv (p0 : ptr) (s s' : sys) :
  inv p0 s → step p0 s s' → inv p0 s'.
Proof.
  intros Hinv Hstep.
  destruct Hstep;
    eauto using napi_step_inv, worker_step_inv, completion_start_inv,
      compl_step_inv, del_step_inv, device_writes_inv, ctx_completion_inv,
      rule_work_inv, rx_resync_inv.
Qed.

Lemma init_inv (p0 : ptr) (s : sys) : init p0 s → inv p0 s.
Proof.
  intros (Hn & Hw & Hc & Hd & Hin & Hslot & Hbal & c & Hctx & Hone & Hidle).
  unfold inv, outstanding. rewrite Hn, Hw, Hc, Hd, Hin. cbn.
  split; [auto|]. split; [auto|]. split.
  - split; [constructor|]. intros b Hb. inversion Hb.
  - intros c' Hc'. rewrite Hctx in Hc'. injection Hc' as <-.
    rewrite Hone, Hidle, Hbal. lia.
Qed.


End accounting.

Section accounting_examples.
#[local] Existing Instance example_hw.

Lemma do_napi_step (p0 : ptr) (s : sys) (pc' : napi_pc) (w' : world) :
  napi_step (napi s) (sw s) = Ok pc' w' → step p0 s (do_napi s).
Proof. intros Hs. unfold do_napi. rewrite Hs. constructor. exact Hs. Qed.

Lemma do_worker_step (p0 : ptr) (env : get_psv_env) (s : sys)
    (pc' : worker_pc) (w' : world) :
  (∀ b, kzalloc_buf env = Some b → resync_bufs (sw s) !! b = None) →
  worker_step p0 env (worker s) (sw s) = Ok pc' w' →
  step p0 s (do_worker p0 env s).
Proof.
  intros Hfresh Hs. unfold do_worker. rewrite Hs.
  apply step_worker; assumption.
Qed.

Lemma fetch_posted_reachable : rtc (step 1) offloaded_sys fetch_posted_sys.
Proof.
  unfold fetch_posted_sys. cbv zeta.
  do 3 (eapply rtc_r;
        [|eapply do_worker_step;
          [intros b [= <-]; vm_compute; reflexivity
          |vm_compute; reflexivity]]).
  do 4 (eapply rtc_r; [|eapply do_napi_step; vm_compute; reflexivity]).
  apply rtc_refl.
Qed.

Lemma offloaded_sys_init : init 1 offloaded_sys.
Proof.
  unfold init. cbn. repeat split; try reflexivity.
  exists (ctx_at offloaded_world 1). repeat split; vm_compute; reflexivity.
Qed.


End accounting_examples.

(** ** The entries posted when the offload is set up *)

(** Membership in a log written out. *)
Ltac in_log :=
  rewrite ?elem_of_app, ?elem_of_cons, ?elem_of_nil;
  intuition (try discriminate; try congruence).

Section setup.
Context `{ktls_hw}.



End setup.

(** ** The background worker: [resync_handle_work] *)

Section worker.
Context `{ktls_hw}.

(** X4.  [resync_handle_work] drops the reference it was called with exactly
    when it posts no entry.  It posts one, a fetch of the progress parameters
    of the context's TIR into a freshly allocated and mapped response buffer
    that points back to the context, and rings the doorbell, when the deletion
    flag is clear, the buffer could be allocated and mapped and the queue has
    room for one entry.  With the flag set it does nothing but drop the
    reference; on a failure it also counts [tls_resync_req_skip], and a buffer
    it had allocated stays allocated. *)
Theorem resync_handle_work_spec
    (env : get_psv_env) (w : world) (p : ptr)
    (c : mlx5e_ktls_offload_context_rx) :
  priv_rxs w !! p = Some c →
  let sq := async_icosq w in
  let deleting := test_bit MLX5E_PRIV_RX_FLAG_DELETING (flags c) in
  let room := mlx5e_wqc_has_room_for (sq_wq sq) (sq_cc sq) (sq_pc sq) 1 in
  let posts :=
    negb deleting && bool_decide (is_Some (kzalloc_buf env))
    && negb (dma_mapping_error env) && room in
  ∃ w',
    resync_handle_work env p w = Ok tt w' ∧
    priv_rxs w' =
      (if posts then priv_rxs w
       else <[p := with_resync (set_refcnt (refcnt (resync c) - 1)) c]>
              (priv_rxs w)) ∧
    decs p (trace w') = decs p (trace w) + (if posts then 0 else 1) ∧
    stats w' =
      (if deleting || posts then stats w
       else inc_tls_resync_req_skip (stats w)) ∧
    sq_cc (async_icosq w') = sq_cc sq ∧
    sq_pc (async_icosq w') =
      (if posts then u16_add (sq_pc sq) 1 else sq_pc sq) ∧
    match kzalloc_buf env with
    | Some buf =>
        sq_posted (async_icosq w') =
          sq_posted sq ++
          (if posts then
             [(mlx5e_icosq_get_next_pi (sq_wq sq) (sq_pc sq) 1,
               {| wqe_type := MLX5E_ICOSQ_WQE_GET_PSV_TLS; num_wqebbs := 1;
                  wi_payload := tls_get_params buf |},
               get_tls_progress_params_wqe (sq_pc sq) (sq_sqn sq) (tirn c)
                 (dma_map_single env))]
           else []) ∧
        resync_bufs w' =
          (if deleting then resync_bufs w
           else
             <[buf := {| progress := progress zeroed_buf;
                         dma_addr := dma_map_single env;
                         buf_priv_rx :=
                           if dma_mapping_error env then None else Some p |}]>
               (resync_bufs w)) ∧
        (Ev_notify_hw (u16_add (sq_pc sq) 1) ∈ drop (length (trace w))
                                                   (trace w') ↔
         posts = true)
    | None =>
        async_icosq w' = async_icosq w ∧ resync_bufs w' = resync_bufs w
    end.
Proof.
  intros Hc sq deleting room posts. subst sq deleting room posts.
  unfold resync_handle_work, resync_post_get_progress_params.
  destruct (test_bit _ _) eqn:Hdel; mrun;
    [|destruct (kzalloc_buf env) as [buf|] eqn:Hk; mrun;
      [destruct (dma_mapping_error env) eqn:Hdma; mrun;
       [|destruct (mlx5e_wqc_has_room_for _ _ _ _) eqn:Hroom; mrun]|]].
  all: eexists; (split; [reflexivity|]); mrun.
  all: rewrite ?insert_insert_eq, <- ?app_assoc, ?app_nil_r, ?drop_app_length.
  all: cbn [bool_decide negb andb orb].
  all: try destruct (kzalloc_buf env).
  all: split_and!;
    first [ reflexivity
          | count_events; lia
          | in_log ].
Qed.

End worker.

(** ** One resync attempt from the stimulus to the completion *)

Section round_trip.
Context `{ktls_hw}.

(** X5.  A resync attempt that meets no obstacle leaves the context and the
    heap of response buffers exactly as it found them: the stimulus takes a
    reference and queues the task, the worker posts one fetch into a new
    buffer while the reference stays taken, and the completion handler drops
    the reference and frees the buffer, whatever the device answered.  The
    sequence number of the answer is forwarded once when the device reports
    tracking and no offload, and [tls_resync_req_end] is counted; otherwise
    nothing is forwarded and [tls_resync_req_skip] is counted. *)
Theorem resync_attempt_round_trip
    (env : get_psv_env) (w : world) (p buf : ptr)
    (c : mlx5e_ktls_offload_context_rx) (r : tls_progress_params) :
  driver_ctx w = Some p →
  priv_rxs w !! p = Some c →
  test_bit MLX5E_PRIV_RX_FLAG_DELETING (flags c) = false →
  work_pending (resync c) = false →
  kzalloc_buf env = Some buf →
  resync_bufs w !! buf = None →
  dma_mapping_error env = false →
  mlx5e_wqc_has_room_for (sq_wq (async_icosq w)) (sq_cc (async_icosq w))
    (sq_pc (async_icosq w)) 1 = true →
  let in_sync :=
    (record_tracker_state r =?
       MLX5E_TLS_PROGRESS_PARAMS_RECORD_TRACKER_STATE_TRACKING)
    && (auth_state r =? MLX5E_TLS_PROGRESS_PARAMS_AUTH_STATE_NO_OFFLOAD) in
  ∃ w1 w2 w3 c2,
    resync_queue_get_psv w = Ok true w1 ∧
    run_worker p env 4 W_idle w1 = Ok tt w2 ∧
    priv_rxs w2 !! p = Some c2 ∧
    refcnt (resync c2) = refcnt (resync c) + 1 ∧
    mlx5e_ktls_handle_get_psv_completion buf (device_writes buf r w2)
      = Ok tt w3 ∧
    priv_rxs w3 = priv_rxs w ∧
    resync_bufs w3 = resync_bufs w ∧
    driver_ctx w3 = driver_ctx w ∧
    incs p (trace w3) = incs p (trace w) + 1 ∧
    decs p (trace w3) = decs p (trace w) + 1 ∧
    forwarded (trace w3) =
      forwarded (trace w) ++
      (if in_sync then [(sk c, cpu_to_be32 (hw_resync_tcp_sn r))] else []) ∧
    stats w3 =
      (if in_sync then inc_tls_resync_req_end (stats w)
       else inc_tls_resync_req_skip (stats w)) ∧
    sq_posted (async_icosq w3) =
      sq_posted (async_icosq w) ++
      [(mlx5e_icosq_get_next_pi (sq_wq (async_icosq w))
          (sq_pc (async_icosq w)) 1,
        {| wqe_type := MLX5E_ICOSQ_WQE_GET_PSV_TLS; num_wqebbs := 1;
           wi_payload := tls_get_params buf |},
        get_tls_progress_params_wqe (sq_pc (async_icosq w))
          (sq_sqn (async_icosq w)) (tirn c) (dma_map_single env))].
Proof.
  intros Hd Hc Hdel Hidle Hk Hfresh Hdma Hroom in_sync. subst in_sync.
  destruct (record_tracker_state r =?
              MLX5E_TLS_PROGRESS_PARAMS_RECORD_TRACKER_STATE_TRACKING) eqn:Ht;
    [destruct (auth_state r =?
                 MLX5E_TLS_PROGRESS_PARAMS_AUTH_STATE_NO_OFFLOAD) eqn:Ha|];
    cbn [andb].
  all: do 4 eexists.
  all: split; [unfold resync_queue_get_psv; mrun; reflexivity|].
  all: split;
    [repeat first [progress mrun
                  | progress unfold resync_post_get_progress_params];
     reflexivity|].
  all: split; [mrun; reflexivity|].
  all: split; [cbn; lia|].
  all: split;
    [unfold mlx5e_ktls_handle_get_psv_completion, device_writes;
     repeat first [ progress mrun
                  | rewrite alter_insert_eq
                  | rewrite insert_insert_eq ];
     reflexivity|].
  all: msimpl; rewrite <- ?app_assoc.
  all: split;
    [rewrite !insert_insert_eq; apply insert_id; rewrite Hc; f_equal;
     destruct c as [? ? ? ? ? ? ? ? []]; cbn in *; subst;
     unfold with_resync, set_refcnt, set_work_pending; cbn;
     repeat f_equal; lia|].
  all: split;
    [rewrite ?insert_insert_eq, ?alter_insert_eq, ?delete_insert_eq;
     apply delete_id; exact Hfresh|].
  all: split; [reflexivity|].
  all: split; [count_events; lia|].
  all: split; [count_events; lia|].
  all: unfold forwarded; rewrite ?omap_app; cbn; rewrite ?app_nil_r.
  all: split_and!; reflexivity.
Qed.

End round_trip.

(** ** The life of an offload: set-up, flow installation, teardown *)


Section lifecycle.
Context `{ktls_hw}.

(** Teardown in general: once past the completion, it returns for every
    schedule of sleeps that covers the timeout. *)
Lemma mlx5e_ktls_del_rx_run
    (sched : list sleep_outcome) (w : world) (p : ptr)
    (c : mlx5e_ktls_offload_context_rx) :
  driver_ctx w = Some p →
  priv_rxs w !! p = Some c →
  rule_work_pending (rule c) = true ∨ add_ctx c ≠ O →
  sched ≠ [] →
  msecs_to_jiffies MLX5E_KTLS_RX_RESYNC_TIMEOUT ≤ elapsed sched →
  let r0 := refcnt (resync (quiesced_ctx c)) in
  ∃ (k : nat) (fin : list event),
    mlx5e_ktls_del_rx sched w =
      Ok tt
        (with_trace (λ t, t ++ teardown_trace p c)
           (with_priv_rxs (delete p)
              (with_stats inc_tls_del
                 (after_wait p (quiesced_ctx c) sched k fin
                    (quiesced p c w))))) ∧
    (k ≤ length sched)%nat ∧
    ((fin = [Ev_refcount_read p 1] ∧ refcnt_after r0 sched k = 1) ∨
     (fin = [Ev_netdev_warn (refcnt_after r0 sched (k - 1))] ∧
      (1 ≤ k)%nat)).
Proof.
  intros Hd Hc Hadd Hne Hcover r0.
  rewrite (mlx5e_ktls_del_rx_quiesces sched w p c Hd Hc Hadd).
  assert (Hq : priv_rxs (quiesced p c w) !! p = Some (quiesced_ctx c))
    by (cbn; apply lookup_insert_eq).
  destruct (wait_for_resync_loop_run
              (jiffies w + msecs_to_jiffies MLX5E_KTLS_RX_RESYNC_TIMEOUT)
              p sched (quiesced p c w) (quiesced_ctx c) Hq Hne)
    as (k & fin & Hk & Hrun & Hpoll & Htime & Hfin).
  { cbn. lia. }
  exists k, fin. split.
  { erewrite bind_Ok; [|unfold wait_for_resync; mstep; exact Hrun].
    erewrite del_rx_teardown_run by (cbn; apply lookup_insert_eq).
    rewrite teardown_trace_quiesced. reflexivity. }
  split; [exact Hk|].
  destruct Hfin as [(-> & Hone & _)|(-> & Hk1 & _)]; [left|right]; auto.
Qed.


(** X6.  [mlx5e_ktls_del_rx] and the completion of the initial entries.  On a
    context whose flow-install task was never queued and whose [add_ctx] was
    never signalled, teardown sleeps in [wait_for_completion].  Handling the
    completion of the initial entries lifts that: whether the flow-install
    task then runs or is still queued when teardown cancels it, teardown
    returns. *)
Theorem mlx5e_ktls_del_rx_waits_for_add_ctx
    (sched : list sleep_outcome) (fs_add_sk : flow_handle_ptr) (w : world)
    (p : ptr) (c : mlx5e_ktls_offload_context_rx) :
  driver_ctx w = Some p →
  priv_rxs w !! p = Some c →
  rule_work_pending (rule c) = false →
  add_ctx c = O →
  sched ≠ [] →
  msecs_to_jiffies MLX5E_KTLS_RX_RESYNC_TIMEOUT ≤ elapsed sched →
  mlx5e_ktls_del_rx sched w = Blocked ∧
  ∃ w1,
    mlx5e_ktls_handle_ctx_completion p w = Ok tt w1 ∧
    (∃ w3, mlx5e_ktls_del_rx sched w1 = Ok tt w3) ∧
    (test_bit MLX5E_PRIV_RX_FLAG_DELETING (flags c) = false →
     ∃ w2,
       process_rule_work fs_add_sk p w1 = Ok tt w2 ∧
       ∃ w3, mlx5e_ktls_del_rx sched w2 = Ok tt w3).
Proof.
  intros Hd Hc Hrule Hadd Hne Hcover. split.
  { unfold mlx5e_ktls_del_rx. mrun. reflexivity. }
  unfold mlx5e_ktls_handle_ctx_completion, process_rule_work,
    accel_rule_handle_work.
  assert (Hret : ∀ w' c',
            driver_ctx w' = Some p →
            priv_rxs w' !! p = Some c' →
            rule_work_pending (rule c') = true ∨ add_ctx c' ≠ O →
            ∃ w3, mlx5e_ktls_del_rx sched w' = Ok tt w3).
  { intros w' c' Hd' Hc' Hready.
    destruct (mlx5e_ktls_del_rx_run sched w' p c' Hd' Hc' Hready Hne Hcover)
      as (k & fin & Hrun & _).
    eauto. }
  destruct (test_bit MLX5E_PRIV_RX_FLAG_DELETING (flags c)) eqn:Hdel; mrun.
  - eexists. split; [reflexivity|]. split; [|discriminate].
    eapply Hret; [exact Hd|cbn; apply lookup_insert_eq|right; cbn; lia].
  - eexists. split; [reflexivity|]. split.
    + eapply Hret; [exact Hd|cbn; apply lookup_insert_eq|left; reflexivity].
    + intros _. destruct fs_add_sk; mrun;
        (eexists; split; [reflexivity|]);
        (eapply Hret;
         [exact Hd|cbn; apply lookup_insert_eq|right; cbn; lia]).
Qed.


(** X8.  Teardown that times out.  When a fetch is still outstanding and the
    reference count does not come down to 1 within the timeout,
    [mlx5e_ktls_del_rx] logs the count it last read and goes on: it frees the
    context while the response buffer of the fetch still points to it, and the
    completion of that fetch, when it arrives, reads the freed context. *)
Theorem mlx5e_ktls_del_rx_timeout_frees_under_fetch
    (sched : list sleep_outcome) (w : world) (p buf : ptr)
    (c : mlx5e_ktls_offload_context_rx) (b : mlx5e_ktls_rx_resync_buf) :
  driver_ctx w = Some p →
  priv_rxs w !! p = Some c →
  rule_work_pending (rule c) = true ∨ add_ctx c ≠ O →
  resync_bufs w !! buf = Some b →
  buf_priv_rx b = Some p →
  sched ≠ [] →
  msecs_to_jiffies MLX5E_KTLS_RX_RESYNC_TIMEOUT ≤ elapsed sched →
  let r0 := refcnt (resync c) - (if work_pending (resync c) then 1 else 0) in
  (∀ i, (i ≤ length sched)%nat → refcnt_after r0 sched i ≠ 1) →
  ∃ w' v,
    mlx5e_ktls_del_rx sched w = Ok tt w' ∧
    v ≠ 1 ∧
    Ev_netdev_warn v ∈ trace w' ∧
    priv_rxs w' !! p = None ∧
    resync_bufs w' !! buf = Some b ∧
    mlx5e_ktls_handle_get_psv_completion buf w' = Fault USE_AFTER_FREE.
Proof.
  intros Hd Hc Hadd Hb Hp Hne Hcover r0 Hbusy.
  destruct (mlx5e_ktls_del_rx_run sched w p c Hd Hc Hadd Hne Hcover)
    as (k & fin & Hrun & Hk & Hfin).
  change (refcnt (resync (quiesced_ctx c))) with r0 in Hfin.
  destruct Hfin as [(_ & Hone)|(-> & Hk1)].
  { destruct (Hbusy k Hk Hone). }
  eexists _, (refcnt_after r0 sched (k - 1)).
  split; [exact Hrun|].
  split; [apply Hbusy; lia|].
  split.
  { cbn -[quiesce_trace poll_trace teardown_trace polled].
    rewrite !elem_of_app, elem_of_cons. auto. }
  split; [cbn; apply lookup_delete_eq|].
  split; [exact Hb|].
  unfold mlx5e_ktls_handle_get_psv_completion.
  unfold_prims. cbn -[quiesce_trace poll_trace teardown_trace polled].
  rewrite Hb. cbn -[quiesce_trace poll_trace teardown_trace polled].
  rewrite Hp. cbn -[quiesce_trace poll_trace teardown_trace polled].
  rewrite lookup_delete_eq. reflexivity.
Qed.

End lifecycle.

(** ** How long [wait_for_resync] can take *)

Lemma elapsed_take_ge (d : Z) (sched : list sleep_outcome) :
  Forall (λ o, d ≤ slept o) sched →
  ∀ i, (i ≤ length sched)%nat → Z.of_nat i * d ≤ elapsed (take i sched).
Proof.
  induction 1 as [|o sched Ho _ IH]; intros [|i] Hi; cbn in Hi;
    rewrite ?take_0, ?elapsed_nil; try lia.
  cbn [take]. rewrite elapsed_cons. specialize (IH i ltac:(lia)). lia.
Qed.

Lemma poll_trace_sleeps (p : ptr) (vs : list Z) :
  length (filter (λ e, e = Ev_msleep 20) (poll_trace p vs)) = length vs.
Proof.
  unfold poll_trace. induction vs as [|v vs IH]; [reflexivity|].
  cbn [map concat]. rewrite filter_app, length_app, IH.
  rewrite filter_cons_False by discriminate.
  rewrite filter_cons_True by reflexivity. reflexivity.
Qed.

Section wait_bound.
Context `{ktls_hw}.

(** X9.  When every [msleep(20)] lasts at least [d] jiffies, [wait_for_resync]
    sleeps fewer than [1 + timeout / d] times before it returns: with the
    timeout of 20000 ms and sleeps of at least 20 ms, at most a thousand
    times.  Each sleep is one [msleep(20)] in the log, after a poll that did
    not read 1. *)
Theorem wait_for_resync_sleeps_bounded
    (sched : list sleep_outcome) (d : Z) (w : world) (p : ptr)
    (c : mlx5e_ktls_offload_context_rx) :
  priv_rxs w !! p = Some c →
  sched ≠ [] →
  msecs_to_jiffies MLX5E_KTLS_RX_RESYNC_TIMEOUT ≤ elapsed sched →
  0 < d →
  Forall (λ o, d ≤ slept o) sched →
  ∃ (w' : world) (k : nat) (t : list event),
    wait_for_resync sched p w = Ok tt w' ∧
    trace w' = trace w ++ t ∧
    length (filter (λ e, e = Ev_msleep 20) t) = k ∧
    (k ≤ length sched)%nat ∧
    ((1 < k)%nat →
     (Z.of_nat k - 1) * d < msecs_to_jiffies MLX5E_KTLS_RX_RESYNC_TIMEOUT) ∧
    jiffies w' = jiffies w + elapsed (take k sched).
Proof.
  intros Hc Hne Hcover Hd Hslow.
  destruct (wait_for_resync_loop_run
              (jiffies w + msecs_to_jiffies MLX5E_KTLS_RX_RESYNC_TIMEOUT)
              p sched w c Hc Hne)
    as (k & fin & Hk & Hrun & Hpoll & Htime & Hfin); [lia|].
  exists (after_wait p c sched k fin w), k,
    (poll_trace p (polled (refcnt (resync c)) sched k) ++ fin).
  split; [unfold wait_for_resync; mstep; exact Hrun|].
  split; [reflexivity|].
  split.
  { rewrite filter_app, length_app, poll_trace_sleeps.
    unfold polled. rewrite length_map, length_seq.
    destruct Hfin as [(-> & _)|(-> & _)];
      rewrite filter_cons_False by discriminate; cbn; lia. }
  split; [exact Hk|].
  split; [|reflexivity].
  intros Hk1.
  specialize (Htime (k - 1)%nat ltac:(lia)).
  pose proof (elapsed_take_ge d sched Hslow (k - 1)%nat ltac:(lia)) as Hge.
  unfold jiffies_after in Htime.
  replace (Z.of_nat k - 1) with (Z.of_nat (k - 1)) by lia. lia.
Qed.

End wait_bound.

(** ** The queue and the buffers over all interleavings *)

Section interleavings.
Context `{ktls_hw}.





Lemma reachable_inv (p0 : ptr) (s0 s : sys) :
  init p0 s0 → rtc (step p0) s0 s → inv p0 s.
Proof.
  intros Hinit Hreach. revert s Hreach. apply rtc_ind_r.
  - apply init_inv. exact Hinit.
  - intros s1 s2 _ Hstep IH. eapply step_inv; [exact IH|exact Hstep].
Qed.

(** X11.  In every state the system reaches from a freshly offloaded
    connection, the response buffers of the fetches posted and not yet
    completed, together with the one the completion handler is working on, are
    pairwise distinct, allocated, and point back to the context; and the
    driver-context slot holds the context or, once teardown has cleared it,
    nothing. *)
Theorem posted_fetches_own_their_buffers (p0 : ptr) (s0 s : sys) :
  init p0 s0 →
  rtc (step p0) s0 s →
  NoDup (compl_buf (compl s) ++ inflight s) ∧
  (∀ buf, buf ∈ compl_buf (compl s) ++ inflight s →
          ∃ b, resync_bufs (sw s) !! buf = Some b ∧
               buf_priv_rx b = Some p0) ∧
  (driver_ctx (sw s) = None ∨ driver_ctx (sw s) = Some p0) ∧
  (∀ buf, compl s = C_inspect buf →
          is_Some (priv_rxs (sw s) !! p0) →
          ∃ w', compl_step (compl s) (sw s) = Ok (C_dec buf p0) w').
Proof.
  intros Hinit Hreach.
  destruct (reachable_inv p0 s0 s Hinit Hreach)
    as (Hslot & _ & (Hnd & Hall) & _).
  split_and!; auto.
  intros buf Hpc [c Hc]. rewrite Hpc in *.
  destruct (Hall buf) as (b & Hb & Hp); [cbn; apply elem_of_cons; auto|].
  cbn [compl_step]. unfold get_psv_completion_inspect.
  crunch; eauto.
Qed.

(** X12.  A successful [mlx5e_ktls_add_rx] hands the system over in its
    initial condition: whenever it returns 0, on a heap where the address it
    got from [kzalloc] was free and after a history in which the reference
    count of that address is balanced, every thread being at rest, the context
    is registered, its reference count is 1 and its resync task is not
    pending. *)
Theorem mlx5e_ktls_add_rx_init
    (env : add_rx_env) (s : Z) (info : tls12_crypto_info_aes_gcm_128)
    (start_offload_tcp_sn : Z) (w w1 : world) (p : ptr) :
  kzalloc_priv_rx env = Some p →
  priv_rxs w !! p = None →
  incs p (trace w) = decs p (trace w) →
  mlx5e_ktls_add_rx env s info start_offload_tcp_sn w = Ok 0 w1 →
  init p (idle_sys w1).
Proof.
  intros Hk Hfresh Hbal.
  unfold mlx5e_ktls_add_rx, mlx5e_ktls_create_tir, post_rx_param_wqes,
    post_static_params, post_progress_params, resync_init, accel_rule_init.
  rewrite Hk. crunch; (intros Heq; injection Heq as Heq; subst).
  all: try (exfalso;
            first [ discriminate Heq
                  | vm_compute in Heq; discriminate Heq
                  | match goal with
                    | Hz : (- _ =? 0) = true |- _ =>
                        vm_compute in Hz; discriminate Hz
                    end
                  | match goal with
                    | Hz : (_ =? 0) = false |- _ =>
                        apply Z.eqb_neq in Hz; congruence
                    end ]).
  unfold init, idle_sys. cbn.
  rewrite <- ?app_assoc. split_and!; try reflexivity.
  - count_events; lia.
  - rewrite !insert_insert_eq. eexists. split; [apply lookup_insert_eq|].
    split; reflexivity.
Qed.

(** X13.  While the context is allocated, no thread reads through a null or
    freed pointer.  In every state the system reaches from a freshly offloaded
    connection in which the context has not been freed, the next action of the
    fast path, of the worker, of the completion handler, of the flow-install
    task, of the completion of the initial entries and of the record-framing
    layer's answer does not fault, and the next action of teardown faults only
    when it is a further call of [mlx5e_ktls_del_rx] that finds the slot
    cleared. *)
Theorem no_fault_while_allocated (p0 : ptr) (s0 s : sys) :
  init p0 s0 →
  rtc (step p0) s0 s →
  is_Some (priv_rxs (sw s) !! p0) →
  (∀ f, napi_step (napi s) (sw s) ≠ Fault f) ∧
  (∀ env f, worker_step p0 env (worker s) (sw s) ≠ Fault f) ∧
  (∀ f, compl_step (compl s) (sw s) ≠ Fault f) ∧
  (∀ o f, del_step o (del s) (sw s) = Fault f →
          del s = D_idle ∧ driver_ctx (sw s) = None ∧ f = NULL_DEREF) ∧
  (∀ f, mlx5e_ktls_handle_ctx_completion p0 (sw s) ≠ Fault f) ∧
  (∀ fs_add_sk f, process_rule_work fs_add_sk p0 (sw s) ≠ Fault f) ∧
  (∀ seq_no rcd_sn f,
     mlx5e_ktls_rx_resync seq_no rcd_sn (sw s) ≠ Fault f).
Proof.
  intros Hinit Hreach [c Hctx].
  destruct (reachable_inv p0 s0 s Hinit Hreach)
    as (Hslot & (Hn & Hw & Hc & Hd) & (Hnd & Hall) & _).
  split_and!.
  - intros f. destruct (napi s) eqn:Hpc; cbn in Hn; subst;
      cbn [napi_step]; destruct Hslot as [Hs|Hs]; crunch; discriminate.
  - intros env f. destruct (worker s) eqn:Hpc; cbn in Hw; subst;
      cbn [worker_step]; unfold resync_post_get_progress_params;
      crunch; discriminate.
  - intros f. destruct (compl s) as [|buf|buf p|buf] eqn:Hpc;
      cbn in Hc, Hall; subst; cbn [compl_step];
      unfold get_psv_completion_inspect.
    + crunch. discriminate.
    + destruct (Hall buf) as (b & Hb & Hp); [apply elem_of_cons; auto|].
      crunch; discriminate.
    + crunch; discriminate.
    + crunch; discriminate.
  - intros o f. destruct (del s) eqn:Hpc; cbn in Hd; subst;
      cbn [del_step]; unfold del_rx_teardown, msleep, time_before;
      destruct Hslot as [Hs|Hs]; crunch;
      first [discriminate | intros [= <-]; auto].
  - intros f. unfold mlx5e_ktls_handle_ctx_completion. crunch; discriminate.
  - intros fs f. unfold process_rule_work, accel_rule_handle_work.
    crunch; discriminate.
  - intros S R f.
    unfold mlx5e_ktls_rx_resync, resync_handle_seq_match, post_static_params.
    destruct Hslot as [Hs|Hs]; crunch; discriminate.
Qed.

End interleavings.

(** ** The deletion flag *)


Section deletion_flag.
Context `{ktls_hw}.






End deletion_flag.

(** ** The receive data path *)

Ltac rxsimpl := cbn -[Z.modulo Z.pow Z.add Z.sub u64_inc].

Section receive_path.
Context `{ktls_hw}.

(** [resync_queue_get_psv] where it queues nothing: no context registered,
    or the deletion flag set. *)
Lemma resync_queue_get_psv_refuses (w : world) :
  (∀ p, driver_ctx w = Some p → is_Some (priv_rxs w !! p)) →
  resync_accepted w = false →
  resync_queue_get_psv w = Ok false w.
Proof.
  intros Hheap Hq. unfold resync_queue_get_psv, resync_accepted, ctx_at in *.
  mrun. destruct (driver_ctx w) as [p|] eqn:Hd; [|reflexivity].
  destruct (Hheap p eq_refl) as [c Hc]. rewrite Hc in Hq. cbn [default id] in Hq.
  apply negb_false_iff in Hq. mrun. reflexivity.
Qed.

Lemma resync_queue_get_psv_accepts (w : world) :
  (∀ p, driver_ctx w = Some p → is_Some (priv_rxs w !! p)) →
  resync_accepted w = true →
  ∃ w', resync_queue_get_psv w = Ok true w'.
Proof.
  intros Hheap Hq. unfold resync_queue_get_psv, resync_accepted, ctx_at in *.
  mrun. destruct (driver_ctx w) as [p|] eqn:Hd; [|discriminate Hq].
  destruct (Hheap p eq_refl) as [c Hc]. rewrite Hc in Hq. cbn [default id] in Hq.
  apply negb_true_iff in Hq.
  destruct (work_pending (resync c)) eqn:Hp; mrun; eauto.
Qed.

(** [resync_update_sn] by what the lookup returns. *)
Lemma resync_update_sn_run (env : rx_env) (st : rx_path) (w : world) :
  resync_update_sn env st w =
    match rx_lookup env (netdev_ifindex (rq st)) (skb st) with
    | Some s =>
        if sk_state s =? TCP_TIME_WAIT then Ok st w
        else
          match resync_queue_get_psv w with
          | Ok true w' => Ok (rx_started env s st) w'
          | Ok false w' => Ok st w'
          | Fault f => Fault f
          | Blocked => Blocked
          end
    | None => Ok st w
    end.
Proof.
  unfold resync_update_sn, rx_lookup, rx_started, rx_th, rx_iphdr_len,
    rx_iph.
  set (b := skb st).
  set (iph := __vlan_get_protocol env b (skb_bytes b ethhdr_h_proto 2)).
  destruct (iph_version b iph =? 4) eqn:Hv;
    [|destruct (CONFIG_IPV6 env) eqn:Hcfg]; try reflexivity.
  all: match goal with
       | |- context [match ?l with Some _ => _ | None => _ end] =>
           lazymatch l with
           | inet_lookup_established _ _ _ _ _ _ => destruct l as [s|] eqn:Hl
           | __inet6_lookup_established _ _ _ _ _ _ _ =>
               destruct l as [s|] eqn:Hl
           end
       end; try reflexivity.
  all: destruct (sk_state s =? TCP_TIME_WAIT) eqn:Htw; try reflexivity.
  all: unfold bind; destruct (resync_queue_get_psv w) as [[|] w'| |];
    try reflexivity.
  all: unfold ret; do 2 f_equal; rxsimpl; repeat f_equal;
    unfold sizeof_iphdr, sizeof_ipv6hdr, sizeof_tcphdr; lia.
Qed.

(** X16.  A packet flagged for resync is always counted in
    [tls_resync_req_pkt].  A resync request is started, with the four bytes of
    the TCP sequence number and with [skb->len - (depth + sizeof(iphdr or
    ipv6hdr) + sizeof(tcphdr))] as length, exactly when the lookup finds a
    socket that is not in TIME_WAIT and whose context is registered and not
    being deleted; the socket is then attached to the packet with
    [sock_edemux] as destructor, [tls_resync_req_start] is counted and the
    driver state changes as [resync_queue_get_psv] changes it.  In every other
    case the packet and the driver state are left as they were and the socket
    found is dropped. *)
Theorem mlx5e_ktls_handle_rx_skb_resync
    (env : rx_env) (cqe_bcnt : Z) (st : rx_path) (w : world) :
  (∀ p, driver_ctx w = Some p → is_Some (priv_rxs w !! p)) →
  let counted := with_rq_stats inc_tls_resync_req_pkt st in
  ∃ st' w',
    mlx5e_ktls_handle_rx_skb env CQE_TLS_OFFLOAD_RESYNC cqe_bcnt st w
      = Ok st' w' ∧
    match rx_lookup env (netdev_ifindex (rq st)) (skb st) with
    | Some s =>
        if negb (sk_state s =? TCP_TIME_WAIT) && resync_accepted w then
          resync_queue_get_psv w = Ok true w' ∧
          st' = rx_started env s counted
        else st' = counted ∧ w' = w
    | None => st' = counted ∧ w' = w
    end.
Proof.
  intros Hheap counted. subst counted.
  unfold mlx5e_ktls_handle_rx_skb. rewrite resync_update_sn_run.
  cbn [with_rq_stats rq skb netdev_ifindex].
  destruct (rx_lookup _ _ _) as [s|]; [|eauto].
  destruct (sk_state s =? TCP_TIME_WAIT); cbn [negb andb]; [eauto|].
  destruct (resync_accepted w) eqn:Hq.
  - destruct (resync_queue_get_psv_accepts w Hheap Hq) as [w' Hw'].
    rewrite Hw'. eauto.
  - rewrite (resync_queue_get_psv_refuses w Hheap Hq). eauto.
Qed.

(** X17.  Whatever the completion says, the receive path returns and advances
    exactly one of the three per-packet counters; it marks the packet
    decrypted only for a decrypted completion, adding the byte count of the
    completion to [tls_decrypted_bytes]; it never changes the bytes or the
    length of the packet; and it leaves the driver state alone unless the
    completion asks for a resync. *)
Theorem mlx5e_ktls_handle_rx_skb_counts
    (env : rx_env) (cqe : cqe_tls_offload) (cqe_bcnt : Z) (st : rx_path)
    (w : world) :
  (∀ p, driver_ctx w = Some p → is_Some (priv_rxs w !! p)) →
  let got (c : cqe_tls_offload) : bool := bool_decide (cqe = c) in
  let s := rq_stats (rq st) in
  ∃ st' w',
    mlx5e_ktls_handle_rx_skb env cqe cqe_bcnt st w = Ok st' w' ∧
    let s' := rq_stats (rq st') in
    tls_decrypted_packets s' =
      (if got CQE_TLS_OFFLOAD_DECRYPTED then u64_inc (tls_decrypted_packets s)
       else tls_decrypted_packets s) ∧
    tls_decrypted_bytes s' =
      (if got CQE_TLS_OFFLOAD_DECRYPTED
       then (tls_decrypted_bytes s + cqe_bcnt) mod 2 ^ 64
       else tls_decrypted_bytes s) ∧
    tls_resync_req_pkt s' =
      (if got CQE_TLS_OFFLOAD_RESYNC then u64_inc (tls_resync_req_pkt s)
       else tls_resync_req_pkt s) ∧
    tls_err s' =
      (if got CQE_TLS_OFFLOAD_DECRYPTED || got CQE_TLS_OFFLOAD_RESYNC
       then tls_err s else u64_inc (tls_err s)) ∧
    decrypted (skb st') =
      (got CQE_TLS_OFFLOAD_DECRYPTED || decrypted (skb st)) ∧
    data (skb st') = data (skb st) ∧
    len (skb st') = len (skb st) ∧
    netdev_ifindex (rq st') = netdev_ifindex (rq st) ∧
    (got CQE_TLS_OFFLOAD_RESYNC = false →
     w' = w ∧ request_start st' = request_start st ∧
     skb_sk (skb st') = skb_sk (skb st) ∧
     destructor (skb st') = destructor (skb st) ∧
     tls_resync_req_start s' = tls_resync_req_start s).
Proof.
  intros Hheap got s. subst got s.
  destruct cqe; cbn [mlx5e_ktls_handle_rx_skb];
    rewrite ?resync_update_sn_run;
    cbn [with_rq_stats rq skb netdev_ifindex].
  3: destruct (rx_lookup _ _ _) as [sk0|];
       [destruct (sk_state sk0 =? TCP_TIME_WAIT);
        [|destruct (resync_accepted w) eqn:Hq;
          [destruct (resync_queue_get_psv_accepts w Hheap Hq) as [w' Hw'];
           rewrite Hw'
          |rewrite (resync_queue_get_psv_refuses w Hheap Hq)]]|].
  all: do 2 eexists; (split; [reflexivity|]); rxsimpl;
    split_and!; first [reflexivity | discriminate | intros _; split_and!; reflexivity].
Qed.

Lemma skb_bytes_ext (b1 b2 : sk_buff) (off : Z) (n : nat) :
  (∀ i, off ≤ i < off + Z.of_nat n → data b1 i = data b2 i) →
  skb_bytes b1 off n = skb_bytes b2 off n.
Proof.
  intros Hagree. unfold skb_bytes. apply map_ext_in. intros i Hi.
  apply in_seq in Hi. apply Hagree. lia.
Qed.

(** X18.  [resync_update_sn] looks at a packet only through its length, the
    depth of its link-layer header, the version nibble of the IP header and
    the bytes of the addresses, the ports and the sequence number, found at
    fixed offsets from that depth: two packets that agree there are treated
    alike, whatever their header-length fields, options and payload say. *)
Theorem resync_update_sn_reads
    (env : rx_env) (st : rx_path) (d : Z → Z) (w : world) :
  let st2 := with_skb (set_data d) st in
  rx_iph env (skb st2) = rx_iph env (skb st) →
  iph_version (skb st2) (rx_iph env (skb st)) =
    iph_version (skb st) (rx_iph env (skb st)) →
  (∀ i, rx_reads env (skb st) i = true → d i = data (skb st) i) →
  resync_update_sn env st2 w =
    match resync_update_sn env st w with
    | Ok r w' => Ok (with_skb (set_data d) r) w'
    | Fault f => Fault f
    | Blocked => Blocked
    end.
Proof.
  intros st2 Hiph Hv Hdata.
  assert (Hth : rx_th env (skb st2) = rx_th env (skb st)).
  { unfold rx_th, rx_iphdr_len. rewrite Hiph, Hv. reflexivity. }
  assert (Hbytes : ∀ off n,
            (∀ i, off ≤ i < off + Z.of_nat n →
                  rx_reads env (skb st) i = true) →
            skb_bytes (skb st2) off n = skb_bytes (skb st) off n).
  { intros off n Hin. apply skb_bytes_ext. intros i Hi.
    apply (Hdata i). apply Hin. exact Hi. }
  assert (Hlook : rx_lookup env (netdev_ifindex (rq st2)) (skb st2)
                  = rx_lookup env (netdev_ifindex (rq st)) (skb st)).
  { unfold rx_lookup. rewrite Hth, Hiph, Hv.
    change (netdev_ifindex (rq st2)) with (netdev_ifindex (rq st)).
    unfold rx_reads in Hbytes.
    destruct (iph_version (skb st) (rx_iph env (skb st)) =? 4);
      [|destruct (CONFIG_IPV6 env); [|reflexivity]];
      rewrite !Hbytes; try reflexivity;
      intros i Hi;
      unfold iphdr_saddr, iphdr_daddr, ipv6hdr_saddr, ipv6hdr_daddr,
        tcphdr_source, tcphdr_dest, tcphdr_seq in *; cbn in Hi; lia. }
  rewrite !resync_update_sn_run, Hlook.
  destruct (rx_lookup env (netdev_ifindex (rq st)) (skb st)) as [s|] eqn:Hl;
    [|reflexivity].
  destruct (sk_state s =? TCP_TIME_WAIT); [reflexivity|].
  destruct (resync_queue_get_psv w) as [[|] w'| |]; try reflexivity.
  do 2 f_equal. unfold rx_started. rewrite Hth.
  change (len (skb st2)) with (len (skb st)).
  rewrite Hbytes; [reflexivity|].
  intros i Hi. unfold rx_reads. unfold rx_lookup in Hl.
  destruct (iph_version (skb st) (rx_iph env (skb st)) =? 4);
    [|destruct (CONFIG_IPV6 env); [|discriminate Hl]];
    unfold tcphdr_seq in *; cbn in Hi; lia.
Qed.

End receive_path.

(** ** The hypotheses of the theorems above at concrete inputs *)

Section more_examples.
#[local] Existing Instance example_hw.

Lemma offloaded_world_ctx :
  priv_rxs offloaded_world !! 1%positive = Some (ctx_at offloaded_world 1).
Proof. vm_compute. reflexivity. Qed.

Lemma offloaded_world_heap :
  ∀ p, driver_ctx offloaded_world = Some p →
       is_Some (priv_rxs offloaded_world !! p).
Proof. intros p [= <-]. rewrite offloaded_world_ctx. eauto. Qed.



Lemma mlx5e_ktls_add_rx_init_witness :
  kzalloc_priv_rx good_add_env = Some 1%positive ∧
  priv_rxs fresh_world !! 1%positive = None ∧
  incs 1 (trace fresh_world) = decs 1 (trace fresh_world) ∧
  mlx5e_ktls_add_rx good_add_env 10 example_info 1000 fresh_world
    = Ok 0 offloaded_world ∧
  init 1 (idle_sys offloaded_world).
Proof.
  assert (Hk : kzalloc_priv_rx good_add_env = Some 1%positive)
    by reflexivity.
  assert (Hfresh : priv_rxs fresh_world !! 1%positive = None)
    by (vm_compute; reflexivity).
  assert (Hbal : incs 1 (trace fresh_world) = decs 1 (trace fresh_world))
    by reflexivity.
  assert (Hrun : mlx5e_ktls_add_rx good_add_env 10 example_info 1000
                   fresh_world = Ok 0 offloaded_world)
    by (vm_compute; reflexivity).
  split_and!; try assumption.
  exact (mlx5e_ktls_add_rx_init good_add_env 10 example_info 1000
           fresh_world offloaded_world 1 Hk Hfresh Hbal Hrun).
Defined.

Lemma sleeps_through_covers :
  msecs_to_jiffies MLX5E_KTLS_RX_RESYNC_TIMEOUT ≤ elapsed sleeps_through.
Proof. apply Z.leb_le. vm_compute. reflexivity. Qed.

Lemma mlx5e_ktls_del_rx_waits_for_add_ctx_witness :
  driver_ctx offloaded_world = Some 1%positive ∧
  priv_rxs offloaded_world !! 1%positive = Some (ctx_at offloaded_world 1) ∧
  rule_work_pending (rule (ctx_at offloaded_world 1)) = false ∧
  add_ctx (ctx_at offloaded_world 1) = O ∧
  sleeps_through ≠ [] ∧
  msecs_to_jiffies MLX5E_KTLS_RX_RESYNC_TIMEOUT ≤ elapsed sleeps_through ∧
  mlx5e_ktls_del_rx sleeps_through offloaded_world = Blocked.
Proof.
  assert (Hd : driver_ctx offloaded_world = Some 1%positive)
    by (vm_compute; reflexivity).
  assert (Hrule : rule_work_pending (rule (ctx_at offloaded_world 1))
                  = false)
    by (vm_compute; reflexivity).
  assert (Hadd : add_ctx (ctx_at offloaded_world 1) = O)
    by (vm_compute; reflexivity).
  assert (Hne : sleeps_through ≠ []) by discriminate.
  split_and!; try assumption;
    try exact offloaded_world_ctx; try exact sleeps_through_covers.
  exact (proj1 (mlx5e_ktls_del_rx_waits_for_add_ctx sleeps_through
                  (FLOW_HANDLE 8) offloaded_world 1
                  (ctx_at offloaded_world 1) Hd offloaded_world_ctx Hrule
                  Hadd Hne sleeps_through_covers)).
Defined.


Lemma busy_world_ctx :
  priv_rxs busy_world !! 1%positive = Some (ctx_at busy_world 1).
Proof. vm_compute. reflexivity. Qed.

Lemma mlx5e_ktls_del_rx_timeout_frees_under_fetch_witness :
  driver_ctx busy_world = Some 1%positive ∧
  priv_rxs busy_world !! 1%positive = Some (ctx_at busy_world 1) ∧
  rule_work_pending (rule (ctx_at busy_world 1)) = true ∧
  resync_bufs busy_world !! 2%positive = Some (buf_at busy_world 2) ∧
  buf_priv_rx (buf_at busy_world 2) = Some 1%positive ∧
  sleeps_through ≠ [] ∧
  msecs_to_jiffies MLX5E_KTLS_RX_RESYNC_TIMEOUT ≤ elapsed sleeps_through ∧
  ∃ w',
    mlx5e_ktls_del_rx sleeps_through busy_world = Ok tt w' ∧
    mlx5e_ktls_handle_get_psv_completion 2 w' = Fault USE_AFTER_FREE.
Proof.
  assert (Hd : driver_ctx busy_world = Some 1%positive)
    by (vm_compute; reflexivity).
  assert (Hrule : rule_work_pending (rule (ctx_at busy_world 1)) = true)
    by (vm_compute; reflexivity).
  assert (Hb : resync_bufs busy_world !! 2%positive
               = Some (buf_at busy_world 2))
    by (vm_compute; reflexivity).
  assert (Hp : buf_priv_rx (buf_at busy_world 2) = Some 1%positive)
    by (vm_compute; reflexivity).
  assert (Hne : sleeps_through ≠ []) by discriminate.
  assert (Hbusy : ∀ i, (i ≤ length sleeps_through)%nat →
            refcnt_after
              (refcnt (resync (ctx_at busy_world 1))
               - (if work_pending (resync (ctx_at busy_world 1))
                  then 1 else 0))
              sleeps_through i ≠ 1)
    by (intros [|[|i]] Hi; [vm_compute; discriminate..|cbn in Hi; lia]).
  split_and!; try assumption;
    try exact busy_world_ctx; try exact sleeps_through_covers.
  destruct (mlx5e_ktls_del_rx_timeout_frees_under_fetch sleeps_through
              busy_world 1 2 (ctx_at busy_world 1) (buf_at busy_world 2)
              Hd busy_world_ctx (or_introl Hrule) Hb Hp Hne
              sleeps_through_covers Hbusy)
    as (w' & v & Hrun & _ & _ & _ & _ & Hfault).
  exists w'. split; assumption.
Defined.

Lemma started_world_ctx :
  priv_rxs started_world !! 1%positive = Some (ctx_at started_world 1).
Proof. vm_compute. reflexivity. Qed.

Lemma resync_handle_work_spec_witness :
  priv_rxs started_world !! 1%positive = Some (ctx_at started_world 1) ∧
  ∃ w', resync_handle_work good_psv_env 1 started_world = Ok tt w'.
Proof.
  split; [exact started_world_ctx|].
  destruct (resync_handle_work_spec good_psv_env started_world 1
              (ctx_at started_world 1) started_world_ctx)
    as (w' & Hrun & _).
  exists w'. exact Hrun.
Defined.

Lemma resync_attempt_round_trip_witness :
  driver_ctx offloaded_world = Some 1%positive ∧
  priv_rxs offloaded_world !! 1%positive = Some (ctx_at offloaded_world 1) ∧
  test_bit MLX5E_PRIV_RX_FLAG_DELETING (flags (ctx_at offloaded_world 1))
    = false ∧
  work_pending (resync (ctx_at offloaded_world 1)) = false ∧
  kzalloc_buf good_psv_env = Some 2%positive ∧
  resync_bufs offloaded_world !! 2%positive = None ∧
  dma_mapping_error good_psv_env = false ∧
  ∃ w1, resync_queue_get_psv offloaded_world = Ok true w1.
Proof.
  assert (Hd : driver_ctx offloaded_world = Some 1%positive)
    by (vm_compute; reflexivity).
  assert (Hdel : test_bit MLX5E_PRIV_RX_FLAG_DELETING
                   (flags (ctx_at offloaded_world 1)) = false)
    by (vm_compute; reflexivity).
  assert (Hidle : work_pending (resync (ctx_at offloaded_world 1)) = false)
    by (vm_compute; reflexivity).
  assert (Hfresh : resync_bufs offloaded_world !! 2%positive = None)
    by (vm_compute; reflexivity).
  assert (Hroom : mlx5e_wqc_has_room_for (sq_wq (async_icosq offloaded_world))
                    (sq_cc (async_icosq offloaded_world))
                    (sq_pc (async_icosq offloaded_world)) 1 = true)
    by (vm_compute; reflexivity).
  split_and!; try assumption; try reflexivity;
    try exact offloaded_world_ctx.
  destruct (resync_attempt_round_trip good_psv_env offloaded_world 1 2
              (ctx_at offloaded_world 1)
              {| record_tracker_state := 1; auth_state := 0;
                 hw_resync_tcp_sn := 1050 |}
              Hd offloaded_world_ctx Hdel Hidle eq_refl Hfresh eq_refl Hroom)
    as (w1 & w2 & w3 & c2 & Hrun & _).
  exists w1. exact Hrun.
Defined.

Lemma wait_for_resync_sleeps_bounded_witness :
  priv_rxs busy_world !! 1%positive = Some (ctx_at busy_world 1) ∧
  completes_after_2s ≠ [] ∧
  msecs_to_jiffies MLX5E_KTLS_RX_RESYNC_TIMEOUT
    ≤ elapsed completes_after_2s ∧
  0 < 20 ∧
  Forall (λ o, 20 ≤ slept o) completes_after_2s ∧
  ∃ w', wait_for_resync completes_after_2s 1 busy_world = Ok tt w'.
Proof.
  assert (Hne : completes_after_2s ≠ []) by discriminate.
  assert (Hcover : msecs_to_jiffies MLX5E_KTLS_RX_RESYNC_TIMEOUT
                   ≤ elapsed completes_after_2s)
    by (apply Z.leb_le; vm_compute; reflexivity).
  assert (Hd : 0 < 20) by lia.
  assert (Hslow : Forall (λ o, 20 ≤ slept o) completes_after_2s)
    by (refine (bool_decide_unpack _ _); vm_compute; exact I).
  split_and!; try assumption; try exact busy_world_ctx.
  destruct (wait_for_resync_sleeps_bounded completes_after_2s 20 busy_world
              1 (ctx_at busy_world 1) busy_world_ctx Hne Hcover Hd Hslow)
    as (w' & k & t & Hrun & _).
  exists w'. exact Hrun.
Defined.


Lemma posted_fetches_own_their_buffers_witness :
  init 1 offloaded_sys ∧
  rtc (step 1) offloaded_sys fetch_posted_sys ∧
  NoDup (compl_buf (compl fetch_posted_sys) ++ inflight fetch_posted_sys).
Proof.
  split; [exact offloaded_sys_init|].
  split; [exact fetch_posted_reachable|].
  exact (proj1 (posted_fetches_own_their_buffers 1 offloaded_sys
                  fetch_posted_sys offloaded_sys_init
                  fetch_posted_reachable)).
Defined.

Lemma mlx5e_ktls_handle_rx_skb_resync_witness :
  (∀ p, driver_ctx offloaded_world = Some p →
        is_Some (priv_rxs offloaded_world !! p)) ∧
  ∃ st' w',
    mlx5e_ktls_handle_rx_skb example_rx_env CQE_TLS_OFFLOAD_RESYNC 154
      example_rx offloaded_world = Ok st' w'.
Proof.
  split; [exact offloaded_world_heap|].
  destruct (mlx5e_ktls_handle_rx_skb_resync example_rx_env 154 example_rx
              offloaded_world offloaded_world_heap)
    as (st' & w' & Hrun & _).
  exists st', w'. exact Hrun.
Defined.

Lemma mlx5e_ktls_handle_rx_skb_counts_witness :
  (∀ p, driver_ctx offloaded_world = Some p →
        is_Some (priv_rxs offloaded_world !! p)) ∧
  ∃ st' w',
    mlx5e_ktls_handle_rx_skb example_rx_env CQE_TLS_OFFLOAD_DECRYPTED 154
      example_rx offloaded_world = Ok st' w'.
Proof.
  split; [exact offloaded_world_heap|].
  destruct (mlx5e_ktls_handle_rx_skb_counts example_rx_env
              CQE_TLS_OFFLOAD_DECRYPTED 154 example_rx offloaded_world
              offloaded_world_heap)
    as (st' & w' & Hrun & _).
  exists st', w'. exact Hrun.
Defined.

Lemma resync_update_sn_reads_witness :
  let st2 := with_skb (set_data (data example_skb_options)) example_rx in
  rx_iph example_rx_env (skb st2) = rx_iph example_rx_env (skb example_rx) ∧
  iph_version (skb st2) (rx_iph example_rx_env (skb example_rx)) =
    iph_version (skb example_rx) (rx_iph example_rx_env (skb example_rx)) ∧
  (∀ i, rx_reads example_rx_env (skb example_rx) i = true →
        data example_skb_options i = data (skb example_rx) i) ∧
  resync_update_sn example_rx_env st2 offloaded_world =
    match resync_update_sn example_rx_env example_rx offloaded_world with
    | Ok r w' => Ok (with_skb (set_data (data example_skb_options)) r) w'
    | Fault f => Fault f
    | Blocked => Blocked
    end.
Proof.
  assert (Hiph :
    rx_iph example_rx_env
      (skb (with_skb (set_data (data example_skb_options)) example_rx))
    = rx_iph example_rx_env (skb example_rx)) by reflexivity.
  assert (Hv :
    iph_version
      (skb (with_skb (set_data (data example_skb_options)) example_rx))
      (rx_iph example_rx_env (skb example_rx))
    = iph_version (skb example_rx) (rx_iph example_rx_env (skb example_rx)))
    by (vm_compute; reflexivity).
  assert (Hdata : ∀ i, rx_reads example_rx_env (skb example_rx) i = true →
            data example_skb_options i = data (skb example_rx) i).
  { intros i Hi.
    change (rx_reads example_rx_env (skb example_rx) i)
      with ((26 <=? i) && (i <? 34) || (34 <=? i) && (i <? 42)) in Hi.
    change (data example_skb_options i)
      with (if i =? 14 then 70 else if i =? 46 then 128
            else data example_skb i).
    destruct (i =? 14) eqn:H14; [lia|].
    destruct (i =? 46) eqn:H46; [lia|]. reflexivity. }
  split_and!; try assumption.
  exact (resync_update_sn_reads example_rx_env example_rx
           (data example_skb_options) offloaded_world Hiph Hv Hdata).
Defined.




Lemma no_fault_while_allocated_witness :
  init 1 offloaded_sys ∧
  rtc (step 1) offloaded_sys fetch_posted_sys ∧
  is_Some (priv_rxs (sw fetch_posted_sys) !! 1%positive) ∧
  ∀ f, napi_step (napi fetch_posted_sys) (sw fetch_posted_sys) ≠ Fault f.
Proof.
  assert (Halloc : is_Some (priv_rxs (sw fetch_posted_sys) !! 1%positive))
    by (vm_compute; eauto).
  split; [exact offloaded_sys_init|].
  split; [exact fetch_posted_reachable|].
  split; [exact Halloc|].
  exact (proj1 (no_fault_while_allocated 1 offloaded_sys fetch_posted_sys
                  offloaded_sys_init fetch_posted_reachable Halloc)).
Defined.

End more_examples.
